(** * Compliance engine: a shallow embedding of [app/compliance_engine.py]

    The engine is Python code over JSON-shaped values.  The embedding keeps
    the dynamic typing of the source: a rule, a rule file and an LLM answer
    are [pyval]s, a failing operation yields [Raise], and a loop that may run
    for ever is given fuel.  Library primitives the engine only calls
    ([str.lower], [json.loads], the ChromaDB collection, ...) are the fields
    of the class [PyRuntime]. *)

From Stdlib Require Import String Ascii List ZArith QArith Lia Bool.
From Stdlib Require Import Qround Qpower Qabs Lqa.
From Stdlib Require Import DecimalString DecimalNat.
From Stdlib Require PrimFloat FloatOps SpecFloat.
From Stdlib Require Import Uint63.
Import ListNotations.
Set Warnings "-register-all".
Local Open Scope string_scope.
Local Open Scope Z_scope.

(** ** Exceptions and results *)

Module Py.

(** The exceptions the engine can meet, all of them instances of
    [Exception].  [OtherException cls msg] is an instance of any further
    subclass, named by its class, with [msg] for [str(e)]. *)
Inductive exn : Type :=
| KeyError (key : string)
| AttributeError (type_name attr : string)
| TypeError (msg : string)
| JSONDecodeError (msg : string)
| OtherException (cls msg : string).

Inductive result (A : Type) : Type :=
| Return (a : A)
| Raise (e : exn).
Arguments Return {A} a.
Arguments Raise {A} e.

Definition bind {A B : Type} (r : result A) (k : A -> result B) : result B :=
  match r with
  | Return a => k a
  | Raise e => Raise e
  end.

(** ** Floats

    A finite float is given by a rational, else it is an infinity or NaN.
    A float that the code or a JSON text writes as a decimal literal is
    given by that literal ([0.8] stands for the binary64 nearest to 0.8);
    the result of an arithmetic operation is given by its exact binary64
    value, which [round64] computes.  Comparisons are those of Python. *)
Inductive pyfloat : Type :=
| FFin (q : Q)
| FInf (negative : bool)
| FNan.

Section Binary64.

Local Open Scope Q_scope.

(** The integer nearest to [q], the even one of the two when [q] lies half
    way. *)
Definition round_half_even (q : Q) : Z :=
  let f := Qfloor q in
  match Qcompare (q - inject_Z f) (1 # 2) with
  | Lt => f
  | Gt => (f + 1)%Z
  | Eq => if Z.even f then f else (f + 1)%Z
  end.

(** The exponent [e] with [2 ^ e <= q < 2 ^ (e + 1)], for [q > 0]: the
    logarithms of numerator and denominator give it up to one. *)
Definition binade (q : Q) : Z :=
  let e := (Z.log2 (Qnum q) - Z.log2 (Zpos (Qden q)))%Z in
  if Qle_bool (2 ^ e) q then e else (e - 1)%Z.

(** Rounding to 53 significant bits, to nearest and ties to even, for
    [q > 0]. *)
Definition round64_pos (q : Q) : Q :=
  let e := binade q in
  inject_Z (round_half_even (q * 2 ^ (52 - e))) * 2 ^ (e - 52).

(** The binary64 float nearest to [q].  The exponent is not bounded: the
    result is that of IEEE 754 for [2 ^ -1022 <= |q| < 2 ^ 1024], where the
    quotients and products of this program lie. *)
Definition round64 (q : Q) : Q :=
  let q := Qred q in
  match Qcompare q 0 with
  | Eq => 0
  | Gt => round64_pos q
  | Lt => - round64_pos (- q)
  end.

End Binary64.

Definition float_gt (a b : pyfloat) : bool :=
  match a, b with
  | FNan, _ | _, FNan => false
  | FFin x, FFin y => negb (Qle_bool x y)
  | FFin _, FInf neg => neg
  | FInf neg, FFin _ => negb neg
  | FInf na, FInf nb => negb na && nb
  end.

Definition float_eq (a b : pyfloat) : bool :=
  match a, b with
  | FFin x, FFin y => Qeq_bool x y
  | FInf na, FInf nb => Bool.eqb na nb
  | _, _ => false
  end.

Definition float_ge (a b : pyfloat) : bool := float_gt a b || float_eq a b.

(** ** Values *)

Inductive pyval : Type :=
| PyNone
| PyBool (b : bool)
| PyInt (z : Z)
| PyFloat (f : pyfloat)
| PyStr (s : string)
| PyList (l : list pyval)
| PyDict (d : list (string * pyval)).

Definition type_name (v : pyval) : string :=
  match v with
  | PyNone => "NoneType"
  | PyBool _ => "bool"
  | PyInt _ => "int"
  | PyFloat _ => "float"
  | PyStr _ => "str"
  | PyList _ => "list"
  | PyDict _ => "dict"
  end.

(** [str(e)] *)
Definition exn_str (e : exn) : string :=
  match e with
  | KeyError key => "'" ++ key ++ "'"
  | AttributeError ty attr =>
      "'" ++ ty ++ "' object has no attribute '" ++ attr ++ "'"
  | TypeError msg => msg
  | JSONDecodeError msg => msg
  | OtherException _ msg => msg
  end.

(** Truth value of an object, as [if v:] and [or] test it. *)
Definition truthy (v : pyval) : bool :=
  match v with
  | PyNone => false
  | PyBool b => b
  | PyInt z => negb (z =? 0)
  | PyFloat (FFin q) => negb (Qeq_bool q 0)
  | PyFloat _ => true
  | PyStr s => negb (String.length s =? 0)%nat
  | PyList l => negb (Nat.eqb (List.length l) 0)
  | PyDict d => negb (Nat.eqb (List.length d) 0)
  end.

(** [a or b] *)
Definition py_or (a b : pyval) : pyval := if truthy a then a else b.

(** The number a value denotes in a comparison ([bool] is a subclass of
    [int]); [None] for the values that are not numbers. *)
Definition as_number (v : pyval) : option pyfloat :=
  match v with
  | PyBool b => Some (FFin (if b then 1 else 0)%Q)
  | PyInt z => Some (FFin (inject_Z z))
  | PyFloat f => Some f
  | _ => None
  end.

(** [v > f] for a float [f] *)
Definition py_gt_float (v : pyval) (f : pyfloat) : result bool :=
  match as_number v with
  | Some x => Return (float_gt x f)
  | None =>
      Raise (TypeError ("'>' not supported between instances of '"
                          ++ type_name v ++ "' and 'float'"))
  end.

(** [v >= f] for a float [f] *)
Definition py_ge_float (v : pyval) (f : pyfloat) : result bool :=
  match as_number v with
  | Some x => Return (float_ge x f)
  | None =>
      Raise (TypeError ("'>=' not supported between instances of '"
                          ++ type_name v ++ "' and 'float'"))
  end.

(** [max(f, v)] for a float [f]: the builtin keeps its first argument
    unless the second compares greater. *)
Definition py_max_float (f : pyfloat) (v : pyval) : result pyval :=
  bind (py_gt_float v f) (fun greater =>
  Return (if greater then v else PyFloat f)).

(** [v == True], as pandas evaluates it on each cell of a column. *)
Definition py_eq_True (v : pyval) : bool :=
  match as_number v with
  | Some x => float_eq x (FFin 1)
  | None => false
  end.

(** *** Dictionaries with string keys, in insertion order *)

Definition dict : Type := list (string * pyval).

Fixpoint dict_lookup (key : string) (d : dict) : option pyval :=
  match d with
  | [] => None
  | (k, v) :: rest => if String.eqb k key then Some v else dict_lookup key rest
  end.

(** [d[key] = v] *)
Fixpoint dict_set (key : string) (v : pyval) (d : dict) : dict :=
  match d with
  | [] => [(key, v)]
  | (k, w) :: rest =>
      if String.eqb k key then (k, v) :: rest else (k, w) :: dict_set key v rest
  end.

(** [obj.get(key, default)] *)
Definition py_get (obj : pyval) (key : string) (default : pyval) : result pyval :=
  match obj with
  | PyDict d =>
      Return (match dict_lookup key d with Some v => v | None => default end)
  | _ => Raise (AttributeError (type_name obj) "get")
  end.

(** [obj[key]] for a string key *)
Definition py_getitem (obj : pyval) (key : string) : result pyval :=
  match obj with
  | PyDict d =>
      match dict_lookup key d with
      | Some v => Return v
      | None => Raise (KeyError key)
      end
  | PyStr _ => Raise (TypeError "string indices must be integers")
  | PyList _ => Raise (TypeError "list indices must be integers or slices, not str")
  | _ => Raise (TypeError ("'" ++ type_name obj ++ "' object is not subscriptable"))
  end.

Fixpoint chars (s : string) : list pyval :=
  match s with
  | EmptyString => []
  | String c rest => PyStr (String c EmptyString) :: chars rest
  end.

(** The items a [for] loop over [obj] visits. *)
Definition py_iter (obj : pyval) : result (list pyval) :=
  match obj with
  | PyList l => Return l
  | PyStr s => Return (chars s)
  | PyDict d => Return (map (fun kv => PyStr (fst kv)) d)
  | _ => Raise (TypeError ("'" ++ type_name obj ++ "' object is not iterable"))
  end.

(** ** Strings

    A [str] is a [string], one [ascii] per character; [len] and the slice
    indices count characters. *)

Definition len (s : string) : Z := Z.of_nat (String.length s).

Fixpoint str_take (n : nat) (s : string) : string :=
  match n, s with
  | S m, String c rest => String c (str_take m rest)
  | _, _ => EmptyString
  end.

Fixpoint str_drop (n : nat) (s : string) : string :=
  match n, s with
  | S m, String _ rest => str_drop m rest
  | _, _ => s
  end.

(** A slice index brought into [0 .. len s], as [s[i:j]] does. *)
Definition clamp_index (s : string) (i : Z) : Z :=
  let i := if i <? 0 then i + len s else i in
  if i <? 0 then 0 else if len s <? i then len s else i.

(** [s[i:j]] *)
Definition py_slice (s : string) (i j : Z) : string :=
  let lo := clamp_index s i in
  let hi := clamp_index s j in
  if lo <? hi then str_take (Z.to_nat (hi - lo)) (str_drop (Z.to_nat lo) s)
  else EmptyString.

(** [s.startswith(sub)] *)
Fixpoint startswith (sub s : string) : bool :=
  match sub, s with
  | EmptyString, _ => true
  | String a sub', String b s' => Ascii.eqb a b && startswith sub' s'
  | String _ _, EmptyString => false
  end.

(** [sub in s] *)
Fixpoint str_contains (sub s : string) : bool :=
  startswith sub s ||
  match s with
  | EmptyString => false
  | String _ rest => str_contains sub rest
  end.

(** [s.find(sub)]: the lowest index where [sub] occurs, [-1] when it does
    not occur. *)
Fixpoint str_find (sub s : string) : Z :=
  if startswith sub s then 0
  else match s with
       | EmptyString => -1
       | String _ rest =>
           let i := str_find sub rest in
           if i <? 0 then -1 else i + 1
       end.

(** [s.endswith(suffix)] *)
Definition endswith (suffix s : string) : bool :=
  (String.length suffix <=? String.length s)%nat &&
  String.eqb (str_drop (String.length s - String.length suffix) s) suffix.

(** [s.replace(old, '')] for a non-empty [old]: every occurrence of [old],
    scanning from the left, is removed.  [skip] counts the characters of an
    occurrence still to pass over. *)
Fixpoint remove_from (old : string) (skip : nat) (s : string) : string :=
  match s with
  | EmptyString => EmptyString
  | String c rest =>
      match skip with
      | S k => remove_from old k rest
      | O =>
          if startswith old s then remove_from old (String.length old - 1) rest
          else String c (remove_from old O rest)
      end
  end.

Definition str_remove (old s : string) : string := remove_from old O s.

(** *** Letter case in ASCII

    What [str.lower] and [str.upper] do to a text of ASCII characters. *)

Definition lower_char (c : ascii) : ascii :=
  let n := nat_of_ascii c in
  if ((65 <=? n) && (n <=? 90))%nat then ascii_of_nat (n + 32) else c.

Definition upper_char (c : ascii) : ascii :=
  let n := nat_of_ascii c in
  if ((97 <=? n) && (n <=? 122))%nat then ascii_of_nat (n - 32) else c.

Fixpoint map_chars (f : ascii -> ascii) (s : string) : string :=
  match s with
  | EmptyString => EmptyString
  | String c rest => String (f c) (map_chars f rest)
  end.

Definition ascii_lower (s : string) : string := map_chars lower_char s.

End Py.

Import Py.

Declare Scope py_scope.
Delimit Scope py_scope with py.

(** ** Effects

    The engine writes to a ChromaDB collection, calls an LLM client and
    reads the clock.  A computation takes the [world] it starts in and gives
    its outcome with the world it leaves; an exception keeps the writes
    made before it. *)

Record chroma_entry : Type := mk_entry {
  entry_document : string;
  entry_metadata : dict;
  entry_id : string
}.

Record world : Type := mk_world {
  collection : list chroma_entry;
  llm_calls : nat;
  clock_reads : nat
}.

Definition M (A : Type) : Type := world -> result A * world.

Definition ret {A : Type} (a : A) : M A := fun w => (Return a, w).

Definition lift {A : Type} (r : result A) : M A := fun w => (r, w).

Definition mbind {A B : Type} (m : M A) (k : A -> M B) : M B :=
  fun w =>
    match m w with
    | (Return a, w') => k a w'
    | (Raise e, w') => (Raise e, w')
    end.

Notation "x <- m ;; k" := (mbind m (fun x => k))
  (at level 61, m at next level, right associativity) : py_scope.
Notation "m ;;; k" := (mbind m (fun _ => k))
  (at level 61, right associativity) : py_scope.
Local Open Scope py_scope.

(** ** The Python runtime the engine calls into *)

Class PyRuntime : Type := {
  (** [str.lower] and [str.upper] *)
  str_lower : string -> string;
  str_upper : string -> string;
  (** how an f-string renders a value that is not a [str] *)
  py_format : pyval -> string;
  (** [json.loads] *)
  json_loads : string -> result pyval;
  (** the text of a file's bytes as [open(path, 'r')] reads them, in the
      encoding of the locale, and as [open(path, 'r', encoding='utf-8')]
      does; [UnicodeDecodeError] otherwise *)
  decode_locale : string -> result string;
  decode_utf8 : string -> result string;
  (** [collection.add(documents=[d], metadatas=[m], ids=[i])] *)
  chroma_add : list chroma_entry -> chroma_entry -> result (list chroma_entry);
  (** [series.groupby(series).size().to_dict()] on the cells of a column *)
  groupby_size : list pyval -> result (list (pyval * Z));
  (** the value of the n-th [datetime.utcnow()] *)
  utcnow : nat -> Z
}.

(** What [open] meets at an entry of a directory: a file with its bytes,
    or an entry it cannot open and the exception it raises on it (a
    directory, a file without read permission, a dangling link).
    [path_exists] is [os.path.exists] on the entry: true for anything but a
    dangling link. *)
Inductive node : Type :=
| File (bytes : string)
| Unopenable (path_exists : bool) (e : exn).

(** A directory as [os.listdir] enumerates it, each name with its entry.
    Names are looked up as on a case-sensitive file system. *)
Definition directory : Type := list (string * node).

(** An LLM client: the text of its answer to a prompt, or the exception that
    obtaining it raised.  The first argument counts the calls made before. *)
Definition llm_client : Type := nat -> string -> result string.

Record ComplianceEngine : Type := mk_engine {
  openai_client : option llm_client;
  anthropic_client : option llm_client;
  rules : dict
}.

(** One entry of the list [analyze_document] returns. *)
Record verdict : Type := mk_verdict {
  document_id : string;
  rule_type : string;
  rule_id : pyval;
  rule_name : pyval;
  violation_type : pyval;
  severity : pyval;
  pattern_violation : bool;
  pattern_evidence : list string;
  llm_violation : pyval;
  llm_confidence : pyval;
  llm_evidence : pyval;
  llm_explanation : pyval;
  overall_violation : pyval;
  confidence_score : pyval;
  created_at : Z
}.

(** The [summary] of a report; [compliance_score] is always a float. *)
Record report_summary : Type := mk_summary {
  total_violations : Z;
  total_checks : Z;
  violations_by_type : list (pyval * Z);
  violations_by_severity : list (pyval * Z);
  high_confidence_violations : Z;
  compliance_score : pyfloat
}.

(** A report.  [summary = None] is the empty dict [{}]; [detailed_results =
    None] is a report without that key. *)
Record report : Type := mk_report {
  status : string;
  summary : option report_summary;
  detailed_results : option (list verdict)
}.

Definition str_of_nat (n : nat) : string :=
  NilEmpty.string_of_uint (Nat.to_uint n).

Definition dquote : string :=
  String (Ascii false true false false false true false false) EmptyString.

Definition nl : string :=
  String (Ascii false true false true false false false false) EmptyString.

Section Engine.

Context {rt : PyRuntime}.

(** [f"{v}"] *)
Definition format_value (v : pyval) : string :=
  match v with
  | PyStr s => s
  | _ => py_format v
  end.

(** *** chunk_text *)

(** The [while] loop of [chunk_text]; [None] when the loop asks for more than
    [fuel] iterations. *)
Fixpoint chunk_loop (fuel : nat) (text : string) (chunk_size overlap : Z)
    (start : Z) (chunks : list string) : option (list string) :=
  if start <? len text then
    match fuel with
    | O => None
    | S fuel' =>
        let end_ := start + chunk_size in
        let chunk := py_slice text start end_ in
        let chunks := (chunks ++ [chunk])%list in
        let start := end_ - overlap in
        if end_ >=? len text then Some chunks
        else chunk_loop fuel' text chunk_size overlap start chunks
    end
  else Some chunks.

Definition chunk_text (fuel : nat) (text : string) (chunk_size overlap : Z)
  : option (list string) :=
  chunk_loop fuel text chunk_size overlap 0 [].

(** [chunk_text(content, chunk_size=1000, overlap=200)]: the loop of this call
    ends within [len(content)] iterations ([chunk_text_default_fuel] below),
    so the second branch is never taken. *)
Definition chunk_text_default (content : string) : list string :=
  match chunk_text (String.length content) content 1000 200 with
  | Some chunks => chunks
  | None => []
  end.

(** *** add_document_to_vector_db *)

Fixpoint add_chunks (doc_id : string) (metadata : dict) (i : nat)
    (chunks : list string) : M unit :=
  match chunks with
  | [] => ret tt
  | chunk :: rest =>
      (fun w =>
         match chroma_add (collection w)
                 (mk_entry chunk
                    (dict_set "chunk_id" (PyInt (Z.of_nat i)) metadata)
                    (doc_id ++ "_chunk_" ++ str_of_nat i)) with
         | Return c => (Return tt, mk_world c (llm_calls w) (clock_reads w))
         | Raise e => (Raise e, w)
         end) ;;;
      add_chunks doc_id metadata (S i) rest
  end.

Definition add_document_to_vector_db (doc_id content : string) (metadata : dict)
  : M unit :=
  let chunks := chunk_text_default content in
  add_chunks doc_id metadata O chunks.

(** *** check_pattern_compliance *)

Definition context_start (start : Z) : Z := Z.max 0 (start - 100).

Definition context_end (content pattern : string) (start : Z) : Z :=
  Z.min (len content) (start + len pattern + 100).

(** The evidence line of a pattern found in [content]. *)
Definition pattern_context (content pattern : string) : string :=
  let content_lower := str_lower content in
  let start := str_find (str_lower pattern) content_lower in
  let context :=
    py_slice content (context_start start) (context_end content pattern start) in
  "Found '" ++ pattern ++ "' in context: ..." ++ context ++ "...".

(** The [for] loop; [pattern.lower()] exists for a [str] only. *)
Fixpoint pattern_loop (content : string) (patterns : list pyval)
    (violations : list string) : result (list string) :=
  match patterns with
  | [] => Return violations
  | pattern :: rest =>
      match pattern with
      | PyStr p =>
          if str_contains (str_lower p) (str_lower content) then
            pattern_loop content rest
              (violations ++ [pattern_context content p])%list
          else pattern_loop content rest violations
      | _ => Raise (AttributeError (type_name pattern) "lower")
      end
  end.

Definition check_pattern_compliance (content : string) (rule : pyval)
  : result (bool * list string) :=
  bind (py_get rule "patterns" (PyList [])) (fun patterns =>
  bind (py_iter patterns) (fun patterns =>
  bind (pattern_loop content patterns []) (fun violations =>
  Return (0 <? Z.of_nat (List.length violations), violations)))).

(** *** llm_compliance_check *)

Definition build_prompt (content : string) (rule : pyval) : result string :=
  bind (py_getitem rule "name") (fun name =>
  bind (py_getitem rule "description") (fun description =>
  bind (py_get rule "llm_prompt"
          (PyStr "Analyze this document for compliance violations."))
       (fun llm_prompt =>
  Return (nl
    ++ "        Compliance Analysis Request:" ++ nl
    ++ "        " ++ nl
    ++ "        Rule: " ++ format_value name ++ nl
    ++ "        Description: " ++ format_value description ++ nl
    ++ "        Analysis Prompt: " ++ format_value llm_prompt ++ nl
    ++ "        " ++ nl
    ++ "        Document Content:" ++ nl
    ++ "        " ++ py_slice content 0 3000
    ++ "  # Limit content to avoid token limits" ++ nl
    ++ "        " ++ nl
    ++ "        Please analyze the document and respond with:" ++ nl
    ++ "        1. Is there a compliance violation? (Yes/No)" ++ nl
    ++ "        2. Confidence score (0.0 to 1.0)" ++ nl
    ++ "        3. Evidence from the document (specific quotes)" ++ nl
    ++ "        4. Explanation of the violation or compliance" ++ nl
    ++ "        " ++ nl
    ++ "        Format your response as JSON:" ++ nl
    ++ "        {" ++ nl
    ++ "            " ++ dquote ++ "violation" ++ dquote ++ ": true/false," ++ nl
    ++ "            " ++ dquote ++ "confidence" ++ dquote ++ ": 0.0-1.0," ++ nl
    ++ "            " ++ dquote ++ "evidence" ++ dquote ++ ": ["
         ++ dquote ++ "quote1" ++ dquote ++ ", "
         ++ dquote ++ "quote2" ++ dquote ++ "]," ++ nl
    ++ "            " ++ dquote ++ "explanation" ++ dquote ++ ": "
         ++ dquote ++ "detailed explanation" ++ dquote ++ nl
    ++ "        }" ++ nl
    ++ "        ")))).

Definition llm_verdict (violation : bool) (confidence : Q) (explanation : string)
  : pyval :=
  PyDict [("violation", PyBool violation);
          ("confidence", PyFloat (FFin confidence));
          ("evidence", PyList []);
          ("explanation", PyStr explanation)].

(** The three dict literals of [llm_compliance_check]. *)
Definition no_llm_verdict : pyval :=
  llm_verdict false 0 "No LLM API configured".

Definition fail_open_verdict (reply : string) : pyval :=
  llm_verdict true 0.5%Q reply.

Definition failed_verdict (e : exn) : pyval :=
  llm_verdict false 0 ("LLM analysis failed: " ++ exn_str e).

(** The inner [try]: [json.loads(result)], guarded by
    [except json.JSONDecodeError]. *)
Definition parse_response (reply : string) : result pyval :=
  match json_loads reply with
  | Return v => Return v
  | Raise (JSONDecodeError _) => Return (fail_open_verdict reply)
  | Raise e => Raise e
  end.

(** The outer [try ... except Exception as e] around a client call and the
    parsing of its answer. *)
Definition guarded (answer : result string) : pyval :=
  match bind answer parse_response with
  | Return v => v
  | Raise e => failed_verdict e
  end.

Definition call_client (client : llm_client) (prompt : string) : M pyval :=
  fun w =>
    (Return (guarded (client (llm_calls w) prompt)),
     mk_world (collection w) (S (llm_calls w)) (clock_reads w)).

Definition llm_compliance_check (self : ComplianceEngine) (content : string)
    (rule : pyval) : M pyval :=
  prompt <- lift (build_prompt content rule) ;;
  match openai_client self with
  | Some client => call_client client prompt
  | None =>
      match anthropic_client self with
      | Some client => call_client client prompt
      | None => ret no_llm_verdict
      end
  end.

(** *** analyze_document *)

Definition read_clock : M Z :=
  fun w =>
    (Return (utcnow (clock_reads w)),
     mk_world (collection w) (llm_calls w) (S (clock_reads w))).

(** The pattern floor of the confidence score. *)
Definition pattern_floor (has_pattern_violation : bool) : pyfloat :=
  FFin (if has_pattern_violation then 0.8 else 0)%Q.

(** The body of the inner loop: the verdict of one rule. *)
Definition analyze_rule (self : ComplianceEngine) (doc_id content : string)
    (rule_type : string) (rule : pyval) : M verdict :=
  pc <- lift (check_pattern_compliance content rule) ;;
  let has_pattern_violation := fst pc in
  let pattern_evidence := snd pc in
  llm_result <- llm_compliance_check self content rule ;;
  id <- lift (py_getitem rule "id") ;;
  name <- lift (py_getitem rule "name") ;;
  description <- lift (py_getitem rule "description") ;;
  severity <- lift (py_get rule "severity" (PyStr "MEDIUM")) ;;
  llm_violation <- lift (py_get llm_result "violation" (PyBool false)) ;;
  llm_confidence <- lift (py_get llm_result "confidence" (PyFloat (FFin 0))) ;;
  llm_evidence <- lift (py_get llm_result "evidence" (PyList [])) ;;
  llm_explanation <- lift (py_get llm_result "explanation" (PyStr EmptyString)) ;;
  overall_llm <- lift (py_get llm_result "violation" (PyBool false)) ;;
  let overall := py_or (PyBool has_pattern_violation) overall_llm in
  score_llm <- lift (py_get llm_result "confidence" (PyFloat (FFin 0))) ;;
  score <- lift (py_max_float (pattern_floor has_pattern_violation) score_llm) ;;
  now <- read_clock ;;
  ret (mk_verdict doc_id rule_type id name description severity
         has_pattern_violation pattern_evidence
         llm_violation llm_confidence llm_evidence llm_explanation
         overall score now).

Fixpoint rules_loop (self : ComplianceEngine) (doc_id content : string)
    (rule_type : string) (rule_list : list pyval) (results : list verdict)
  : M (list verdict) :=
  match rule_list with
  | [] => ret results
  | rule :: rest =>
      result <- analyze_rule self doc_id content rule_type rule ;;
      rules_loop self doc_id content rule_type rest (results ++ [result])%list
  end.

Fixpoint types_loop (self : ComplianceEngine) (doc_id content : string)
    (rule_types : list string) (results : list verdict) : M (list verdict) :=
  match rule_types with
  | [] => ret results
  | rule_type :: rest =>
      match dict_lookup rule_type (rules self) with
      | None => types_loop self doc_id content rest results
      | Some rule_set =>
          rule_list <- lift (bind (py_get rule_set "rules" (PyList [])) py_iter) ;;
          results <- rules_loop self doc_id content rule_type rule_list results ;;
          types_loop self doc_id content rest results
      end
  end.

Definition analyze_document (self : ComplianceEngine) (doc_id content : string)
    (rule_types : option (list string)) : M (list verdict) :=
  add_document_to_vector_db doc_id content [("doc_id", PyStr doc_id)] ;;;
  let rule_types :=
    match rule_types with
    | None => map fst (rules self)
    | Some l => l
    end in
  types_loop self doc_id content rule_types [].

(** *** generate_compliance_report *)

(** [cell > f] inside a column: pandas compares a missing value ([None],
    read as NaN in a numeric column) as [False]; any other cell is compared
    as Python compares it. *)
Definition cell_gt (cell : pyval) (f : pyfloat) : result bool :=
  match cell with
  | PyNone => Return false
  | _ => py_gt_float cell f
  end.

(** [df[column] > f], cell by cell *)
Fixpoint column_gt (cells : list pyval) (f : pyfloat) : result (list bool) :=
  match cells with
  | [] => Return []
  | cell :: rest =>
      bind (cell_gt cell f) (fun b =>
      bind (column_gt rest f) (fun bs => Return (b :: bs)))
  end.

(** [df["overall_violation"] == True] *)
Definition violation_mask (df : list verdict) : list bool :=
  map (fun row => py_eq_True (overall_violation row)) df.

(** [df[mask]] *)
Fixpoint select {A : Type} (df : list A) (mask : list bool) : list A :=
  match df, mask with
  | row :: df', b :: mask' =>
      if b then row :: select df' mask' else select df' mask'
  | _, _ => []
  end.

(** [a & b] on two masks *)
Fixpoint mask_and (a b : list bool) : list bool :=
  match a, b with
  | x :: a', y :: b' => (x && y) :: mask_and a' b'
  | _, _ => []
  end.

Definition count {A : Type} (l : list A) : Z := Z.of_nat (List.length l).

(** [(a - b) / n * 100] for three ints, [n] not 0: the true division of
    two ints gives the float nearest to their quotient, the product with
    [100] the float nearest to the product. *)
Definition percentage (a b n : Z) : Q :=
  round64 (round64 (inject_Z (a - b) / inject_Z n) * 100)%Q.

(** The report of a non-empty [results]: the part of
    [generate_compliance_report] below its first [return]. *)
Definition analysis_report (results : list verdict) : result report :=
  let df := results in
  let violations := select df (violation_mask df) in
  bind (groupby_size (map (fun row => PyStr (rule_type row)) violations))
    (fun by_type =>
  bind (groupby_size (map severity violations)) (fun by_severity =>
  bind (column_gt (map confidence_score df) (FFin 0.7%Q)) (fun confident =>
  let high := select df (mask_and (violation_mask df) confident) in
  let score := percentage (count df) (count violations) (count df) in
  Return (mk_report "Analysis Complete"
            (Some (mk_summary (count violations) (count df)
                     by_type by_severity (count high) (FFin score)))
            (Some results))))).

Definition generate_compliance_report (results : list verdict) : result report :=
  match results with
  | [] => Return (mk_report "No violations found" None None)
  | _ :: _ => analysis_report results
  end.

(** *** load_all_rules *)

(** [filename.replace('_rules.json', '').upper()] *)
Definition rule_type_of (filename : string) : string :=
  str_upper (str_remove "_rules.json" filename).

(** [with open(path, 'r', ...) as f: json.load(f)]: opening, reading with
    [decode], decoding the JSON text. *)
Definition json_load (decode : string -> result string) (entry : node)
  : result pyval :=
  match entry with
  | File bytes => bind (decode bytes) json_loads
  | Unopenable _ e => Raise e
  end.

Fixpoint load_files (listing : directory) (rules : dict) : result dict :=
  match listing with
  | [] => Return rules
  | (filename, entry) :: rest =>
      if endswith "_rules.json" filename then
        let rule_type := rule_type_of filename in
        bind (json_load decode_locale entry) (fun loaded =>
        load_files rest (dict_set rule_type loaded rules))
      else load_files rest rules
  end.

(** [listdir] is what [os.listdir(rules_dir)] gives: the entries of the
    rules directory, or the exception it raises. *)
Definition load_all_rules (listdir : result directory) : result dict :=
  bind listdir (fun listing => load_files listing []).

End Engine.

(** ** Around the engine

    The constructor of the engine, the loader of the package [app/rules],
    the two functions of [app/main.py] that feed the engine and use its
    results, and the size formatter of the dashboard. *)

(** The LLM clients the constructor can make from an API key: the module
    [openai] once [openai.api_key] is set, and [Anthropic(api_key=...)]. *)
Class Providers : Type := {
  openai_module : string -> llm_client;
  Anthropic : string -> llm_client
}.

(** A stored document and a row of [compliance_results]. *)
Record document : Type := mk_document {
  doc_filename : string;
  doc_content : string
}.

Record compliance_result : Type := mk_compliance_result {
  row_document_id : Z;
  row_rule_type : string;
  row_violation_type : pyval;
  row_confidence_score : pyval;
  row_evidence : string;
  row_explanation : pyval;
  row_is_violation : pyval
}.

(** The database session of a request:
    [db.query(Document).filter(Document.id == id).first()], and the
    exception [db.commit()] raises on the added rows, if it raises. *)
Class Database : Type := {
  first_document : Z -> option document;
  commit_error : list compliance_result -> option exn
}.

(** The readers [extract_text_from_file] uses, each giving what it read at
    a path or the exception reading raised: the page texts of a PDF, the
    paragraph texts of a DOCX file, the text of a UTF-8 file. *)
Class Readers : Type := {
  pdf_page_texts : string -> result (list string);
  docx_paragraph_texts : string -> result (list string);
  read_text : string -> result string
}.

(** What an endpoint gives: its return value, or [HTTPException]. *)
Inductive http_response (A : Type) : Type :=
| Response (a : A)
| HTTPException (status_code : Z) (detail : string).
Arguments Response {A} a.
Arguments HTTPException {A} status_code detail.

(** The dict [analyze_compliance] returns. *)
Record analysis_response : Type := mk_analysis_response {
  response_document_id : Z;
  response_document_name : string;
  analysis_results : report
}.

(** [str(n)] for an int *)
Definition str_of_Z (z : Z) : string := NilZero.string_of_int (Z.to_int z).

(** [s.split(sep)[-1]]: what follows the last [sep], the whole of [s] when
    there is none. *)
Fixpoint after_last (sep : ascii) (s : string) : option string :=
  match s with
  | EmptyString => None
  | String c rest =>
      match after_last sep rest with
      | Some tail => Some tail
      | None => if Ascii.eqb c sep then Some rest else None
      end
  end.

Definition last_segment (sep : ascii) (s : string) : string :=
  match after_last sep s with
  | Some tail => tail
  | None => s
  end.

Section Callers.

Context {rt : PyRuntime} {providers : Providers} {db : Database}
        {readers : Readers}.

(** *** ComplianceEngine.setup_llm_clients and the constructor *)

(** A client for the key of the environment: [if key:] holds for a key that
    is set and not empty. *)
Definition client_for (make : string -> llm_client) (key : option string)
  : option llm_client :=
  match key with
  | Some k => if truthy (PyStr k) then Some (make k) else None
  | None => None
  end.

Definition setup_llm_clients (getenv : string -> option string)
  : option llm_client * option llm_client :=
  let openai_key := getenv "OPENAI_API_KEY" in
  let anthropic_key := getenv "ANTHROPIC_API_KEY" in
  (client_for openai_module openai_key, client_for Anthropic anthropic_key).

(** [ComplianceEngine()]: the clients, then the rules of the rules
    directory.  The collection the constructor opens is the [collection] of
    the world the engine runs in. *)
Definition ComplianceEngine_init (getenv : string -> option string)
    (listdir : result directory) : result ComplianceEngine :=
  let clients := setup_llm_clients getenv in
  bind (load_all_rules listdir) (fun rules =>
  Return (mk_engine (fst clients) (snd clients) rules)).

(** *** The package [app/rules] *)

Section RulesPackage.

(** [os.path.join(current_dir, name)] *)
Variable rule_file_path : string -> string.

Fixpoint lookup_entry (name : string) (listing : directory) : option node :=
  match listing with
  | [] => None
  | (filename, entry) :: rest =>
      if String.eqb filename name then Some entry else lookup_entry name rest
  end.

Definition FileNotFoundError (msg : string) : exn :=
  OtherException "FileNotFoundError" msg.

Definition is_FileNotFoundError (e : exn) : bool :=
  match e with
  | OtherException cls _ => String.eqb cls "FileNotFoundError"
  | _ => false
  end.

(** [os.path.exists(rule_file)] *)
Definition path_exists_in (name : string) (listing : directory) : bool :=
  match lookup_entry name listing with
  | Some (File _) => true
  | Some (Unopenable path_exists _) => path_exists
  | None => false
  end.

Definition load_rule_file (listing : directory) (rule_type : string)
  : result pyval :=
  let name := str_lower rule_type ++ "_rules.json" in
  if path_exists_in name listing then
    match lookup_entry name listing with
    | Some entry => json_load decode_utf8 entry
    | None =>
        Raise (FileNotFoundError ("Rule file not found: " ++ rule_file_path name))
    end
  else
    Raise (FileNotFoundError ("Rule file not found: " ++ rule_file_path name)).

Definition get_available_rule_types (listing : directory) : list string :=
  let rule_files := filter (endswith "_rules.json") (map fst listing) in
  map (fun f => str_upper (str_remove "_rules.json" f)) rule_files.

(** The loop of [load_all_rules], with its [except FileNotFoundError]. *)
Fixpoint load_types (listing : directory) (rule_types : list string)
    (rules : dict) : result dict :=
  match rule_types with
  | [] => Return rules
  | rule_type :: rest =>
      match load_rule_file listing rule_type with
      | Return loaded => load_types listing rest (dict_set rule_type loaded rules)
      | Raise e =>
          if is_FileNotFoundError e then load_types listing rest rules
          else Raise e
      end
  end.

(** [app.rules.load_all_rules]; [os.listdir] is called by
    [get_available_rule_types], outside the [try]. *)
Definition rules_load_all_rules (listdir : result directory) : result dict :=
  bind listdir (fun listing =>
  load_types listing (get_available_rule_types listing) []).

End RulesPackage.

(** *** [app/main.py] *)

Definition file_extension (filename : string) : string :=
  last_segment "." (str_lower filename).

Definition page_text (texts : list string) : string :=
  fold_left (fun text t => text ++ (t ++ nl)) texts EmptyString.

Definition extract_text_from_file (file_path filename : string)
  : http_response string :=
  let file_extension := file_extension filename in
  let extracted :=
    if String.eqb file_extension "pdf" then
      bind (pdf_page_texts file_path) (fun pages => Return (page_text pages))
    else if String.eqb file_extension "docx" then
      bind (docx_paragraph_texts file_path) (fun paragraphs =>
      Return (page_text paragraphs))
    else if String.eqb file_extension "txt" then read_text file_path
    else Raise (OtherException "ValueError"
                  ("Unsupported file format: " ++ file_extension)) in
  match extracted with
  | Return text => Response text
  | Raise e => HTTPException 400 ("Error extracting text: " ++ exn_str e)
  end.

(** The row [analyze_compliance] stores for a verdict. *)
Definition result_row (document_id : Z) (result : verdict) : compliance_result :=
  mk_compliance_result document_id (rule_type result) (violation_type result)
    (confidence_score result) (format_value (llm_evidence result))
    (llm_explanation result) (overall_violation result).

(** [analyze_compliance], with the rows the database holds before and
    after the request. *)
Definition analyze_compliance (self : ComplianceEngine) (document_id : Z)
    (rule_types : option (list string)) (w : world)
    (stored : list compliance_result)
  : http_response analysis_response * world * list compliance_result :=
  match first_document document_id with
  | None => (HTTPException 404 "Document not found", w, stored)
  | Some document =>
      match analyze_document self (str_of_Z document_id) (doc_content document)
              rule_types w with
      | (Raise e, w') =>
          (HTTPException 500 ("Analysis failed: " ++ exn_str e), w', stored)
      | (Return results, w') =>
          let added := map (result_row document_id) results in
          match commit_error added with
          | Some e =>
              (HTTPException 500 ("Analysis failed: " ++ exn_str e), w', stored)
          | None =>
              let stored := (stored ++ added)%list in
              match generate_compliance_report results with
              | Raise e =>
                  (HTTPException 500 ("Analysis failed: " ++ exn_str e), w',
                   stored)
              | Return report =>
                  (Response (mk_analysis_response document_id
                               (doc_filename document) report),
                   w', stored)
              end
          end
      end
  end.

(** *** [ui/streamlit_app.py]: format_file_size *)

(** [float(n)] for an int: the float nearest to it, [OverflowError] when
    that is beyond the range of binary64. *)
Definition float_of_int (n : Z) : result Q :=
  let x := round64 (inject_Z n) in
  if Qle_bool (2 ^ 1024) (Qabs x)
  then Raise (OtherException "OverflowError" "int too large to convert to float")
  else Return x.

(** [f"{x:.1f}"] for a float: the decimal with one digit after the point
    nearest to [x], the even one when [x] lies half way. *)
Definition format_1f (x : Q) : string :=
  let tenths := round_half_even (Qabs x * 10) in
  (if Qle_bool 0 x then EmptyString else "-")
  ++ str_of_Z (tenths / 10) ++ "." ++ str_of_Z (tenths mod 10).

(** The [while] loop on a float: [left] is [len(size_names) - 1 - i], and
    [size_bytes /= 1024.0] gives the float nearest to the quotient. *)
Fixpoint size_loop (left : nat) (size_bytes : Q) (i : nat) : Q * nat :=
  match left with
  | O => (size_bytes, i)
  | S left' =>
      if Qle_bool 1024 size_bytes then
        size_loop left' (round64 (size_bytes / 1024)) (S i)
      else (size_bytes, i)
  end.

Definition size_names : list string := ["B"; "KB"; "MB"; "GB"].

(** [format_file_size] of a number of bytes, an int.  The int becomes a
    float in the first [/=] or, when the loop body does not run, in the
    format; an int and its float compare alike with 1024
    ([float_of_int_ge] below), so the conversion is done first here. *)
Definition format_file_size (size_bytes : Z) : result string :=
  if size_bytes =? 0 then Return "0B"
  else
    bind (float_of_int size_bytes) (fun size_bytes =>
    let '(size_bytes, i) :=
      size_loop (List.length size_names - 1) size_bytes O in
    Return (format_1f size_bytes ++ " " ++ nth i size_names EmptyString)).

End Callers.

(** ** The vocabulary of the properties *)

Section Specification.

Context {rt : PyRuntime}.

(** *** Windows of [chunk_text]

    The offset at which the k-th window starts, the offset at which it ends
    in the text, and the window itself. *)
Definition window_start (chunk_size overlap : Z) (k : nat) : Z :=
  Z.of_nat k * (chunk_size - overlap).

Definition window_end (text : string) (chunk_size overlap : Z) (k : nat) : Z :=
  Z.min (len text) (window_start chunk_size overlap k + chunk_size).

Definition window (text : string) (chunk_size overlap : Z) (k : nat) : string :=
  py_slice text (window_start chunk_size overlap k)
    (window_start chunk_size overlap k + chunk_size).

(** *** Occurrences of a pattern *)

(** [sub] occurs in [s] at offset [i]. *)
Definition occurs_at (sub s : string) (i : nat) : Prop :=
  exists pre post : string, s = pre ++ sub ++ post /\ String.length pre = i.

(** [pattern] occurs in [content] when case is ignored. *)
Definition occurs_ci (pattern content : string) : Prop :=
  exists i, occurs_at (str_lower pattern) (str_lower content) i.

(** *** Matches that ignore case

    Stated on the characters themselves, not through [str.lower]: two
    characters are the same letter when they are equal or are the upper and
    the lower case of one ASCII letter. *)
Definition is_upper (c : ascii) : bool :=
  let n := nat_of_ascii c in ((65 <=? n) && (n <=? 90))%nat.

Definition same_letter (a b : ascii) : bool :=
  Ascii.eqb a b
  || (is_upper a && Nat.eqb (nat_of_ascii b) (nat_of_ascii a + 32))
  || (is_upper b && Nat.eqb (nat_of_ascii a) (nat_of_ascii b + 32)).

(** Two texts of the same length with the same letters. *)
Fixpoint same_text (s t : string) : bool :=
  match s, t with
  | EmptyString, EmptyString => true
  | String a s', String b t' => same_letter a b && same_text s' t'
  | _, _ => false
  end.

(** At offset [i], [content] holds [pattern] up to the case of letters. *)
Definition matches_at (pattern content : string) (i : nat) : Prop :=
  exists pre found post : string,
    content = pre ++ found ++ post /\
    String.length pre = i /\
    same_text found pattern = true.

(** [line] is the evidence line of [pattern] for its match at offset [i]:
    the matched text [found] with the up to 100 characters of [content]
    before it and the up to 100 after it. *)
Definition evidence_at (content pattern line : string) (i : nat) : Prop :=
  exists pre before found after post : string,
    content = pre ++ before ++ found ++ after ++ post /\
    String.length (pre ++ before) = i /\
    same_text found pattern = true /\
    len before = Z.min (Z.of_nat i) 100 /\
    len after = Z.min (len content - (Z.of_nat i + len pattern)) 100 /\
    line = "Found '" ++ pattern ++ "' in context: ..."
           ++ before ++ found ++ after ++ "...".

(** The test of the [if] in the loop of [check_pattern_compliance]. *)
Definition pattern_matches (content pattern : string) : bool :=
  str_contains (str_lower pattern) (str_lower content).

Fixpoint strings_of (l : list pyval) : option (list string) :=
  match l with
  | [] => Some []
  | PyStr s :: rest => option_map (cons s) (strings_of rest)
  | _ :: _ => None
  end.

(** The trigger phrases of a rule: the list under [patterns], none when the
    key is absent.  [None] for an object that is no rule or whose patterns
    are not a list of strings. *)
Definition rule_patterns (rule : pyval) : option (list string) :=
  match rule with
  | PyDict d =>
      match dict_lookup "patterns" d with
      | None => Some []
      | Some (PyList l) => strings_of l
      | Some _ => None
      end
  | _ => None
  end.

(** *** LLM verdicts *)

(** The client a call goes to: OpenAI when configured, else Anthropic. *)
Definition selected_client (self : ComplianceEngine) : option llm_client :=
  match openai_client self with
  | Some client => Some client
  | None => anthropic_client self
  end.

Definition is_str (v : pyval) : bool :=
  match v with PyStr _ => true | _ => false end.

(** An LLM verdict as the data model has it: a violation flag, a confidence
    in [0, 1], quoted evidence and an explanation. *)
Definition well_formed_verdict (v : pyval) : bool :=
  match v with
  | PyDict d =>
      match dict_lookup "violation" d, dict_lookup "confidence" d,
            dict_lookup "evidence" d, dict_lookup "explanation" d with
      | Some (PyBool _), Some (PyFloat (FFin c)), Some (PyList ev),
        Some (PyStr _) =>
          Qle_bool 0 c && Qle_bool c 1 && forallb is_str ev
      | _, _, _, _ => false
      end
  | _ => false
  end.

(** *** Verdicts and reports *)

(** The two invariants of a verdict, with [or] and [max] as Python
    evaluates them, and their reading on truth values and on the floor. *)
Definition verdict_invariant (v : verdict) : Prop :=
  overall_violation v = py_or (PyBool (pattern_violation v)) (llm_violation v) /\
  truthy (overall_violation v)
  = (pattern_violation v || truthy (llm_violation v))%bool /\
  py_max_float (pattern_floor (pattern_violation v)) (llm_confidence v)
  = Return (confidence_score v) /\
  (pattern_violation v = true ->
   py_ge_float (confidence_score v) (FFin 0.8) = Return true).

(** Without an LLM client: the LLM part of a verdict, and the whole verdict
    when no pattern matched. *)
Definition no_llm_outcome (v : verdict) : Prop :=
  llm_violation v = PyBool false /\
  llm_confidence v = PyFloat (FFin 0) /\
  llm_evidence v = PyList [] /\
  llm_explanation v = PyStr "No LLM API configured" /\
  (pattern_violation v = false ->
   overall_violation v = PyBool false /\
   confidence_score v = PyFloat (FFin 0)).

(** The verdicts that count as violations: [overall_violation == True]. *)
Definition is_violation (v : verdict) : bool := py_eq_True (overall_violation v).

(** The rule files of the directory. *)
Definition is_rule_file (filename : string) : bool :=
  endswith "_rules.json" filename.

(** Every rule file of [listing] can be opened, read with [decode] and
    decoded as JSON. *)
Definition rule_files_load (decode : string -> result string)
    (listing : directory) : Prop :=
  forall filename entry,
    In (filename, entry) listing -> is_rule_file filename = true ->
    exists v, json_load decode entry = Return v.

(** *** Further vocabulary *)

(** The strings of a list, one after the other. *)
Definition join (l : list string) : string :=
  fold_right String.append EmptyString l.

(** [rule_type in self.rules] *)
Definition known_type (self : ComplianceEngine) (rule_type : string) : bool :=
  match dict_lookup rule_type (rules self) with
  | Some _ => true
  | None => false
  end.

(** No usable key: unset, or set to the empty string. *)
Definition no_key (key : option string) : Prop :=
  key = None \/ key = Some EmptyString.

(** A verdict whose LLM part is the engine-made verdict [violation],
    [confidence], [explanation]: the flag joins the pattern flag, the score
    is the larger of the pattern floor and [confidence]. *)
Definition degraded_verdict (violation : bool) (confidence : Q)
    (explanation : string) (v : verdict) : Prop :=
  llm_violation v = PyBool violation /\
  llm_confidence v = PyFloat (FFin confidence) /\
  llm_evidence v = PyList [] /\
  llm_explanation v = PyStr explanation /\
  overall_violation v = PyBool (pattern_violation v || violation) /\
  py_max_float (pattern_floor (pattern_violation v)) (PyFloat (FFin confidence))
  = Return (confidence_score v).

(** A rule the engine can analyse: a dict with [id], [name] and
    [description] whose patterns, if it has any, are a list of strings. *)
Definition well_formed_rule (rule : pyval) : Prop :=
  exists (d : dict) (id name description : pyval) (ps : list string),
    rule = PyDict d /\
    dict_lookup "id" d = Some id /\
    dict_lookup "name" d = Some name /\
    dict_lookup "description" d = Some description /\
    rule_patterns rule = Some ps.

(** The rule types [analyze_document] goes through. *)
Definition requested_types (self : ComplianceEngine)
    (rule_types : option (list string)) : list string :=
  match rule_types with
  | None => map fst (rules self)
  | Some l => l
  end.

(** The rule sets of [rule_types] that the engine has give their rules, and
    these are well formed. *)
Definition well_formed_rules (self : ComplianceEngine)
    (rule_types : list string) : Prop :=
  forall rule_type rule_set,
    In rule_type rule_types ->
    dict_lookup rule_type (rules self) = Some rule_set ->
    exists rule_list,
      bind (py_get rule_set "rules" (PyList [])) py_iter = Return rule_list /\
      Forall well_formed_rule rule_list.

(** The document is indexed without an error of the collection. *)
Definition indexed (doc_id content : string) (w w1 : world) : Prop :=
  add_document_to_vector_db doc_id content [("doc_id", PyStr doc_id)] w
  = (Return tt, w1).

(** The verdict of scenario B: nothing found by the patterns, nothing by
    the LLM. *)
Definition clean_verdict (v : verdict) : Prop :=
  pattern_violation v = false /\
  pattern_evidence v = [] /\
  llm_violation v = PyBool false /\
  overall_violation v = PyBool false /\
  confidence_score v = PyFloat (FFin 0).

(** Whether a client is set. *)
Definition has_client (self : ComplianceEngine) : bool :=
  match selected_client self with
  | Some _ => true
  | None => false
  end.

(** The rules [analyze_document] goes through, each with its rule type, in
    the order of the loops: [rule_set.get("rules", [])] for every requested
    rule type the engine has. *)
Fixpoint planned_rules (self : ComplianceEngine) (rule_types : list string)
  : list (string * pyval) :=
  match rule_types with
  | [] => []
  | rule_type :: rest =>
      match dict_lookup rule_type (rules self) with
      | Some rule_set =>
          match bind (py_get rule_set "rules" (PyList [])) py_iter with
          | Return rule_list => map (pair rule_type) rule_list
          | Raise _ => []
          end
      | None => []
      end ++ planned_rules self rest
  end%list.

(** The verdict [v] is the one of the rule [snd tr] of rule type [fst tr]. *)
Definition verdict_of_rule (doc_id content : string) (v : verdict)
    (tr : string * pyval) : Prop :=
  document_id v = doc_id /\
  rule_type v = fst tr /\
  py_getitem (snd tr) "id" = Return (rule_id v) /\
  py_getitem (snd tr) "name" = Return (rule_name v) /\
  py_getitem (snd tr) "description" = Return (violation_type v) /\
  py_get (snd tr) "severity" (PyStr "MEDIUM") = Return (severity v) /\
  check_pattern_compliance content (snd tr)
  = Return (pattern_violation v, pattern_evidence v).

(** The entries [add_document_to_vector_db] sends for the chunks, counted
    from [i]. *)
Fixpoint chunk_entries (doc_id : string) (i : nat) (chunks : list string)
  : list chroma_entry :=
  match chunks with
  | [] => []
  | chunk :: rest =>
      mk_entry chunk [("doc_id", PyStr doc_id); ("chunk_id", PyInt (Z.of_nat i))]
        (doc_id ++ "_chunk_" ++ str_of_nat i)
      :: chunk_entries doc_id (S i) rest
  end.

End Specification.

(** ** A runtime to run the engine on examples

    ASCII case mapping, a JSON decoder given by the table of the texts it
    is asked about, a collection that accepts every entry.  The prompts of
    the examples format strings only, and their reports are not compared on
    the two break-downs. *)

Module Example.

Fixpoint table_lookup (text : string) (table : list (string * pyval))
  : result pyval :=
  match table with
  | [] => Raise (JSONDecodeError "Expecting value: line 1 column 1 (char 0)")
  | (t, v) :: rest => if String.eqb t text then Return v else table_lookup text rest
  end.

(** Group sizes over string keys, in order of first appearance. *)
Fixpoint bump (key : pyval) (sizes : list (pyval * Z)) : list (pyval * Z) :=
  match key, sizes with
  | _, [] => [(key, 1)]
  | PyStr k, (PyStr k', n) :: rest =>
      if String.eqb k k' then (PyStr k', n + 1) :: rest
      else (PyStr k', n) :: bump key rest
  | _, kn :: rest => kn :: bump key rest
  end.

(** Two decoders: ISO 8859-1, which reads every byte as a character, and
    UTF-8 on the files of the examples, which rejects a byte above 127 that
    starts no well-formed sequence. *)
Definition latin1 (bytes : string) : result string := Return bytes.

Fixpoint all_ascii (bytes : string) : bool :=
  match bytes with
  | EmptyString => true
  | String c rest => (nat_of_ascii c <? 128)%nat && all_ascii rest
  end.

Definition ascii_only (bytes : string) : result string :=
  if all_ascii bytes then Return bytes
  else Raise (OtherException "UnicodeDecodeError"
                "'utf-8' codec can't decode bytes: invalid start byte").

Definition runtime (table : list (string * pyval)) : PyRuntime := {|
  str_lower := map_chars lower_char;
  str_upper := map_chars upper_char;
  py_format := fun v => "<" ++ type_name v ++ ">";
  json_loads := fun text => table_lookup text table;
  decode_locale := latin1;
  decode_utf8 := ascii_only;
  chroma_add := fun c e => Return (c ++ [e])%list;
  groupby_size := fun cells => Return (fold_left (fun acc k => bump k acc) cells []);
  utcnow := fun n => Z.of_nat n
|}.

Definition world0 : world := mk_world [] 0 0.

(** A JSON string literal without escapes. *)
Definition quoted (s : string) : string := dquote ++ s ++ dquote.

(** A rule file whose rule has no [id], and a complete one. *)
Definition gdpr_text : string :=
  "{" ++ quoted "description" ++ ": " ++ quoted "Data protection" ++ ", "
  ++ quoted "rules" ++ ": [{" ++ quoted "name" ++ ": " ++ quoted "Consent"
  ++ ", " ++ quoted "description" ++ ": " ++ quoted "Processing without consent"
  ++ ", " ++ quoted "patterns" ++ ": [" ++ quoted "without consent" ++ "]}]}".

Definition gdpr_value : pyval :=
  PyDict [("description", PyStr "Data protection");
          ("rules",
           PyList [PyDict [("name", PyStr "Consent");
                           ("description", PyStr "Processing without consent");
                           ("patterns", PyList [PyStr "without consent"])]])].

Definition ssn_fields : dict :=
  [("id", PyStr "R1");
   ("name", PyStr "Identifiers");
   ("description", PyStr "Social security numbers kept in plaintext");
   ("severity", PyStr "HIGH");
   ("patterns", PyList [PyStr "ssn"])].

Definition ssn_rule : pyval := PyDict ssn_fields.

Definition hipaa_text : string :=
  "{" ++ quoted "rules" ++ ": [{" ++ quoted "id" ++ ": " ++ quoted "R1" ++ ", "
  ++ quoted "name" ++ ": " ++ quoted "Identifiers" ++ ", "
  ++ quoted "description" ++ ": "
  ++ quoted "Social security numbers kept in plaintext" ++ ", "
  ++ quoted "severity" ++ ": " ++ quoted "HIGH" ++ ", "
  ++ quoted "patterns" ++ ": [" ++ quoted "ssn" ++ "]}]}".

Definition hipaa_value : pyval := PyDict [("rules", PyList [ssn_rule])].

(** A rule file saved in ISO 8859-1 whose description holds the byte 233,
    an e with acute accent. *)
Definition accented : string := "Donn" ++ String (ascii_of_nat 233) "es".

Definition accented_text : string :=
  "{" ++ quoted "description" ++ ": " ++ quoted accented ++ "}".

Definition accented_value : pyval := PyDict [("description", PyStr accented)].

(** What [json.loads] makes of the texts of the examples; any other text
    used there is not JSON. *)
Definition json_table : list (string * pyval) :=
  [("42", PyInt 42); ("[]", PyList []);
   (gdpr_text, gdpr_value); (hipaa_text, hipaa_value);
   (accented_text, accented_value)].

Definition rt0 : PyRuntime := runtime json_table.

Definition rules_directory : directory :=
  [("gdpr_rules.json", File gdpr_text); ("__init__.py", File "import os");
   ("hipaa_rules.json", File hipaa_text)].

(** The same directory with a subdirectory [sox_rules.json] listed between
    the two rule files. *)
Definition is_a_directory : exn :=
  OtherException "IsADirectoryError" "[Errno 21] Is a directory: 'sox_rules.json'".

Definition blocked_directory : directory :=
  [("gdpr_rules.json", File gdpr_text);
   ("sox_rules.json", Unopenable true is_a_directory);
   ("hipaa_rules.json", File hipaa_text)].

Definition ssn_document : string := "We store the SSN in plaintext.".

Definition clean_document : string := "Nothing to report.".

(** An engine whose OpenAI client gives the same answer to every prompt. *)
Definition engine_answering (answer : result string) : ComplianceEngine :=
  mk_engine (Some (fun _ _ => answer)) None [("HIPAA", hipaa_value)].

Definition engine_without_llm : ComplianceEngine :=
  mk_engine None None [("HIPAA", hipaa_value)].

Definition connection_error : exn :=
  OtherException "APIConnectionError" "Connection error.".

Definition verdict_of (overall score : pyval) : verdict :=
  mk_verdict "7" "HIPAA" (PyStr "R1") (PyStr "Identifiers")
    (PyStr "Social security numbers kept in plaintext") (PyStr "HIGH")
    false [] overall score (PyList []) (PyStr EmptyString) overall score 0.

(** A collection that rejects every entry. *)
Definition quota_error : exn := OtherException "ValueError" "Quota exceeded".

Definition rejecting_runtime : PyRuntime := {|
  str_lower := map_chars lower_char;
  str_upper := map_chars upper_char;
  py_format := fun v => "<" ++ type_name v ++ ">";
  json_loads := fun text => table_lookup text json_table;
  decode_locale := latin1;
  decode_utf8 := ascii_only;
  chroma_add := fun _ _ => Raise quota_error;
  groupby_size := fun cells => Return (fold_left (fun acc k => bump k acc) cells []);
  utcnow := fun n => Z.of_nat n
|}.

Fixpoint repeat_char (c : ascii) (n : nat) : string :=
  match n with
  | O => EmptyString
  | S m => String c (repeat_char c m)
  end.

(** [str.lower] beyond ASCII.  The lower case of U+0130, LATIN CAPITAL
    LETTER I WITH DOT ABOVE, is two characters: [i] and U+0307, COMBINING
    DOT ABOVE.  The 256 characters of [ascii] hold neither; in this runtime
    the character 221 stands for U+0130 and the character 204 for U+0307. *)
Definition dotted_I : ascii := ascii_of_nat 221.

Definition combining_dot : ascii := ascii_of_nat 204.

Fixpoint unicode_lower (s : string) : string :=
  match s with
  | EmptyString => EmptyString
  | String c rest =>
      if Ascii.eqb c dotted_I
      then String "i" (String combining_dot (unicode_lower rest))
      else String (lower_char c) (unicode_lower rest)
  end.

Definition unicode_runtime : PyRuntime := {|
  str_lower := unicode_lower;
  str_upper := map_chars upper_char;
  py_format := fun v => "<" ++ type_name v ++ ">";
  json_loads := fun text => table_lookup text json_table;
  decode_locale := latin1;
  decode_utf8 := ascii_only;
  chroma_add := fun c e => Return (c ++ [e])%list;
  groupby_size := fun cells => Return (fold_left (fun acc k => bump k acc) cells []);
  utcnow := fun n => Z.of_nat n
|}.

(** 104 characters U+0130 followed by [ssn]. *)
Definition dotted_document : string := repeat_char dotted_I 104 ++ "ssn".

(** A document of 3000 characters. *)
Definition long_document : string := repeat_char "x" 3000.

(** Clients whose every call fails for the key they were given. *)
Definition refused (key : string) : llm_client :=
  fun _ _ => Raise (OtherException "AuthenticationError"
                      ("Incorrect API key provided: " ++ key)).

Definition providers0 : Providers := {|
  openai_module := refused;
  Anthropic := refused
|}.

Definition no_environment : string -> option string := fun _ => None.

Definition openai_environment : string -> option string :=
  fun name => if String.eqb name "OPENAI_API_KEY" then Some "sk-example" else None.

(** A database holding document 7, and readers of a two-page PDF. *)
Definition db0 : Database := {|
  first_document := fun id =>
    if id =? 7 then Some (mk_document "policy.txt" ssn_document) else None;
  commit_error := fun _ => None
|}.

Definition readers0 : Readers := {|
  pdf_page_texts := fun _ => Return ["page one"; "page two"];
  docx_paragraph_texts := fun _ => Return ["paragraph"];
  read_text := fun _ => Return ssn_document
|}.

Definition accented_directory : directory :=
  [("gdpr_rules.json", File accented_text)].

(** The value of a float of the kernel, a binary64 float, when finite. *)
Definition float_value (f : PrimFloat.float) : option Q :=
  match FloatOps.Prim2SF f with
  | SpecFloat.S754_zero _ => Some 0%Q
  | SpecFloat.S754_finite negative m e =>
      Some (Qred ((if negative then -1 else 1) * inject_Z (Zpos m) * 2 ^ e))%Q
  | _ => None
  end.


Definition engine_with_both : ComplianceEngine :=
  mk_engine (Some (fun _ _ => Return "42")) (Some (refused "sk-ant"))
    [("HIPAA", hipaa_value)].

Definition three_results : list verdict :=
  [verdict_of (PyBool true) (PyFloat (FFin 0.9));
   verdict_of (PyBool false) (PyFloat (FFin 0));
   verdict_of (PyBool true) (PyFloat (FFin 0.5))].

End Example.

(** * Properties *)

(** ** Strings *)

Section StringFacts.

Lemma length_str_take (n : nat) (s : string) :
  String.length (str_take n s) = Nat.min n (String.length s).
Proof.
  revert s; induction n as [|n IH]; intros [|c s]; simpl; auto.
Qed.

Lemma length_str_drop (n : nat) (s : string) :
  String.length (str_drop n s) = (String.length s - n)%nat.
Proof.
  revert s; induction n as [|n IH]; intros [|c s]; simpl; auto.
Qed.

Lemma str_take_all (n : nat) (s : string) :
  (String.length s <= n)%nat -> str_take n s = s.
Proof.
  revert s; induction n as [|n IH]; intros [|c s]; simpl; intros H; auto.
  - lia.
  - f_equal. apply IH. lia.
Qed.

Lemma str_drop_drop (n m : nat) (s : string) :
  str_drop n (str_drop m s) = str_drop (m + n) s.
Proof.
  revert s; induction m as [|m IH]; intros s; simpl; auto.
  destruct s as [|c s]; simpl; auto.
  now destruct n.
Qed.

Lemma str_take_add (n m : nat) (s : string) :
  str_take (n + m) s = str_take n s ++ str_take m (str_drop n s).
Proof.
  revert s; induction n as [|n IH]; intros s; simpl; auto.
  destruct s as [|c s]; simpl.
  - now destruct m.
  - now rewrite IH.
Qed.

Lemma clamp_index_nonneg (s : string) (i : Z) :
  0 <= i -> clamp_index s i = Z.min i (len s).
Proof.
  intros Hi. unfold clamp_index. cbv zeta.
  assert (Hl : 0 <= len s) by (unfold len; lia).
  destruct (Z.ltb_spec i 0); [lia|].
  destruct (Z.ltb_spec i 0); [lia|].
  destruct (Z.ltb_spec (len s) i); lia.
Qed.

(** A slice with bounds in order inside the string. *)
Lemma py_slice_inside (s : string) (i j : Z) :
  0 <= i -> i < j -> i < len s ->
  py_slice s i j =
  str_take (Z.to_nat (Z.min j (len s) - i)) (str_drop (Z.to_nat i) s).
Proof.
  intros Hi Hij Hlen. unfold py_slice.
  rewrite !clamp_index_nonneg by lia.
  rewrite (Z.min_l i) by lia.
  destruct (Z.ltb_spec i (Z.min j (len s))); [reflexivity | lia].
Qed.

Lemma py_slice_range (s : string) (a b : Z) :
  0 <= a -> a <= b -> b <= len s ->
  py_slice s a b = str_take (Z.to_nat (b - a)) (str_drop (Z.to_nat a) s).
Proof.
  intros Ha Hab Hb. unfold py_slice.
  rewrite !clamp_index_nonneg by lia.
  rewrite (Z.min_l a), (Z.min_l b) by lia.
  destruct (Z.ltb_spec a b); [reflexivity|].
  replace (b - a) with 0 by lia. reflexivity.
Qed.

Lemma len_py_slice (s : string) (a b : Z) :
  0 <= a -> a <= b -> b <= len s -> len (py_slice s a b) = b - a.
Proof.
  intros Ha Hab Hb. rewrite py_slice_range by assumption.
  unfold len in *. rewrite length_str_take, length_str_drop. lia.
Qed.

Lemma py_slice_split (s : string) (a m b : Z) :
  0 <= a -> a <= m -> m <= b -> b <= len s ->
  py_slice s a b = py_slice s a m ++ py_slice s m b.
Proof.
  intros Ha Ham Hmb Hb. rewrite !py_slice_range by lia.
  replace (Z.to_nat (b - a)) with (Z.to_nat (m - a) + Z.to_nat (b - m))%nat by lia.
  rewrite str_take_add, str_drop_drop. do 3 f_equal. lia.
Qed.

End StringFacts.

(** ** Binary64 rounding *)

Section Rounding.

Local Open Scope Q_scope.

Lemma pow2_pos (z : Z) : 0 < 2 ^ z.
Proof. now apply Qpower_0_lt. Qed.

Lemma pow2_add (a b : Z) : 2 ^ (a + b) == 2 ^ a * 2 ^ b.
Proof. now apply Qpower_plus. Qed.

Lemma pow2_Z (a : Z) : (0 <= a)%Z -> 2 ^ a == inject_Z (2 ^ a).
Proof. intros H. now rewrite Zpower_Qpower. Qed.

Lemma pow2_lt (a b : Z) : (a < b)%Z -> 2 ^ a < 2 ^ b.
Proof. intros H. now apply Qpower_lt_compat_l. Qed.

Lemma pow2_le (a b : Z) : (a <= b)%Z -> 2 ^ a <= 2 ^ b.
Proof. intros H. now apply Qpower_le_compat_l. Qed.

Lemma pow2_lt_inv (a b : Z) : 2 ^ a < 2 ^ b -> (a < b)%Z.
Proof. intros H. now apply (Qpower_lt_compat_l_inv 2). Qed.

(** q = n/d between powers of two, from the logarithms of n and d *)
Lemma log2_bounds (q : Q) :
  0 < q ->
  let e := (Z.log2 (Qnum q) - Z.log2 (Zpos (Qden q)))%Z in
  2 ^ (e - 1) <= q /\ q < 2 ^ (e + 1).
Proof.
  intros Hq. destruct q as [n d]. cbn [Qnum Qden].
  assert (Hn : (0 < n)%Z) by (unfold Qlt in Hq; simpl in Hq; lia).
  pose proof (Z.log2_spec n Hn) as [Hn1 Hn2].
  pose proof (Z.log2_spec (Z.pos d) eq_refl) as [Hd1 Hd2].
  pose proof (Z.log2_nonneg n) as Ha.
  pose proof (Z.log2_nonneg (Z.pos d)) as Hb.
  set (a := Z.log2 n) in *. set (b := Z.log2 (Z.pos d)) in *.
  assert (HA : (0 < 2 ^ a)%Z) by (apply Z.pow_pos_nonneg; lia).
  assert (HB : (0 < 2 ^ b)%Z) by (apply Z.pow_pos_nonneg; lia).
  rewrite Z.pow_succ_r in Hn2, Hd2 by lia.
  cbv zeta. split.
  - replace (a - b - 1)%Z with (a + - (b + 1))%Z by lia.
    rewrite pow2_add, Qpower_opp, !pow2_Z by lia.
    rewrite Z.pow_add_r, Z.pow_1_r by lia.
    apply Qle_shift_div_r.
    + change 0 with (inject_Z 0). rewrite <- Zlt_Qlt. lia.
    + unfold Qle, Qmult, inject_Z. simpl. nia.
  - replace (a - b + 1)%Z with ((a + 1) + - b)%Z by lia.
    rewrite pow2_add, Qpower_opp, !pow2_Z by lia.
    rewrite Z.pow_add_r, Z.pow_1_r by lia.
    apply Qlt_shift_div_l.
    + change 0 with (inject_Z 0). rewrite <- Zlt_Qlt. lia.
    + unfold Qlt, Qmult, inject_Z. simpl. nia.
Qed.

Lemma binade_spec (q : Q) :
  0 < q -> 2 ^ binade q <= q /\ q < 2 ^ (binade q + 1).
Proof.
  intros Hq. destruct (log2_bounds q Hq) as [Hlo Hhi]. unfold binade.
  set (e := (Z.log2 (Qnum q) - Z.log2 (Z.pos (Qden q)))%Z) in *.
  destruct (Qle_bool (2 ^ e) q) eqn:E.
  - apply Qle_bool_iff in E. now split.
  - split; [assumption|].
    replace (e - 1 + 1)%Z with e by lia.
    apply Qnot_le_lt. intros H. apply Qle_bool_iff in H. congruence.
Qed.

Lemma binade_unique (q : Q) (e : Z) :
  2 ^ e <= q -> q < 2 ^ (e + 1) -> binade q = e.
Proof.
  intros Hlo Hhi.
  assert (Hq : 0 < q) by (eapply Qlt_le_trans; [apply (pow2_pos e) | assumption]).
  destruct (binade_spec q Hq) as [Hlo' Hhi'].
  assert (binade q < e + 1)%Z
    by (apply pow2_lt_inv; eapply Qle_lt_trans; eassumption).
  assert (e < binade q + 1)%Z
    by (apply pow2_lt_inv; eapply Qle_lt_trans; eassumption).
  lia.
Qed.

Lemma round_half_even_near (x : Q) :
  inject_Z (round_half_even x) - x <= 1 # 2 /\
  x - inject_Z (round_half_even x) <= 1 # 2.
Proof.
  unfold round_half_even.
  pose proof (Qfloor_le x) as Hlo. pose proof (Qlt_floor x) as Hhi.
  rewrite inject_Z_plus in Hhi. change (inject_Z 1) with 1 in Hhi.
  destruct (Qcompare_spec (x - inject_Z (Qfloor x)) (1 # 2)) as [H0|H0|H0].
  - destruct (Z.even (Qfloor x)); rewrite ?inject_Z_plus;
      change (inject_Z 1) with 1; split; lra.
  - split; lra.
  - rewrite inject_Z_plus. change (inject_Z 1) with 1. split; lra.
Qed.

Lemma round_half_even_mono (x y : Q) :
  x <= y -> (round_half_even x <= round_half_even y)%Z.
Proof.
  intros Hxy. pose proof (Qfloor_resp_le x y Hxy) as Hf.
  unfold round_half_even.
  pose proof (Qfloor_le x) as Hx. pose proof (Qlt_floor x) as Hx'.
  pose proof (Qfloor_le y) as Hy. pose proof (Qlt_floor y) as Hy'.
  rewrite inject_Z_plus in Hx', Hy'. change (inject_Z 1) with 1 in Hx', Hy'.
  destruct (Z.eq_dec (Qfloor x) (Qfloor y)) as [Heq|Hne].
  - rewrite <- Heq in *.
    destruct (Qcompare_spec (x - inject_Z (Qfloor x)) (1 # 2)) as [H0|H0|H0];
      destruct (Qcompare_spec (y - inject_Z (Qfloor x)) (1 # 2)) as [H1|H1|H1];
      try lia; try (destruct (Z.even (Qfloor x)); lia); exfalso; lra.
  - assert (Qfloor x + 1 <= Qfloor y)%Z by lia.
    destruct (Qcompare (x - _) _); destruct (Qcompare (y - _) _);
      try destruct (Z.even (Qfloor x)); try destruct (Z.even (Qfloor y)); lia.
Qed.

Lemma round_half_even_Z (x : Q) (z : Z) :
  x == inject_Z z -> round_half_even x = z.
Proof.
  intros H. unfold round_half_even.
  assert (Hf : Qfloor x = z) by (rewrite H; apply Qfloor_Z).
  rewrite Hf.
  destruct (Qcompare_spec (x - inject_Z z) (1 # 2)) as [H0|H0|H0];
    [exfalso; lra | reflexivity | exfalso; lra].
Qed.

Lemma round_half_even_compat (x y : Q) :
  x == y -> round_half_even x = round_half_even y.
Proof.
  intros H. unfold round_half_even.
  assert (Hf : Qfloor x = Qfloor y) by now rewrite H.
  assert (Hc : Qcompare (x - inject_Z (Qfloor x)) (1 # 2)
               = Qcompare (y - inject_Z (Qfloor y)) (1 # 2))
    by now rewrite Hf, H.
  now rewrite Hc, Hf.
Qed.

Lemma round64_compat (q q' : Q) : q == q' -> round64 q = round64 q'.
Proof.
  intros H. unfold round64. now rewrite (Qred_complete q q' H).
Qed.

Lemma scale_back (e : Z) : 2 ^ (52 - e) * 2 ^ (e - 52) == 1.
Proof.
  rewrite <- pow2_add. now replace (52 - e + (e - 52))%Z with 0%Z by lia.
Qed.

(** the mantissa of a positive number has 53 bits *)
Lemma mantissa_bounds (q : Q) :
  0 < q ->
  (2 ^ 52 <= round_half_even (q * 2 ^ (52 - binade q)) <= 2 ^ 53)%Z.
Proof.
  intros Hq. destruct (binade_spec q Hq) as [Hlo Hhi].
  set (e := binade q) in *.
  pose proof (pow2_pos (52 - e)) as Hs.
  assert (H1 : inject_Z (2 ^ 52) <= q * 2 ^ (52 - e)).
  { rewrite <- pow2_Z by lia. replace 52%Z with (e + (52 - e))%Z at 1 by lia.
    rewrite pow2_add. apply Qmult_le_compat_r; [assumption | lra]. }
  assert (H2 : q * 2 ^ (52 - e) <= inject_Z (2 ^ 53)).
  { rewrite <- pow2_Z by lia. replace 53%Z with (e + 1 + (52 - e))%Z at 1 by lia.
    rewrite pow2_add. apply Qmult_le_compat_r; lra. }
  apply round_half_even_mono in H1, H2.
  rewrite (round_half_even_Z (inject_Z (2 ^ 52)) (2 ^ 52)) in H1 by reflexivity.
  rewrite (round_half_even_Z (inject_Z (2 ^ 53)) (2 ^ 53)) in H2 by reflexivity.
  now split.
Qed.

Lemma round64_pos_range (q : Q) :
  0 < q ->
  2 ^ binade q <= round64_pos q /\ round64_pos q <= 2 ^ (binade q + 1).
Proof.
  intros Hq. pose proof (mantissa_bounds q Hq) as [Hm1 Hm2].
  unfold round64_pos. set (e := binade q) in *.
  set (m := round_half_even _) in *.
  pose proof (pow2_pos (e - 52)) as Ht.
  split.
  - replace e with (52 + (e - 52))%Z at 1 by lia. rewrite pow2_add.
    apply Qmult_le_compat_r; [|lra].
    rewrite pow2_Z by lia. now rewrite <- Zle_Qle.
  - replace (e + 1)%Z with (53 + (e - 52))%Z by lia. rewrite pow2_add.
    apply Qmult_le_compat_r; [|lra].
    rewrite pow2_Z by lia. now rewrite <- Zle_Qle.
Qed.

Lemma round64_pos_pos (q : Q) : 0 < q -> 0 < round64_pos q.
Proof.
  intros Hq. destruct (round64_pos_range q Hq) as [H _].
  eapply Qlt_le_trans; [apply (pow2_pos (binade q)) | exact H].
Qed.

Lemma round64_pos_error (q : Q) :
  0 < q -> Qabs (round64_pos q - q) <= q * (1 # 2 ^ 53).
Proof.
  intros Hq. destruct (binade_spec q Hq) as [Hlo _].
  unfold round64_pos. set (e := binade q) in *.
  pose proof (round_half_even_near (q * 2 ^ (52 - e))) as [Hn1 Hn2].
  set (m := inject_Z (round_half_even _)) in *.
  pose proof (pow2_pos (e - 52)) as Ht. pose proof (pow2_pos (52 - e)) as Hs.
  pose proof (scale_back e) as Hst.
  assert (Hhalf : 2 ^ (e - 52) * (1 # 2) <= q * (1 # 2 ^ 53)).
  { assert (He : 2 ^ e == 2 ^ (e - 52) * inject_Z (2 ^ 52)).
    { rewrite <- pow2_Z by lia. rewrite <- pow2_add. now replace (e - 52 + 52)%Z with e by lia. }
    rewrite He in Hlo.
    change (inject_Z (2 ^ 52)) with (4503599627370496 # 1) in Hlo.
    change (1 # 2 ^ 53) with (1 # 9007199254740992). lra. }
  set (s := 2 ^ (52 - e)) in *. set (t := 2 ^ (e - 52)) in *.
  assert (Hq' : q == q * s * t) by (rewrite <- Qmult_assoc, Hst; ring).
  apply Qabs_case; intros _.
  - assert (m * t - q == (m - q * s) * t) by (rewrite Hq' at 1; ring).
    rewrite H. eapply Qle_trans; [|exact Hhalf].
    rewrite (Qmult_comm t). apply Qmult_le_compat_r; lra.
  - assert (- (m * t - q) == (q * s - m) * t) by (rewrite Hq' at 1; ring).
    rewrite H. eapply Qle_trans; [|exact Hhalf].
    rewrite (Qmult_comm t). apply Qmult_le_compat_r; lra.
Qed.

Lemma round64_pos_mono (a b : Q) :
  0 < a -> a <= b -> round64_pos a <= round64_pos b.
Proof.
  intros Ha Hab. assert (Hb : 0 < b) by lra.
  destruct (binade_spec a Ha) as [Ha1 Ha2]. destruct (binade_spec b Hb) as [Hb1 Hb2].
  assert (Hle : (binade a <= binade b)%Z).
  { assert (binade a < binade b + 1)%Z; [|lia].
    apply pow2_lt_inv. lra. }
  destruct (Z.eq_dec (binade a) (binade b)) as [Heq|Hne].
  - unfold round64_pos. rewrite Heq.
    apply Qmult_le_compat_r; [|apply Qlt_le_weak, pow2_pos].
    rewrite <- Zle_Qle. apply round_half_even_mono.
    apply Qmult_le_compat_r; [assumption | apply Qlt_le_weak, pow2_pos].
  - destruct (round64_pos_range a Ha) as [_ Hra].
    destruct (round64_pos_range b Hb) as [Hrb _].
    assert (2 ^ (binade a + 1) <= 2 ^ binade b) by (apply pow2_le; lia).
    lra.
Qed.

(** numbers of at most 53 bits are floats *)
Lemma round64_pos_exact (n k : Z) (q : Q) :
  (0 < n < 2 ^ 53)%Z -> q == inject_Z n * 2 ^ k -> round64_pos q == q.
Proof.
  intros [Hn0 Hn53] Hq.
  pose proof (Z.log2_spec n Hn0) as [Hl1 Hl2].
  pose proof (Z.log2_nonneg n) as Hl0.
  assert (Hl52 : (Z.log2 n < 53)%Z) by (apply Z.log2_lt_pow2; lia).
  set (l := Z.log2 n) in *.
  rewrite Z.pow_succ_r in Hl2 by lia.
  pose proof (pow2_pos k) as Hk.
  assert (He : binade q = (l + k)%Z).
  { apply binade_unique; rewrite Hq.
    - rewrite pow2_add, (pow2_Z l) by lia. apply Qmult_le_compat_r; [|lra].
      now rewrite <- Zle_Qle.
    - replace (l + k + 1)%Z with ((l + 1) + k)%Z by lia.
      rewrite pow2_add, (pow2_Z (l + 1)) by lia. apply Qmult_lt_compat_r; [lra|].
      rewrite <- Zlt_Qlt. rewrite Z.pow_add_r, Z.pow_1_r by lia. lia. }
  unfold round64_pos. rewrite He.
  rewrite (round_half_even_Z _ (n * 2 ^ (52 - l))).
  - rewrite Hq, inject_Z_mult, <- (pow2_Z (52 - l)) by lia.
    rewrite <- Qmult_assoc, <- pow2_add.
    now replace (52 - l + (l + k - 52))%Z with k by lia.
  - rewrite Hq, inject_Z_mult, <- (pow2_Z (52 - l)) by lia.
    rewrite <- Qmult_assoc, <- pow2_add.
    now replace (k + (52 - (l + k)))%Z with (52 - l)%Z by lia.
Qed.

Lemma pow2_Z_1024 (i : Z) :
  (0 <= i)%Z -> 2 ^ (10 * i) == inject_Z (1024 ^ i).
Proof.
  intros Hi. rewrite pow2_Z by lia.
  now rewrite Z.pow_mul_r by lia.
Qed.

Lemma round64_of_pos (q : Q) : 0 < q -> round64 q = round64_pos (Qred q).
Proof.
  intros Hq. unfold round64.
  assert (H : Qcompare (Qred q) 0 = Gt)
    by (rewrite (Qred_correct q); now apply Qgt_alt).
  now rewrite H.
Qed.

Lemma round64_zero (q : Q) : q == 0 -> round64 q = 0.
Proof.
  intros Hq. now rewrite (round64_compat q 0 Hq).
Qed.

Lemma round64_error (q : Q) :
  0 <= q -> Qabs (round64 q - q) <= q * (1 # 2 ^ 53).
Proof.
  intros Hq. destruct (Qlt_le_dec 0 q) as [Hpos|Hle].
  - rewrite (round64_of_pos q Hpos).
    assert (Hr : 0 < Qred q) by now rewrite Qred_correct.
    pose proof (round64_pos_error (Qred q) Hr) as H.
    set (r := round64_pos (Qred q)) in *.
    now rewrite (Qred_correct q) in H.
  - assert (H0 : q == 0) by lra.
    rewrite (round64_zero q H0), H0. now vm_compute.
Qed.

Lemma round64_mono (a b : Q) : 0 <= a -> a <= b -> round64 a <= round64 b.
Proof.
  intros Ha Hab. destruct (Qlt_le_dec 0 a) as [Hpos|Hle].
  - assert (Hb : 0 < b) by lra.
    rewrite (round64_of_pos a Hpos), (round64_of_pos b Hb).
    apply round64_pos_mono; rewrite !Qred_correct; assumption.
  - assert (H0 : a == 0) by lra. rewrite (round64_zero a H0).
    destruct (Qlt_le_dec 0 b) as [Hb|Hb].
    + rewrite (round64_of_pos b Hb). apply Qlt_le_weak, round64_pos_pos.
      now rewrite Qred_correct.
    + assert (Hb0 : b == 0) by lra. rewrite (round64_zero b Hb0). lra.
Qed.

Lemma round64_positive (q : Q) : 0 < q -> 0 < round64 q.
Proof.
  intros Hq. rewrite (round64_of_pos q Hq). apply round64_pos_pos.
  now rewrite Qred_correct.
Qed.

Lemma round64_nonneg (q : Q) : 0 <= q -> 0 <= round64 q.
Proof.
  intros Hq. change 0 with (round64 0) at 1. now apply round64_mono.
Qed.

Lemma round64_exact (n k : Z) (q : Q) :
  (0 <= n < 2 ^ 53)%Z -> q == inject_Z n * 2 ^ k -> round64 q == q.
Proof.
  intros [Hn0 Hn] Hq. destruct (Z.eq_dec n 0) as [->|Hne].
  - assert (H0 : q == 0) by (rewrite Hq; ring).
    rewrite (round64_zero q H0). now rewrite H0.
  - assert (Hpos : 0 < q).
    { rewrite Hq. apply Qmult_lt_0_compat; [|apply pow2_pos].
      change 0 with (inject_Z 0). rewrite <- Zlt_Qlt. lia. }
    rewrite (round64_of_pos q Hpos).
    rewrite (round64_pos_exact n k (Qred q)); [apply Qred_correct | lia |].
    now rewrite Qred_correct.
Qed.

(** *** The percentage of the report *)

Lemma percentage_error (a b n : Z) :
  (0 <= a - b)%Z -> (0 < n)%Z ->
  let exact := 100 * inject_Z (a - b) / inject_Z n in
  Qabs (percentage a b n - exact) <= exact * (3 # 2 ^ 53).
Proof.
  intros Hab Hn. cbv zeta. unfold percentage.
  set (x := inject_Z (a - b) / inject_Z n).
  assert (Hx : 0 <= x).
  { unfold x. apply Qle_shift_div_l.
    - change 0 with (inject_Z 0). rewrite <- Zlt_Qlt. lia.
    - rewrite Qmult_0_l. change 0 with (inject_Z 0). rewrite <- Zle_Qle. lia. }
  pose proof (round64_error x Hx) as H1.
  pose proof (round64_nonneg x Hx) as Hr1.
  set (r1 := round64 x) in *.
  assert (Hy : 0 <= r1 * 100) by lra.
  pose proof (round64_error (r1 * 100) Hy) as H2.
  set (r2 := round64 (r1 * 100)) in *.
  assert (He : 100 * inject_Z (a - b) / inject_Z n == 100 * x)
    by (unfold x; unfold Qdiv; ring).
  rewrite He.
  change (1 # 2 ^ 53) with (1 # 9007199254740992) in *.
  change (3 # 2 ^ 53) with (3 # 9007199254740992).
  apply Qabs_Qle_condition in H1, H2. destruct H1 as [H1a H1b], H2 as [H2a H2b].
  apply Qabs_Qle_condition. split; nra.
Qed.

Lemma percentage_all (n : Z) : (0 < n)%Z -> percentage n 0 n == 100.
Proof.
  intros Hn. unfold percentage.
  assert (H1 : inject_Z (n - 0) / inject_Z n == 1).
  { rewrite Z.sub_0_r. apply Qmult_inv_r. change 0 with (inject_Z 0).
    rewrite inject_Z_injective. lia. }
  rewrite (round64_compat _ 1 H1). now vm_compute.
Qed.

Lemma percentage_none (n : Z) : (0 < n)%Z -> percentage n n n == 0.
Proof.
  intros Hn. unfold percentage.
  assert (H0 : inject_Z (n - n) / inject_Z n == 0)
    by (rewrite Z.sub_diag; unfold Qdiv; ring).
  rewrite (round64_compat _ 0 H0). now vm_compute.
Qed.

Lemma percentage_bounds (a b n : Z) :
  (0 <= b <= a)%Z -> (a <= n)%Z -> (0 < n)%Z ->
  0 <= percentage a b n /\ percentage a b n <= 100.
Proof.
  intros Hb Ha Hn. unfold percentage.
  set (x := inject_Z (a - b) / inject_Z n).
  assert (Hn' : 0 < inject_Z n)
    by (change 0 with (inject_Z 0); rewrite <- Zlt_Qlt; lia).
  assert (Hx0 : 0 <= x).
  { unfold x. apply Qle_shift_div_l; [assumption|].
    rewrite Qmult_0_l. change 0 with (inject_Z 0). rewrite <- Zle_Qle. lia. }
  assert (Hx1 : x <= 1).
  { unfold x. apply Qle_shift_div_r; [assumption|].
    rewrite Qmult_1_l, <- Zle_Qle. lia. }
  pose proof (round64_nonneg x Hx0) as Hr0.
  pose proof (round64_mono x 1 Hx0 Hx1) as Hr1.
  change (round64 1) with (4503599627370496 # 4503599627370496) in Hr1.
  assert (Hone : (4503599627370496 # 4503599627370496) == 1) by reflexivity.
  rewrite Hone in Hr1.
  split.
  - apply round64_nonneg. lra.
  - assert (Hy : round64 x * 100 <= 100) by lra.
    apply (round64_mono _ 100) in Hy; [|lra].
    eapply Qle_trans; [exact Hy|]. now vm_compute.
Qed.

Lemma percentage_positive (a b n : Z) :
  (b < a)%Z -> (0 < n)%Z -> 0 < percentage a b n.
Proof.
  intros Hb Hn. unfold percentage.
  assert (Hx : 0 < inject_Z (a - b) / inject_Z n).
  { apply Qlt_shift_div_l.
    - change 0 with (inject_Z 0). rewrite <- Zlt_Qlt. lia.
    - rewrite Qmult_0_l. change 0 with (inject_Z 0). rewrite <- Zlt_Qlt. lia. }
  apply round64_positive. pose proof (round64_positive _ Hx). lra.
Qed.

(** Below [2 ^ 53] checks, one violation keeps the score under 100. *)
Lemma percentage_below (a b n : Z) :
  (0 < b <= a)%Z -> (a <= n)%Z -> (n <= 2 ^ 53)%Z -> percentage a b n < 100.
Proof.
  intros Hb Ha Hn. unfold percentage.
  set (x := inject_Z (a - b) / inject_Z n).
  assert (Hn' : 0 < inject_Z n)
    by (change 0 with (inject_Z 0); rewrite <- Zlt_Qlt; lia).
  assert (Hx0 : 0 <= x).
  { unfold x. apply Qle_shift_div_l; [assumption|].
    rewrite Qmult_0_l. change 0 with (inject_Z 0). rewrite <- Zle_Qle. lia. }
  set (p := inject_Z (2 ^ 53 - 1) * 2 ^ (-53)).
  assert (Hxp : x <= p).
  { unfold x. apply Qle_shift_div_r; [assumption|].
    unfold p. change (2 ^ (-53)) with (1 # 9007199254740992).
    change (inject_Z (2 ^ 53 - 1)) with (9007199254740991 # 1).
    unfold Qle, Qmult, inject_Z. cbn [Qnum Qden].
    change (2 ^ 53)%Z with 9007199254740992%Z in Hn. lia. }
  pose proof (round64_mono x p Hx0 Hxp) as H1.
  assert (Hp : round64 p == p) by (apply (round64_exact (2 ^ 53 - 1) (-53)); [lia | reflexivity]).
  rewrite Hp in H1.
  pose proof (round64_nonneg x Hx0) as Hr0.
  assert (Hy : round64 x * 100 <= p * 100) by lra.
  apply round64_mono in Hy; [|lra].
  eapply Qle_lt_trans; [exact Hy|]. now vm_compute.
Qed.

End Rounding.

(** ** chunk_text *)

Section ChunkText.

(** C10: the empty text gives no window, whatever the parameters. *)
Theorem chunk_text_empty (fuel : nat) (chunk_size overlap : Z) :
  chunk_text fuel EmptyString chunk_size overlap = Some [].
Proof.
  destruct fuel; reflexivity.
Qed.

(** With [overlap >= chunk_size] the start offset never moves forward. *)
Lemma chunk_loop_stuck (text : string) (chunk_size overlap : Z) :
  overlap >= chunk_size -> 0 < len text -> chunk_size < len text ->
  forall (fuel : nat) (start : Z) (chunks : list string),
    start <= 0 ->
    chunk_loop fuel text chunk_size overlap start chunks = None.
Proof.
  intros Hov Hpos Hbig fuel.
  induction fuel as [|fuel IH]; intros start chunks Hstart; simpl;
    (destruct (start <? len text) eqn:E1; [|apply Z.ltb_ge in E1; lia]); auto.
  destruct (start + chunk_size >=? len text) eqn:E2.
  - apply Z.geb_le in E2. lia.
  - apply IH. lia.
Qed.

(** The loop from the k-th window on, when the parameters are valid. *)
Lemma chunk_loop_run (text : string) (chunk_size overlap : Z) :
  0 <= overlap -> overlap < chunk_size ->
  forall (m k : nat) (chunks : list string),
    window_start chunk_size overlap k < len text ->
    len text - window_start chunk_size overlap k <= Z.of_nat m ->
    exists K : nat,
      (k <= K)%nat /\
      window_start chunk_size overlap K < len text /\
      len text <= window_start chunk_size overlap K + chunk_size /\
      (forall j, (k <= j < K)%nat ->
                 window_start chunk_size overlap j + chunk_size < len text) /\
      forall fuel, (K - k < fuel)%nat ->
        chunk_loop fuel text chunk_size overlap
          (window_start chunk_size overlap k) chunks
        = Some (chunks ++ map (window text chunk_size overlap)
                            (seq k (S (K - k))))%list.
Proof.
  intros Hov Hlt m.
  induction m as [|m IH]; intros k chunks Hk Hm; [lia|].
  destruct (Z_lt_ge_dec (window_start chunk_size overlap k + chunk_size)
              (len text)) as [Hmore|Hlast].
  - assert (Hnext : window_start chunk_size overlap (S k)
                    = window_start chunk_size overlap k + chunk_size - overlap)
      by (unfold window_start; lia).
    destruct (IH (S k)
                (chunks ++ [window text chunk_size overlap k])%list)
      as (K & HkK & HK1 & HK2 & Hfull & Hrun); try lia.
    exists K. split; [lia|]. do 2 (split; [assumption|]). split.
    + intros j Hj. destruct (Nat.eq_dec j k) as [->|Hne]; auto.
      apply Hfull. lia.
    + intros [|fuel] Hfuel; [lia|]. simpl.
      destruct (_ <? len text) eqn:E1; [|apply Z.ltb_ge in E1; lia].
      destruct (_ >=? len text) eqn:E2; [apply Z.geb_le in E2; lia|].
      rewrite <- Hnext. fold (window text chunk_size overlap k).
      rewrite Hrun by lia.
      rewrite <- app_assoc. do 2 f_equal.
      replace (K - k)%nat with (S (K - S k)) by lia. reflexivity.
  - exists k. split; [lia|]. do 2 (split; [lia|]). split; [intros j Hj; lia|].
    intros [|fuel] Hfuel; [lia|]. simpl.
    destruct (_ <? len text) eqn:E1; [|apply Z.ltb_ge in E1; lia].
    destruct (_ >=? len text) eqn:E2.
    + now rewrite Nat.sub_diag.
    + rewrite Z.geb_leb in E2. apply Z.leb_gt in E2. lia.
Qed.

Lemma window_start_nonneg (chunk_size overlap : Z) (k : nat) :
  overlap < chunk_size -> 0 <= window_start chunk_size overlap k.
Proof.
  unfold window_start. intros H. nia.
Qed.

(** A window that ends before the text does is full, and the next window
    starts with its last [overlap] characters. *)
Lemma window_shared (text : string) (chunk_size overlap : Z) (k : nat) :
  0 <= overlap -> overlap < chunk_size ->
  window_start chunk_size overlap k + chunk_size < len text ->
  len (window text chunk_size overlap k) = chunk_size /\
  exists a s b : string,
    window text chunk_size overlap k = a ++ s /\
    window text chunk_size overlap (S k) = s ++ b /\
    len s = overlap.
Proof.
  intros Hov Hlt Hfull.
  pose proof (window_start_nonneg chunk_size overlap k Hlt) as Hk.
  assert (Hnext : window_start chunk_size overlap (S k)
                  = window_start chunk_size overlap k + (chunk_size - overlap))
    by (unfold window_start; lia).
  set (sk := window_start chunk_size overlap k) in *.
  assert (Hw : window text chunk_size overlap k
               = str_take (Z.to_nat chunk_size) (str_drop (Z.to_nat sk) text)).
  { unfold window. fold sk. rewrite py_slice_inside by lia.
    f_equal. lia. }
  assert (Hw' : window text chunk_size overlap (S k)
                = str_take (Z.to_nat (Z.min (sk + (chunk_size - overlap) + chunk_size)
                                        (len text)
                                      - (sk + (chunk_size - overlap))))
                    (str_drop (Z.to_nat (sk + (chunk_size - overlap))) text)).
  { unfold window. rewrite Hnext. now rewrite py_slice_inside by lia. }
  split.
  - rewrite Hw. unfold len in *.
    rewrite length_str_take, length_str_drop. lia.
  - exists (str_take (Z.to_nat (chunk_size - overlap))
              (str_drop (Z.to_nat sk) text)),
           (str_take (Z.to_nat overlap)
              (str_drop (Z.to_nat (sk + (chunk_size - overlap))) text)),
           (str_take (Z.to_nat (Z.min (sk + (chunk_size - overlap) + chunk_size)
                                  (len text) - (sk + chunk_size)))
              (str_drop (Z.to_nat (sk + chunk_size)) text)).
    split; [|split].
    + rewrite Hw.
      replace (Z.to_nat chunk_size)
        with (Z.to_nat (chunk_size - overlap) + Z.to_nat overlap)%nat by lia.
      rewrite str_take_add, str_drop_drop. do 3 f_equal. lia.
    + rewrite Hw'.
      replace (Z.to_nat (Z.min (sk + (chunk_size - overlap) + chunk_size) (len text)
                         - (sk + (chunk_size - overlap))))
        with (Z.to_nat overlap
              + Z.to_nat (Z.min (sk + (chunk_size - overlap) + chunk_size)
                            (len text) - (sk + chunk_size)))%nat by lia.
      rewrite str_take_add, str_drop_drop. do 3 f_equal. lia.
    + unfold len in *. rewrite length_str_take, length_str_drop. lia.
Qed.

(** The call [chunk_text(content, 1000, 200)] ends within [len(content)]
    iterations. *)
Lemma chunk_text_default_fuel (content : string) :
  exists chunks,
    chunk_text (String.length content) content 1000 200 = Some chunks.
Proof.
  destruct content as [|c content].
  - exists []. reflexivity.
  - remember (String c content) as text.
    assert (Hpos : 0 < len text) by (subst; unfold len; simpl; lia).
    destruct (chunk_loop_run text 1000 200 ltac:(lia) ltac:(lia)
                (String.length text) O [])
      as (K & _ & HK & _ & _ & Hrun).
    + unfold window_start. simpl. lia.
    + unfold window_start, len. simpl. lia.
    + eexists. unfold chunk_text.
      change 0 with (window_start 1000 200 O).
      apply Hrun. unfold window_start, len in HK. lia.
Qed.

(** C8: with [chunk_size > overlap >= 0] and a non-empty text the loop ends
    and returns the windows [0 .. K]: window [k] starts at offset
    [k * (chunk_size - overlap)], so the starts advance by
    [chunk_size - overlap] and increase strictly; the last window ends at
    [len text]; every window before the last is full and its last [overlap]
    characters are the first [overlap] characters of the next one. *)
Theorem chunk_text_windows (text : string) (chunk_size overlap : Z) :
  0 < len text -> 0 <= overlap -> overlap < chunk_size ->
  exists K : nat,
    (forall fuel, (K < fuel)%nat ->
       chunk_text fuel text chunk_size overlap
       = Some (map (window text chunk_size overlap) (seq 0 (S K)))) /\
    (forall k : nat,
       window_start chunk_size overlap (S k)
       = window_start chunk_size overlap k + (chunk_size - overlap) /\
       window_start chunk_size overlap k < window_start chunk_size overlap (S k)) /\
    (window_start chunk_size overlap K < len text /\
     window_end text chunk_size overlap K = len text /\
     window text chunk_size overlap K
     = str_drop (Z.to_nat (window_start chunk_size overlap K)) text) /\
    (forall k : nat, (k < K)%nat ->
       len (window text chunk_size overlap k) = chunk_size /\
       window_end text chunk_size overlap k
       - window_start chunk_size overlap (S k) = overlap /\
       exists a s b : string,
         window text chunk_size overlap k = a ++ s /\
         window text chunk_size overlap (S k) = s ++ b /\
         len s = overlap).
Proof.
  intros Hpos Hov Hlt.
  destruct (chunk_loop_run text chunk_size overlap Hov Hlt
              (String.length text) O [])
    as (K & _ & HK1 & HK2 & Hfull & Hrun).
  - unfold window_start. simpl. lia.
  - unfold window_start, len. simpl. lia.
  - exists K. split; [|split; [|split]].
    + intros fuel Hfuel. unfold chunk_text.
      change 0 with (window_start chunk_size overlap O).
      rewrite Hrun by lia. now rewrite Nat.sub_0_r.
    + intros k. unfold window_start. split; lia.
    + split; [assumption|]. split.
      * unfold window_end. lia.
      * pose proof (window_start_nonneg chunk_size overlap K Hlt) as HK0.
        unfold window. rewrite py_slice_inside by lia.
        apply str_take_all. rewrite length_str_drop. unfold len in *. lia.
    + intros k Hk.
      assert (Hk' : window_start chunk_size overlap k + chunk_size < len text)
        by (apply Hfull; lia).
      destruct (window_shared text chunk_size overlap k Hov Hlt Hk')
        as (Hlen & Hshare).
      split; [assumption|]. split; [|assumption].
      unfold window_end, window_start in *. lia.
Qed.

(** The call [chunk_text(content, 1000, 200)] ends within
    [len(content) + 1] iterations. *)
(** C7, as the code has it: nothing is rejected.  With
    [overlap >= chunk_size] the call returns no window for the empty text,
    the whole text as one window when it fits in [chunk_size], and never
    returns when the text is longer than [chunk_size]. *)
Theorem chunk_text_degenerate (text : string) (chunk_size overlap : Z) :
  overlap >= chunk_size ->
  (len text = 0 ->
   forall fuel, chunk_text fuel text chunk_size overlap = Some []) /\
  (0 < len text -> len text <= chunk_size ->
   forall fuel, chunk_text (S fuel) text chunk_size overlap = Some [text]) /\
  (0 < len text -> chunk_size < len text ->
   forall fuel, chunk_text fuel text chunk_size overlap = None).
Proof.
  intros Hdeg. split; [|split].
  - intros Hlen fuel. unfold chunk_text.
    destruct fuel; simpl;
      (destruct (Z.ltb_spec 0 (len text)); [lia | reflexivity]).
  - intros Hpos Hfit fuel. unfold chunk_text. simpl.
    destruct (Z.ltb_spec 0 (len text)); [|lia].
    destruct (chunk_size >=? len text) eqn:E.
    + rewrite py_slice_inside by lia.
      rewrite str_take_all; [reflexivity|].
      unfold len in *. simpl. lia.
    + rewrite Z.geb_leb in E. apply Z.leb_gt in E. lia.
  - intros Hpos Hbig fuel. unfold chunk_text.
    apply chunk_loop_stuck; auto. lia.
Qed.

End ChunkText.

(** ** check_pattern_compliance *)

Section Occurrences.

Lemma startswith_spec (sub s : string) :
  startswith sub s = true <-> exists post, s = sub ++ post.
Proof.
  revert s; induction sub as [|a sub IH]; intros s; simpl.
  - split; eauto.
  - destruct s as [|b s].
    + split; [discriminate | intros [post H]; discriminate].
    + rewrite andb_true_iff, Ascii.eqb_eq, IH. split.
      * intros [-> [post ->]]. now exists post.
      * intros [post H]. injection H as -> ->. eauto.
Qed.

Lemma occurs_at_0 (sub s : string) :
  occurs_at sub s 0 <-> startswith sub s = true.
Proof.
  rewrite startswith_spec. split.
  - intros ([|c pre] & post & -> & Hlen); [now exists post | discriminate].
  - intros [post ->]. now exists EmptyString, post.
Qed.

Lemma occurs_at_S (sub : string) (c : ascii) (s : string) (i : nat) :
  occurs_at sub (String c s) (S i) <-> occurs_at sub s i.
Proof.
  split.
  - intros ([|x pre] & post & H & Hlen); [discriminate|].
    simpl in H. injection H as -> ->. injection Hlen as Hlen.
    now exists pre, post.
  - intros (pre & post & -> & Hlen).
    exists (String c pre), post. simpl. auto.
Qed.

Lemma occurs_at_empty (sub : string) (i : nat) :
  occurs_at sub EmptyString (S i) -> False.
Proof.
  intros ([|x pre] & post & H & Hlen); discriminate.
Qed.

Lemma str_contains_spec (sub s : string) :
  str_contains sub s = true <-> exists i, occurs_at sub s i.
Proof.
  induction s as [|c s IH]; simpl.
  - rewrite orb_false_r, <- occurs_at_0. split; [eauto|].
    intros [[|i] H]; [assumption | now apply occurs_at_empty in H].
  - rewrite orb_true_iff, IH, <- occurs_at_0. split.
    + intros [H | [i H]]; [eauto|].
      exists (S i). now apply occurs_at_S.
    + intros [[|i] H]; [now left|].
      right. exists i. now apply occurs_at_S in H.
Qed.

(** [find] gives the lowest offset of an occurrence. *)
Lemma str_find_first (sub s : string) :
  str_contains sub s = true ->
  exists i : nat,
    str_find sub s = Z.of_nat i /\
    occurs_at sub s i /\
    forall j, (j < i)%nat -> ~ occurs_at sub s j.
Proof.
  induction s as [|c s IH]; simpl.
  - rewrite orb_false_r. intros H. rewrite H.
    exists O. split; [reflexivity|]. split; [now apply occurs_at_0|].
    intros j Hj. lia.
  - destruct (startswith sub (String c s)) eqn:E.
    + intros _. exists O. split; [reflexivity|].
      split; [now apply occurs_at_0|]. intros j Hj. lia.
    + simpl. intros H. destruct (IH H) as (i & Hfind & Hocc & Hmin).
      exists (S i). rewrite Hfind.
      destruct (Z.ltb_spec (Z.of_nat i) 0); [lia|].
      split; [lia|]. split; [now apply occurs_at_S|].
      intros [|j] Hj Hj'.
      * apply occurs_at_0 in Hj'. congruence.
      * apply occurs_at_S in Hj'. apply (Hmin j); [lia | assumption].
Qed.

Lemma occurs_at_bound (sub s : string) (i : nat) :
  occurs_at sub s i -> (i + String.length sub <= String.length s)%nat.
Proof.
  intros (pre & post & -> & <-). clear.
  induction pre as [|c pre IH]; simpl.
  - induction sub as [|c sub IH]; simpl; lia.
  - lia.
Qed.

End Occurrences.

Section PatternMatcher.

Context {rt : PyRuntime}.

Lemma strings_of_map (l : list pyval) (ps : list string) :
  strings_of l = Some ps -> l = map PyStr ps.
Proof.
  revert ps; induction l as [|v l IH]; intros ps; simpl.
  - now intros [= <-].
  - destruct v; try discriminate.
    destruct (strings_of l) as [qs|]; simpl; [|discriminate].
    intros [= <-]. simpl. f_equal. now apply IH.
Qed.

Lemma pattern_loop_strings (content : string) (ps : list string) :
  forall violations,
    pattern_loop content (map PyStr ps) violations
    = Return (violations
              ++ map (pattern_context content)
                   (filter (pattern_matches content) ps))%list.
Proof.
  induction ps as [|p ps IH]; intros violations; simpl.
  - now rewrite app_nil_r.
  - unfold pattern_matches at 1.
    destruct (str_contains (str_lower p) (str_lower content)).
    + rewrite IH. simpl. now rewrite <- app_assoc.
    + apply IH.
Qed.

Lemma check_pattern_compliance_eq (content : string) (rule : pyval)
    (ps : list string) :
  rule_patterns rule = Some ps ->
  check_pattern_compliance content rule
  = Return (existsb (pattern_matches content) ps,
            map (pattern_context content) (filter (pattern_matches content) ps)).
Proof.
  intros Hps. unfold check_pattern_compliance.
  assert (Hloop : forall l, strings_of l = Some ps ->
            bind (py_iter (PyList l)) (fun patterns =>
            bind (pattern_loop content patterns []) (fun violations =>
            Return (0 <? Z.of_nat (List.length violations), violations)))
            = Return (existsb (pattern_matches content) ps,
                      map (pattern_context content)
                        (filter (pattern_matches content) ps))).
  { intros l Hl. apply strings_of_map in Hl. subst l. simpl.
    rewrite pattern_loop_strings. simpl. f_equal. f_equal.
    rewrite length_map. clear Hps.
    induction ps as [|p ps IH]; simpl; auto.
    destruct (pattern_matches content p); simpl; auto. }
  destruct rule; try discriminate. simpl in *.
  destruct (dict_lookup "patterns" d) as [v|].
  - destruct v; try discriminate. now apply Hloop.
  - injection Hps as <-. reflexivity.
Qed.

End PatternMatcher.

(** ** llm_compliance_check *)

Section Adjudicator.

Context {rt : PyRuntime}.

Lemma mbind_Return {A B : Type} (m : M A) (k : A -> M B) (w w' : world) (b : B) :
  mbind m k w = (Return b, w') ->
  exists a w1, m w = (Return a, w1) /\ k a w1 = (Return b, w').
Proof.
  unfold mbind. destruct (m w) as [[a|e] w1]; [eauto | discriminate].
Qed.

Lemma lift_Return {A : Type} (r : result A) (w w' : world) (a : A) :
  lift r w = (Return a, w') -> r = Return a /\ w' = w.
Proof.
  unfold lift. now intros [= -> ->].
Qed.

Lemma build_prompt_defined (content : string) (d : dict) (name description : pyval) :
  dict_lookup "name" d = Some name ->
  dict_lookup "description" d = Some description ->
  exists prompt, build_prompt content (PyDict d) = Return prompt.
Proof.
  intros Hn Hd. unfold build_prompt. simpl. rewrite Hn, Hd. simpl. eauto.
Qed.

Lemma llm_compliance_check_eq (self : ComplianceEngine) (content : string)
    (rule : pyval) (prompt : string) (w : world) :
  build_prompt content rule = Return prompt ->
  llm_compliance_check self content rule w
  = match selected_client self with
    | Some client =>
        (Return (guarded (client (llm_calls w) prompt)),
         mk_world (collection w) (S (llm_calls w)) (clock_reads w))
    | None => (Return no_llm_verdict, w)
    end.
Proof.
  intros Hp. unfold llm_compliance_check, selected_client, mbind, lift.
  rewrite Hp.
  destruct (openai_client self); [reflexivity|].
  destruct (anthropic_client self); reflexivity.
Qed.



End Adjudicator.

(** ** analyze_document *)

Section Orchestrator.

Context {rt : PyRuntime}.

Ltac run_binds H :=
  repeat (apply mbind_Return in H;
          let a := fresh "a" in
          let w := fresh "w" in
          let E := fresh "E" in
          destruct H as (a & w & E & H);
          try (apply lift_Return in E; destruct E as [E ->])).

Lemma max_floor_ge (v score : pyval) :
  py_max_float (FFin 0.8) v = Return score ->
  py_ge_float score (FFin 0.8) = Return true.
Proof.
  unfold py_max_float, py_gt_float, py_ge_float.
  destruct (as_number v) as [x|] eqn:E; simpl; [|discriminate].
  destruct (float_gt x (FFin 0.8)) eqn:G; intros [= <-].
  - rewrite E. unfold float_ge. now rewrite G.
  - reflexivity.
Qed.

Lemma analyze_rule_invariant (self : ComplianceEngine) (doc_id content : string)
    (rule_type : string) (rule : pyval) (w w' : world) (v : verdict) :
  analyze_rule self doc_id content rule_type rule w = (Return v, w') ->
  verdict_invariant v.
Proof.
  unfold analyze_rule. intros H. run_binds H.
  unfold ret in H. injection H as <- _.
  unfold verdict_invariant. simpl.
  assert (a9 = a5) by congruence. assert (a10 = a6) by congruence. subst.
  split; [reflexivity|]. split; [|split].
  - unfold py_or. simpl. now destruct (fst a).
  - assumption.
  - intros Hhit. rewrite Hhit in E11. exact (max_floor_ge _ _ E11).
Qed.

Lemma analyze_rule_no_llm (self : ComplianceEngine) (doc_id content : string)
    (rule_type : string) (rule : pyval) (w w' : world) (v : verdict) :
  selected_client self = None ->
  analyze_rule self doc_id content rule_type rule w = (Return v, w') ->
  no_llm_outcome v.
Proof.
  intros Hsel. unfold analyze_rule. intros H.
  apply mbind_Return in H. destruct H as (pc & w1 & Epc & H).
  apply lift_Return in Epc. destruct Epc as [Epc ->].
  apply mbind_Return in H. destruct H as (llm_result & w2 & Ellm & H).
  assert (llm_result = no_llm_verdict).
  { destruct (build_prompt content rule) as [prompt|e] eqn:Hp.
    - rewrite (llm_compliance_check_eq self content rule prompt w Hp), Hsel in Ellm.
      congruence.
    - unfold llm_compliance_check, mbind, lift in Ellm. rewrite Hp in Ellm.
      discriminate. }
  subst llm_result. run_binds H.
  unfold ret in H. injection H as <- _.
  simpl in *. injection E3 as <-. injection E4 as <-. injection E5 as <-.
  injection E6 as <-. injection E7 as <-. injection E8 as <-.
  unfold no_llm_outcome. simpl. do 4 (split; [reflexivity|]).
  intros Hhit. rewrite Hhit in *. split; [reflexivity|].
  cbv in E9. congruence.
Qed.

Section Loops.

Variable self : ComplianceEngine.
Variables doc_id content : string.
Variable P : verdict -> Prop.
Hypothesis body : forall rule_type rule w v w',
  analyze_rule self doc_id content rule_type rule w = (Return v, w') -> P v.

Lemma rules_loop_Forall (rule_type : string) (rule_list : list pyval) :
  forall results w vs w',
    Forall P results ->
    rules_loop self doc_id content rule_type rule_list results w = (Return vs, w') ->
    Forall P vs.
Proof.
  induction rule_list as [|rule rest IH]; intros results w vs w' Hres H; simpl in H.
  - unfold ret in H. now injection H as <- _.
  - apply mbind_Return in H. destruct H as (v & w1 & Hv & H).
    apply (IH _ _ _ _ (proj2 (Forall_app _ _ _) (conj Hres (Forall_cons _ (body _ _ _ _ _ Hv) (Forall_nil _)))) H).
Qed.

Lemma types_loop_Forall (rule_types : list string) :
  forall results w vs w',
    Forall P results ->
    types_loop self doc_id content rule_types results w = (Return vs, w') ->
    Forall P vs.
Proof.
  induction rule_types as [|rule_type rest IH]; intros results w vs w' Hres H;
    simpl in H.
  - unfold ret in H. now injection H as <- _.
  - destruct (dict_lookup rule_type (rules self)) as [rule_set|].
    + apply mbind_Return in H. destruct H as (rule_list & w1 & _ & H).
      apply mbind_Return in H. destruct H as (results' & w2 & Hloop & H).
      apply (IH _ _ _ _ (rules_loop_Forall _ _ _ _ _ _ Hres Hloop) H).
    + apply (IH _ _ _ _ Hres H).
Qed.

Lemma analyze_document_Forall (rule_types : option (list string))
    (w w' : world) (vs : list verdict) :
  analyze_document self doc_id content rule_types w = (Return vs, w') ->
  Forall P vs.
Proof.
  unfold analyze_document. intros H.
  apply mbind_Return in H. destruct H as (u & w1 & _ & H).
  apply (types_loop_Forall _ _ _ _ _ (Forall_nil _) H).
Qed.

End Loops.

(** C1: every verdict [analyze_document] returns satisfies both
    invariants: [overall_violation] is [pattern_violation or llm_violation],
    [confidence_score] is [max] of the pattern floor and [llm_confidence],
    and the score is at least 0.8 when a pattern matched. *)
Theorem analyze_document_invariants (self : ComplianceEngine)
    (doc_id content : string) (rule_types : option (list string))
    (w w' : world) (vs : list verdict) :
  analyze_document self doc_id content rule_types w = (Return vs, w') ->
  Forall verdict_invariant vs.
Proof.
  apply analyze_document_Forall.
  intros rule_type rule w0 v w0'. apply analyze_rule_invariant.
Qed.

Lemma no_pattern_matches (content : string) (ps : list string) :
  (forall p, In p ps -> ~ occurs_ci p content) ->
  existsb (pattern_matches content) ps = false /\
  filter (pattern_matches content) ps = [].
Proof.
  induction ps as [|p ps IH]; simpl; intros H; [auto|].
  destruct (pattern_matches content p) eqn:E.
  - exfalso. apply (H p); [now left|]. now apply str_contains_spec.
  - apply IH. intros q Hq. apply H. now right.
Qed.

Lemma selected_client_none (self : ComplianceEngine) :
  openai_client self = None -> anthropic_client self = None ->
  selected_client self = None.
Proof.
  unfold selected_client. now intros -> ->.
Qed.

End Orchestrator.

(** ** generate_compliance_report *)

Section Aggregator.

Context {rt : PyRuntime}.

Lemma select_violation_mask (df : list verdict) :
  select df (violation_mask df) = filter is_violation df.
Proof.
  unfold violation_mask. induction df as [|row df IH]; simpl; auto.
  fold (is_violation row). destruct (is_violation row); now rewrite IH.
Qed.

Lemma filter_le {A : Type} (f : A -> bool) (l : list A) :
  (List.length (filter f l) <= List.length l)%nat.
Proof.
  induction l as [|a l IH]; simpl; [lia|]. destruct (f a); simpl; lia.
Qed.

(** C4, as the code has it: no verdicts give the report with status
    ["No violations found"] and an empty summary; for [N > 0] verdicts, [V]
    of them violations, a returned report has [total_checks = N],
    [total_violations = V], and [compliance_score] is the float
    [(N - V) / N * 100]: the float nearest to the quotient, times 100,
    rounded again.  It is [100 * (N - V) / N] up to a relative error of
    [3 * 2 ^ -53], exactly 100 when [V = 0] and exactly 0 when [V = N]. *)
Theorem generate_compliance_report_spec :
  generate_compliance_report []
  = Return (mk_report "No violations found" None None) /\
  forall (results : list verdict) (rep : report),
    results <> [] ->
    generate_compliance_report results = Return rep ->
    let N := Z.of_nat (List.length results) in
    let V := Z.of_nat (List.length (filter is_violation results)) in
    status rep = "Analysis Complete" /\
    detailed_results rep = Some results /\
    exists (s : report_summary) (score : Q),
      summary rep = Some s /\
      total_checks s = N /\
      total_violations s = V /\
      compliance_score s = FFin score /\
      score = round64 (round64 (inject_Z (N - V) / inject_Z N) * 100)%Q /\
      (Qabs (score - 100 * inject_Z (N - V) / inject_Z N)
       <= 100 * inject_Z (N - V) / inject_Z N * (3 # 2 ^ 53))%Q /\
      (V = 0 -> (score == 100)%Q) /\
      (V = N -> (score == 0)%Q).
Proof.
  split; [reflexivity|].
  intros results rep Hne H.
  assert (H' : analysis_report results = Return rep)
    by (destruct results; [congruence | exact H]).
  clear H. unfold analysis_report in H'.
  rewrite select_violation_mask in H'.
  destruct (groupby_size _) as [by_type|]; [|discriminate].
  destruct (groupby_size _) as [by_severity|]; [|discriminate].
  destruct (column_gt _ _) as [confident|]; [|discriminate].
  injection H' as <-. cbv zeta.
  split; [reflexivity|]. split; [reflexivity|].
  eexists _, _. split; [reflexivity|].
  split; [reflexivity|]. split; [reflexivity|]. split; [reflexivity|].
  pose proof (filter_le is_violation results) as Hle.
  assert (Hpos : 0 < count results)
    by (destruct results; [congruence | unfold count; simpl; lia]).
  unfold count in *.
  split; [reflexivity|]. split; [|split].
  - apply percentage_error; lia.
  - intros ->. apply percentage_all. lia.
  - intros ->. apply percentage_none. lia.
Qed.

Lemma column_gt_numbers (cells : list pyval) (f : pyfloat) :
  Forall (fun cell => as_number cell <> None) cells ->
  exists mask, column_gt cells f = Return mask.
Proof.
  induction 1 as [|cell cells Hcell _ [mask IH]]; simpl; [eauto|].
  rewrite IH. unfold cell_gt, py_gt_float.
  destruct cell; simpl in *; try congruence; eauto.
Qed.

(** The report is returned whenever the group sizes are and every
    confidence score is a number, as the scores of [analyze_document] are. *)
Lemma generate_compliance_report_returns (results : list verdict) :
  (forall cells, exists sizes, groupby_size cells = Return sizes) ->
  Forall (fun v => as_number (confidence_score v) <> None) results ->
  exists rep, generate_compliance_report results = Return rep.
Proof.
  intros Hgroup Hnum.
  destruct results as [|row results]; [simpl; eauto|].
  unfold generate_compliance_report, analysis_report.
  destruct (Hgroup (map (fun row => PyStr (rule_type row))
                      (select (row :: results) (violation_mask (row :: results)))))
    as [by_type ->].
  destruct (Hgroup (map severity
                      (select (row :: results) (violation_mask (row :: results)))))
    as [by_severity ->].
  destruct (column_gt_numbers (map confidence_score (row :: results)) (FFin 0.7))
    as [mask Hmask].
  - now apply Forall_map.
  - unfold bind. rewrite Hmask. eauto.
Qed.

Lemma verdict_invariant_number (v : verdict) :
  verdict_invariant v -> as_number (confidence_score v) <> None.
Proof.
  intros (_ & _ & Hmax & _). unfold py_max_float, py_gt_float in Hmax.
  destruct (as_number (llm_confidence v)) as [x|] eqn:E; [|discriminate].
  simpl in Hmax. destruct (float_gt x _); injection Hmax as <-.
  - now rewrite E.
  - discriminate.
Qed.

End Aggregator.

(** ** load_all_rules *)

Section RuleRepository.

Context {rt : PyRuntime}.

Lemma dict_lookup_set_same (key : string) (v : pyval) (d : dict) :
  dict_lookup key (dict_set key v d) = Some v.
Proof.
  induction d as [|[k w] d IH]; simpl.
  - now rewrite String.eqb_refl.
  - destruct (String.eqb k key) eqn:E; simpl; now rewrite E.
Qed.

Lemma dict_lookup_set_other (key key' : string) (v : pyval) (d : dict) :
  key <> key' -> dict_lookup key' (dict_set key v d) = dict_lookup key' d.
Proof.
  intros Hne. induction d as [|[k w] d IH]; simpl.
  - destruct (String.eqb_spec key key'); congruence.
  - destruct (String.eqb_spec k key) as [->|Hk]; simpl.
    + destruct (String.eqb_spec key key'); congruence.
    + now rewrite IH.
Qed.

Lemma rule_files_load_cons (decode : string -> result string)
    (filename : string) (entry : node) (rest : directory) :
  rule_files_load decode ((filename, entry) :: rest) ->
  rule_files_load decode rest.
Proof.
  intros H f n Hin. apply H. now right.
Qed.

Lemma load_files_returns (listing : directory) :
  rule_files_load decode_locale listing ->
  forall rules, exists loaded, load_files listing rules = Return loaded.
Proof.
  induction listing as [|[filename entry] rest IH]; intros Hall rules; simpl.
  - eauto.
  - fold (is_rule_file filename).
    pose proof (rule_files_load_cons _ _ _ _ Hall) as Hrest.
    destruct (is_rule_file filename) eqn:Ef; [|now apply IH].
    destruct (Hall filename entry (or_introl eq_refl) Ef) as [v ->]. simpl.
    now apply IH.
Qed.

Lemma load_files_other (listing : directory) (key : string) :
  (forall filename entry,
     In (filename, entry) listing -> is_rule_file filename = true ->
     rule_type_of filename <> key) ->
  forall rules loaded,
    load_files listing rules = Return loaded ->
    dict_lookup key loaded = dict_lookup key rules.
Proof.
  induction listing as [|[filename entry] rest IH]; intros Hall rules loaded H;
    simpl in H.
  - now injection H as <-.
  - fold (is_rule_file filename) in H.
    assert (Hrest : forall f n, In (f, n) rest -> is_rule_file f = true ->
                      rule_type_of f <> key)
      by (intros f n Hin; apply (Hall f n); now right).
    destruct (is_rule_file filename) eqn:Ef; [|now apply (IH Hrest rules)].
    destruct (json_load decode_locale entry) as [v|e]; simpl in H; [|discriminate].
    rewrite (IH Hrest _ _ H).
    apply dict_lookup_set_other.
    apply (Hall filename entry); [now left | assumption].
Qed.

Lemma load_files_stored (before after : directory)
    (filename : string) (entry : node) (v : pyval) :
  is_rule_file filename = true ->
  json_load decode_locale entry = Return v ->
  (forall f n, In (f, n) after -> is_rule_file f = true ->
               rule_type_of f <> rule_type_of filename) ->
  forall rules loaded,
    load_files (before ++ (filename, entry) :: after)%list rules = Return loaded ->
    dict_lookup (rule_type_of filename) loaded = Some v.
Proof.
  intros Ef Ej Hlast.
  induction before as [|[f n] before IH]; intros rules loaded H; simpl in H.
  - fold (is_rule_file filename) in H. rewrite Ef, Ej in H. simpl in H.
    rewrite (load_files_other after _ Hlast _ _ H).
    apply dict_lookup_set_same.
  - fold (is_rule_file f) in H.
    destruct (is_rule_file f); [|now apply (IH rules)].
    destruct (json_load decode_locale n) as [v'|e]; simpl in H; [|discriminate].
    now apply (IH _ _ H).
Qed.

(** The first rule file that fails ends the loop, whatever follows it. *)
Lemma load_files_aborts (before after : directory)
    (filename : string) (entry : node) (e : exn) :
  rule_files_load decode_locale before ->
  is_rule_file filename = true ->
  json_load decode_locale entry = Raise e ->
  forall rules,
    load_files (before ++ (filename, entry) :: after)%list rules = Raise e.
Proof.
  intros Hbefore Ef Ej.
  induction before as [|[f n] before IH]; intros rules; simpl.
  - fold (is_rule_file filename). now rewrite Ef, Ej.
  - fold (is_rule_file f).
    pose proof (rule_files_load_cons _ _ _ _ Hbefore) as Hrest.
    destruct (is_rule_file f) eqn:E; [|now apply IH].
    destruct (Hbefore f n (or_introl eq_refl) E) as [v ->]. simpl.
    now apply IH.
Qed.

Lemma load_files_raise (listing : directory) :
  forall rules e,
    load_files listing rules = Raise e ->
    exists before filename entry after,
      listing = (before ++ (filename, entry) :: after)%list /\
      rule_files_load decode_locale before /\
      is_rule_file filename = true /\
      json_load decode_locale entry = Raise e.
Proof.
  induction listing as [|[filename entry] rest IH]; intros rules e H; simpl in H.
  - discriminate.
  - fold (is_rule_file filename) in H.
    destruct (is_rule_file filename) eqn:Ef.
    + destruct (json_load decode_locale entry) as [v|e'] eqn:Ej; simpl in H.
      * destruct (IH _ _ H) as (before & f & n & after & -> & Hb & Hf & Hn).
        exists ((filename, entry) :: before), f, n, after.
        split; [reflexivity|]. split; [|now split].
        intros f' n' [[= <- <-]|Hin] Hf'; [eauto | now apply (Hb f' n')].
      * injection H as ->. exists [], filename, entry, rest.
        split; [reflexivity|]. split; [|now split].
        intros f' n' [].
    + destruct (IH _ _ H) as (before & f & n & after & -> & Hb & Hf & Hn).
      exists ((filename, entry) :: before), f, n, after.
      split; [reflexivity|]. split; [|now split].
      intros f' n' [[= <- <-]|Hin] Hf'; [congruence | now apply (Hb f' n')].
Qed.

(** C6, as the code has it: loading checks no field of a rule and raises
    no error of its own.  When the directory can be listed and every
    [*_rules.json] file can be opened, read and decoded, the load returns a
    mapping that holds, under each rule type, the decoded content of the
    last listed file of that type, whatever it contains.  Failure is not per
    file: the first rule file that cannot be opened, read or decoded ends
    the load with its exception, whatever files follow; these exceptions
    and that of [os.listdir] are the only ones. *)
Theorem load_all_rules_spec (listing : directory) :
  (rule_files_load decode_locale listing ->
   exists loaded,
     load_all_rules (Return listing) = Return loaded /\
     forall before filename entry after v,
       listing = (before ++ (filename, entry) :: after)%list ->
       is_rule_file filename = true ->
       json_load decode_locale entry = Return v ->
       (forall f n, In (f, n) after -> is_rule_file f = true ->
                    rule_type_of f <> rule_type_of filename) ->
       dict_lookup (rule_type_of filename) loaded = Some v) /\
  (forall before filename entry after e,
     listing = (before ++ (filename, entry) :: after)%list ->
     rule_files_load decode_locale before ->
     is_rule_file filename = true ->
     json_load decode_locale entry = Raise e ->
     load_all_rules (Return listing) = Raise e) /\
  (forall e, load_all_rules (Raise e) = Raise e) /\
  (forall e,
     load_all_rules (Return listing) = Raise e ->
     exists before filename entry after,
       listing = (before ++ (filename, entry) :: after)%list /\
       rule_files_load decode_locale before /\
       is_rule_file filename = true /\
       json_load decode_locale entry = Raise e).
Proof.
  unfold load_all_rules. simpl. split; [|split; [|split]].
  - intros Hall. destruct (load_files_returns listing Hall []) as [loaded Hload].
    exists loaded. split; [assumption|].
    intros before filename entry after v -> Ef Ej Hlast.
    now apply (load_files_stored before after filename entry v Ef Ej Hlast [] loaded).
  - intros before filename entry after e -> Hbefore Ef Ej.
    now apply load_files_aborts.
  - reflexivity.
  - intros e. apply load_files_raise.
Qed.

End RuleRepository.

(** ** chunk_text: what the windows hold *)

Section ChunkCoverage.

Lemma str_take_drop (n : nat) (s : string) :
  str_take n s ++ str_drop n s = s.
Proof.
  revert s; induction n as [|n IH]; intros [|c s]; simpl; auto.
  now rewrite IH.
Qed.

Lemma str_drop_app (n : nat) (a b : string) :
  (n <= String.length a)%nat -> str_drop n (a ++ b) = str_drop n a ++ b.
Proof.
  revert a; induction n as [|n IH]; intros [|c a]; simpl; intros H; auto.
  - lia.
  - apply IH. lia.
Qed.

Lemma window_full (text : string) (chunk_size overlap : Z) (k : nat) :
  0 <= overlap -> overlap < chunk_size ->
  window_start chunk_size overlap k + chunk_size <= len text ->
  window text chunk_size overlap k
  = str_take (Z.to_nat chunk_size)
      (str_drop (Z.to_nat (window_start chunk_size overlap k)) text).
Proof.
  intros Hov Hlt Hfull.
  pose proof (window_start_nonneg chunk_size overlap k Hlt).
  unfold window. rewrite py_slice_range by lia. f_equal. lia.
Qed.

Lemma window_last (text : string) (chunk_size overlap : Z) (k : nat) :
  overlap < chunk_size ->
  window_start chunk_size overlap k < len text ->
  len text <= window_start chunk_size overlap k + chunk_size ->
  window text chunk_size overlap k
  = str_drop (Z.to_nat (window_start chunk_size overlap k)) text.
Proof.
  intros Hlt Hin Hend.
  pose proof (window_start_nonneg chunk_size overlap k Hlt).
  unfold window. rewrite py_slice_inside by lia.
  apply str_take_all. rewrite length_str_drop. unfold len in *. lia.
Qed.

(** From window [k] on, the windows without their leading overlap are the
    rest of the text. *)
Lemma windows_rebuild (text : string) (chunk_size overlap : Z) (K : nat) :
  0 <= overlap -> overlap < chunk_size ->
  window_start chunk_size overlap K < len text ->
  len text <= window_start chunk_size overlap K + chunk_size ->
  (forall j, (j < K)%nat ->
     window_start chunk_size overlap j + chunk_size < len text) ->
  forall n k, (k + n = K)%nat ->
    window text chunk_size overlap k
    ++ join (map (str_drop (Z.to_nat overlap))
               (map (window text chunk_size overlap) (seq (S k) n)))
    = str_drop (Z.to_nat (window_start chunk_size overlap k)) text.
Proof.
  intros Hov Hlt HK1 HK2 Hfull n.
  induction n as [|n IH]; intros k Hk.
  - replace k with K by lia. simpl.
    rewrite window_last by assumption.
    induction (str_drop _ text) as [|c s IHs]; simpl; congruence.
  - assert (Hfk : window_start chunk_size overlap k + chunk_size < len text)
      by (apply Hfull; lia).
    assert (Hnext : window_start chunk_size overlap (S k)
                    = window_start chunk_size overlap k + (chunk_size - overlap))
      by (unfold window_start; lia).
    pose proof (window_start_nonneg chunk_size overlap k Hlt) as Hk0.
    specialize (IH (S k) ltac:(lia)).
    simpl. rewrite <- (str_take_drop (Z.to_nat chunk_size)
                         (str_drop (Z.to_nat (window_start chunk_size overlap k)) text)).
    rewrite <- window_full by lia. f_equal.
    rewrite str_drop_drop.
    replace (Z.to_nat (window_start chunk_size overlap k) + Z.to_nat chunk_size)%nat
      with (Z.to_nat (window_start chunk_size overlap (S k)) + Z.to_nat overlap)%nat
      by lia.
    rewrite <- str_drop_drop, <- IH.
    rewrite str_drop_app; [reflexivity|].
    assert (Hlen : overlap <= len (window text chunk_size overlap (S k))).
    { unfold window. rewrite py_slice_inside by lia.
      unfold len in *. rewrite length_str_take, length_str_drop. lia. }
    unfold len in Hlen. lia.
Qed.

(** X1: taking the first chunk whole and every later chunk without its
    first [overlap] characters gives the text back: the chunks lose
    nothing of the document. *)
Theorem chunk_text_rebuilds (text : string) (chunk_size overlap : Z) :
  0 < len text -> 0 <= overlap -> overlap < chunk_size ->
  exists (first : string) (rest : list string),
    (forall fuel, (List.length rest < fuel)%nat ->
       chunk_text fuel text chunk_size overlap = Some (first :: rest)) /\
    first ++ join (map (str_drop (Z.to_nat overlap)) rest) = text.
Proof.
  intros Hpos Hov Hlt.
  destruct (chunk_loop_run text chunk_size overlap Hov Hlt
              (String.length text) O [])
    as (K & _ & HK1 & HK2 & Hfull & Hrun).
  - unfold window_start. simpl. lia.
  - unfold window_start, len. simpl. lia.
  - exists (window text chunk_size overlap O),
           (map (window text chunk_size overlap) (seq 1 K)).
    split.
    + intros fuel Hfuel. rewrite length_map, length_seq in Hfuel.
      unfold chunk_text. change 0 with (window_start chunk_size overlap O).
      rewrite Hrun by lia. now rewrite Nat.sub_0_r.
    + rewrite (windows_rebuild text chunk_size overlap K Hov Hlt HK1 HK2) by
        (try (intros j Hj; apply Hfull); lia).
      reflexivity.
Qed.

(** X2: the number of chunks is 1 when the text fits in [chunk_size],
    else 1 + ceil((len - chunk_size) / (chunk_size - overlap)); every chunk
    is non-empty and at most [chunk_size] long. *)
Theorem chunk_text_count (text : string) (chunk_size overlap : Z) :
  0 < len text -> 0 <= overlap -> overlap < chunk_size ->
  exists chunks : list string,
    (forall fuel, (List.length chunks <= fuel)%nat ->
       chunk_text fuel text chunk_size overlap = Some chunks) /\
    Z.of_nat (List.length chunks)
    = (if len text <=? chunk_size then 1
       else 1 + (len text - chunk_size + (chunk_size - overlap) - 1)
                / (chunk_size - overlap)) /\
    Forall (fun chunk => 0 < len chunk /\ len chunk <= chunk_size) chunks.
Proof.
  intros Hpos Hov Hlt.
  destruct (chunk_loop_run text chunk_size overlap Hov Hlt
              (String.length text) O [])
    as (K & _ & HK1 & HK2 & Hfull & Hrun).
  - unfold window_start. simpl. lia.
  - unfold window_start, len. simpl. lia.
  - exists (map (window text chunk_size overlap) (seq 0 (S K))).
    rewrite length_map, length_seq.
    split; [|split].
    + intros fuel Hfuel. unfold chunk_text.
      change 0 with (window_start chunk_size overlap O).
      rewrite Hrun by lia. now rewrite Nat.sub_0_r.
    + unfold window_start in *.
      destruct (Z.leb_spec (len text) chunk_size) as [Hfit|Hbig].
      * destruct K as [|K]; [reflexivity|].
        specialize (Hfull O ltac:(lia)). lia.
      * destruct K as [|K]; [lia|].
        specialize (Hfull K ltac:(lia)).
        replace (Z.of_nat (S (S K))) with (1 + Z.of_nat (S K)) by lia.
        f_equal. rewrite Nat2Z.inj_succ in *.
        apply Z.div_unique with
          (r := len text - chunk_size + (chunk_size - overlap) - 1
                - (chunk_size - overlap) * Z.succ (Z.of_nat K)); nia.
    + apply Forall_forall. intros chunk Hin.
      apply in_map_iff in Hin. destruct Hin as (k & <- & Hk).
      apply in_seq in Hk.
      pose proof (window_start_nonneg chunk_size overlap k Hlt) as Hk0.
      destruct (Nat.eq_dec k K) as [->|Hne].
      * rewrite window_last by assumption.
        unfold len in *. rewrite length_str_drop. lia.
      * specialize (Hfull k ltac:(lia)).
        rewrite window_full by lia.
        unfold len in *. rewrite length_str_take, length_str_drop. lia.
Qed.

End ChunkCoverage.

(** ** check_pattern_compliance: evidence and errors *)

Section PatternEvidence.

Context {rt : PyRuntime}.

Lemma same_letter_lower (a b : ascii) :
  same_letter a b = Ascii.eqb (lower_char a) (lower_char b).
Proof.
  assert (H : forallb (fun n => forallb (fun m =>
                Bool.eqb (same_letter (ascii_of_nat n) (ascii_of_nat m))
                  (Ascii.eqb (lower_char (ascii_of_nat n))
                     (lower_char (ascii_of_nat m))))
                (seq 0 256)) (seq 0 256) = true)
    by (vm_compute; reflexivity).
  pose proof (nat_ascii_bounded a) as Ha.
  pose proof (nat_ascii_bounded b) as Hb.
  rewrite forallb_forall in H.
  specialize (H (nat_of_ascii a) ltac:(apply in_seq; lia)).
  rewrite forallb_forall in H.
  specialize (H (nat_of_ascii b) ltac:(apply in_seq; lia)).
  rewrite !ascii_nat_embedding in H. now apply eqb_prop.
Qed.

Lemma same_text_lower (s t : string) :
  same_text s t = true <-> ascii_lower s = ascii_lower t.
Proof.
  unfold ascii_lower.
  revert t; induction s as [|a s IH]; intros [|b t]; cbn [same_text map_chars];
    try (split; [reflexivity | reflexivity]);
    try (split; discriminate).
  rewrite andb_true_iff, same_letter_lower, Ascii.eqb_eq, IH.
  split; [intros [-> ->]; reflexivity | intros [= -> ->]; split; reflexivity].
Qed.

Lemma length_map_chars (f : ascii -> ascii) (s : string) :
  String.length (map_chars f s) = String.length s.
Proof.
  induction s as [|c s IH]; simpl; congruence.
Qed.

Lemma map_chars_app (f : ascii -> ascii) (a b : string) :
  map_chars f (a ++ b) = map_chars f a ++ map_chars f b.
Proof.
  induction a as [|c a IH]; simpl; congruence.
Qed.

Lemma same_text_length (s t : string) :
  same_text s t = true -> String.length s = String.length t.
Proof.
  intros H. apply same_text_lower in H.
  apply (f_equal String.length) in H. unfold ascii_lower in H.
  now rewrite !length_map_chars in H.
Qed.

Lemma str_length_app (a b : string) :
  String.length (a ++ b) = (String.length a + String.length b)%nat.
Proof.
  induction a as [|c a IH]; simpl; congruence.
Qed.

Lemma app_assoc_str (a b c : string) : (a ++ b) ++ c = a ++ b ++ c.
Proof.
  induction a as [|x a IH]; simpl; congruence.
Qed.

Lemma str_take_app_length (a b : string) :
  str_take (String.length a) (a ++ b) = a.
Proof.
  induction a as [|c a IH]; simpl; [now destruct b | congruence].
Qed.

Lemma str_drop_app_length (a b : string) :
  str_drop (String.length a) (a ++ b) = b.
Proof.
  induction a as [|c a IH]; simpl; [now destruct b | assumption].
Qed.

Lemma map_chars_take (f : ascii -> ascii) (n : nat) (s : string) :
  map_chars f (str_take n s) = str_take n (map_chars f s).
Proof.
  revert s; induction n as [|n IH]; intros [|c s]; simpl; congruence.
Qed.

Lemma map_chars_drop (f : ascii -> ascii) (n : nat) (s : string) :
  map_chars f (str_drop n s) = str_drop n (map_chars f s).
Proof.
  revert s; induction n as [|n IH]; intros [|c s]; simpl; auto.
Qed.

(** An occurrence in the lower-cased text is a match up to case in the
    text, at the same offset. *)
Lemma occurs_at_lower (p content : string) (i : nat) :
  occurs_at (ascii_lower p) (ascii_lower content) i <-> matches_at p content i.
Proof.
  unfold occurs_at, matches_at. split.
  - intros (pre' & post' & Hc & Hlen).
    assert (Hl : String.length content
                 = (i + String.length p + String.length post')%nat).
    { apply (f_equal String.length) in Hc. unfold ascii_lower in Hc.
      rewrite !str_length_app, !length_map_chars in Hc. lia. }
    exists (str_take i content),
           (str_take (String.length p) (str_drop i content)),
           (str_drop (String.length p) (str_drop i content)).
    split; [now rewrite !str_take_drop|].
    split; [rewrite length_str_take; lia|].
    apply same_text_lower. unfold ascii_lower in *.
    rewrite map_chars_take, map_chars_drop, Hc, <- Hlen, str_drop_app_length.
    rewrite <- (length_map_chars lower_char p). apply str_take_app_length.
  - intros (pre & found & post & -> & Hlen & Hsame).
    apply same_text_lower in Hsame.
    exists (ascii_lower pre), (ascii_lower post). unfold ascii_lower in *.
    rewrite !map_chars_app, Hsame, length_map_chars. now split.
Qed.

(** The slice the code takes around a match is the matched text with up to
    100 characters on either side. *)
Lemma evidence_at_slice (content p : string) (i : nat) :
  matches_at p content i ->
  evidence_at content p
    ("Found '" ++ p ++ "' in context: ..."
       ++ py_slice content (Z.max 0 (Z.of_nat i - 100))
            (Z.min (len content) (Z.of_nat i + len p + 100))
       ++ "...") i.
Proof.
  intros (pre0 & found & post0 & Hc & Hlen & Hsame).
  pose proof (same_text_length _ _ Hsame) as Hfound.
  set (pre := str_take (i - 100) pre0).
  set (before := str_drop (i - 100) pre0).
  set (after := str_take 100 post0).
  set (post := str_drop 100 post0).
  assert (Hpre0 : pre0 = pre ++ before) by (symmetry; apply str_take_drop).
  assert (Hpost0 : post0 = after ++ post) by (symmetry; apply str_take_drop).
  assert (Lpre : String.length pre = (i - 100)%nat)
    by (unfold pre; rewrite length_str_take; lia).
  assert (Lbefore : String.length before = Nat.min i 100)
    by (unfold before; rewrite length_str_drop; lia).
  assert (Lafter : String.length after = Nat.min 100 (String.length post0))
    by (unfold after; apply length_str_take).
  assert (Hcontent : content = pre ++ (before ++ found ++ after) ++ post).
  { rewrite Hc, Hpre0 at 1. rewrite Hpost0 at 1.
    now rewrite !app_assoc_str. }
  assert (Lcontent : String.length content
                     = (i + String.length p + String.length post0)%nat)
    by (rewrite Hc, !str_length_app; lia).
  exists pre, before, found, after, post.
  split; [now rewrite Hcontent, !app_assoc_str|].
  split; [rewrite str_length_app; lia|].
  split; [assumption|].
  unfold len. split; [lia|]. split; [lia|].
  assert (Hslice : py_slice content (Z.max 0 (Z.of_nat i - 100))
                     (Z.min (Z.of_nat (String.length content))
                        (Z.of_nat i + Z.of_nat (String.length p) + 100))
                   = before ++ found ++ after).
  { rewrite py_slice_range by (unfold len; lia).
    replace (Z.to_nat (Z.max 0 (Z.of_nat i - 100))) with (String.length pre)
      by lia.
    replace (Z.to_nat _) with (String.length (before ++ found ++ after))
      by (rewrite !str_length_app; lia).
    rewrite Hcontent.
    now rewrite str_drop_app_length, str_take_app_length. }
  rewrite Hslice. now rewrite !app_assoc_str.
Qed.

Lemma Forall2_map_filter {A B : Type} (R : B -> A -> Prop) (g : A -> B)
    (f : A -> bool) (l : list A) :
  (forall a, In a l -> f a = true -> R (g a) a) ->
  Forall2 R (map g (filter f l)) (filter f l).
Proof.
  induction l as [|a l IH]; simpl; intros H; [constructor|].
  destruct (f a) eqn:E; simpl.
  - constructor; [apply H; auto | apply IH; intros; apply H; auto].
  - apply IH. intros. apply H; auto.
Qed.

(** X3: the matcher on ASCII text.  For a rule whose patterns are trigger
    phrases (or absent), a document and phrases that [str.lower] lower-cases
    as ASCII text, the matcher returns; it reports a hit exactly when some
    phrase is found in the document up to the case of letters; and its
    evidence has one line for each phrase that is found, in pattern order,
    quoting the phrase's first match: the matched text with the up to 100
    characters before it and the up to 100 after it. *)
Theorem check_pattern_compliance_ascii (content : string) (rule : pyval)
    (ps : list string) :
  rule_patterns rule = Some ps ->
  str_lower content = ascii_lower content ->
  (forall p, In p ps -> str_lower p = ascii_lower p) ->
  exists (hit : bool) (evidence : list string) (found : string -> bool),
    check_pattern_compliance content rule = Return (hit, evidence) /\
    (forall p, In p ps ->
       (found p = true <-> exists i, matches_at p content i)) /\
    (hit = true <-> exists p i, In p ps /\ matches_at p content i) /\
    (ps = [] -> hit = false /\ evidence = []) /\
    Forall2 (fun line p =>
               exists i,
                 matches_at p content i /\
                 (forall j, (j < i)%nat -> ~ matches_at p content j) /\
                 evidence_at content p line i)
      evidence (filter found ps).
Proof.
  intros Hps Hcontent Hpatterns.
  assert (Hfound : forall p, In p ps ->
            (pattern_matches content p = true
             <-> exists i, matches_at p content i)).
  { intros p Hin. unfold pattern_matches.
    rewrite Hcontent, (Hpatterns p Hin), str_contains_spec.
    split; intros [i H]; exists i; now apply occurs_at_lower. }
  exists (existsb (pattern_matches content) ps),
         (map (pattern_context content) (filter (pattern_matches content) ps)),
         (pattern_matches content).
  split; [exact (check_pattern_compliance_eq content rule ps Hps)|].
  split; [exact Hfound|]. split; [|split].
  - rewrite existsb_exists. split.
    + intros (p & Hin & H). destruct (proj1 (Hfound p Hin) H) as [i Hi]. eauto.
    + intros (p & i & Hin & Hi). exists p. split; [assumption|].
      apply Hfound; eauto.
  - now intros ->.
  - apply Forall2_map_filter. intros p Hin Hmatch.
    unfold pattern_matches in Hmatch.
    rewrite Hcontent, (Hpatterns p Hin) in Hmatch.
    destruct (str_find_first _ _ Hmatch) as (i & Hfind & Hat & Hmin).
    exists i. split; [now apply occurs_at_lower|]. split.
    + intros j Hj Hm. apply (Hmin j Hj). now apply occurs_at_lower.
    + unfold pattern_context, context_start, context_end.
      rewrite Hcontent, (Hpatterns p Hin), Hfind.
      apply evidence_at_slice. now apply occurs_at_lower.
Qed.

Lemma pattern_loop_bad_item (content : string) (ps : list string)
    (v : pyval) (rest : list pyval) :
  is_str v = false ->
  forall violations,
    pattern_loop content (map PyStr ps ++ v :: rest) violations
    = Raise (AttributeError (type_name v) "lower").
Proof.
  intros Hv. induction ps as [|p ps IH]; intros violations; simpl.
  - destruct v; try reflexivity. discriminate.
  - destruct (str_contains (str_lower p) (str_lower content)); apply IH.
Qed.

(** X4: the errors of the matcher.  An object that is no dict raises
    AttributeError on [get]; patterns that cannot be iterated raise
    TypeError; an item of the pattern list that is no string raises
    AttributeError on [lower], whatever matched before it. *)
Theorem check_pattern_compliance_errors (content : string) :
  (forall rule, (forall d, rule <> PyDict d) ->
     check_pattern_compliance content rule
     = Raise (AttributeError (type_name rule) "get")) /\
  (forall d patterns,
     dict_lookup "patterns" d = Some patterns ->
     (forall l, patterns <> PyList l) -> (forall s, patterns <> PyStr s) ->
     (forall d', patterns <> PyDict d') ->
     check_pattern_compliance content (PyDict d)
     = Raise (TypeError ("'" ++ type_name patterns
                           ++ "' object is not iterable"))) /\
  (forall d ps v rest,
     dict_lookup "patterns" d = Some (PyList (map PyStr ps ++ v :: rest)) ->
     is_str v = false ->
     check_pattern_compliance content (PyDict d)
     = Raise (AttributeError (type_name v) "lower")).
Proof.
  split; [|split].
  - intros rule Hrule. unfold check_pattern_compliance.
    destruct rule; try reflexivity. now destruct (Hrule d).
  - intros d patterns Hd Hl Hs Hd'. unfold check_pattern_compliance. simpl.
    rewrite Hd. simpl.
    destruct patterns; try reflexivity;
      [now destruct (Hs s) | now destruct (Hl l) | now destruct (Hd' d0)].
  - intros d ps v rest Hd Hv. unfold check_pattern_compliance. simpl.
    rewrite Hd. simpl. now rewrite pattern_loop_bad_item.
Qed.

Lemma pattern_loop_lower (c1 c2 : string) (patterns : list pyval) :
  str_lower c1 = str_lower c2 ->
  forall v1 v2, List.length v1 = List.length v2 ->
    match pattern_loop c1 patterns v1, pattern_loop c2 patterns v2 with
    | Return o1, Return o2 => List.length o1 = List.length o2
    | Raise e1, Raise e2 => e1 = e2
    | _, _ => False
    end.
Proof.
  intros Hlow. induction patterns as [|pattern rest IH]; intros v1 v2 Hlen; simpl.
  - assumption.
  - destruct pattern; try reflexivity.
    rewrite Hlow.
    destruct (str_contains (str_lower s) (str_lower c2)).
    + apply IH. rewrite !length_app. simpl. lia.
    + now apply IH.
Qed.

(** X5: the matcher sees the document through its lower-cased form only:
    two documents that agree when lower-cased get the same flag and the
    same number of evidence lines, or the same exception. *)
Theorem check_pattern_compliance_case_blind (c1 c2 : string) (rule : pyval) :
  str_lower c1 = str_lower c2 ->
  match check_pattern_compliance c1 rule, check_pattern_compliance c2 rule with
  | Return (hit1, evidence1), Return (hit2, evidence2) =>
      hit1 = hit2 /\ List.length evidence1 = List.length evidence2
  | Raise e1, Raise e2 => e1 = e2
  | _, _ => False
  end.
Proof.
  intros Hlow. unfold check_pattern_compliance.
  destruct (py_get rule "patterns" (PyList [])) as [patterns|]; [|reflexivity].
  simpl. destruct (py_iter patterns) as [items|]; [|reflexivity].
  simpl. pose proof (pattern_loop_lower c1 c2 items Hlow [] [] eq_refl) as H.
  destruct (pattern_loop c1 items []) as [o1|e1],
           (pattern_loop c2 items []) as [o2|e2]; simpl; try assumption.
  now rewrite H.
Qed.

End PatternEvidence.

(** ** llm_compliance_check: what the client is asked *)

Section Prompt.

Context {rt : PyRuntime}.

Lemma str_take_app_le (n : nat) (a b : string) :
  (n <= String.length a)%nat -> str_take n (a ++ b) = str_take n a.
Proof.
  revert a; induction n as [|n IH]; intros [|c a]; simpl; intros H; auto.
  - lia.
  - f_equal. apply IH. lia.
Qed.

Lemma py_slice_prefix (pre tail : string) (n : Z) :
  0 <= n -> n <= len pre ->
  py_slice (pre ++ tail) 0 n = py_slice pre 0 n.
Proof.
  intros Hn Hpre.
  assert (Hlen : len pre <= len (pre ++ tail)).
  { unfold len. clear. induction pre; simpl; lia. }
  rewrite !py_slice_range by lia. simpl.
  apply str_take_app_le. unfold len in *. lia.
Qed.

(** X6: the prompt, hence the LLM verdict, depends on the first 3000
    characters of the document only: whatever follows them is never sent. *)
Theorem llm_compliance_check_truncates (self : ComplianceEngine)
    (pre tail1 tail2 : string) (rule : pyval) (w : world) :
  3000 <= len pre ->
  build_prompt (pre ++ tail1) rule = build_prompt (pre ++ tail2) rule /\
  llm_compliance_check self (pre ++ tail1) rule w
  = llm_compliance_check self (pre ++ tail2) rule w.
Proof.
  intros Hpre.
  assert (Hp : build_prompt (pre ++ tail1) rule = build_prompt (pre ++ tail2) rule).
  { unfold build_prompt. now rewrite !(py_slice_prefix pre) by lia. }
  split; [assumption|].
  unfold llm_compliance_check. now rewrite Hp.
Qed.

(** X7: the errors of the adjudicator come from the rule alone.  For a
    dict rule it raises KeyError on [name] when that key is missing, else
    KeyError on [description] when that one is missing, whatever clients are
    set and without calling them; otherwise it returns. *)
Theorem llm_compliance_check_key_errors (self : ComplianceEngine)
    (content : string) (d : dict) (w : world) :
  (dict_lookup "name" d = None ->
   llm_compliance_check self content (PyDict d) w = (Raise (KeyError "name"), w)) /\
  (dict_lookup "name" d <> None -> dict_lookup "description" d = None ->
   llm_compliance_check self content (PyDict d) w
   = (Raise (KeyError "description"), w)) /\
  (dict_lookup "name" d <> None -> dict_lookup "description" d <> None ->
   exists v w', llm_compliance_check self content (PyDict d) w = (Return v, w')).
Proof.
  unfold llm_compliance_check, mbind, lift, build_prompt. simpl.
  split; [|split].
  - now intros ->.
  - intros Hn ->. now destruct (dict_lookup "name" d).
  - intros Hn Hd.
    destruct (dict_lookup "name" d); [|congruence].
    destruct (dict_lookup "description" d); [|congruence]. simpl.
    destruct (openai_client self); [unfold call_client; eauto|].
    destruct (anthropic_client self); [unfold call_client; eauto|].
    unfold ret. eauto.
Qed.

(** X8: a call goes to one client at most, and to OpenAI when both are
    set: the Anthropic client is then never used. *)
Theorem llm_compliance_check_one_client (self : ComplianceEngine)
    (content : string) (rule : pyval) (w : world) (client : llm_client) :
  openai_client self = Some client ->
  llm_compliance_check self content rule w
  = llm_compliance_check (mk_engine (Some client) None (rules self))
      content rule w /\
  (llm_calls (snd (llm_compliance_check self content rule w))
   <= S (llm_calls w))%nat.
Proof.
  intros Ho. unfold llm_compliance_check, mbind, lift. rewrite Ho. simpl.
  split; [reflexivity|].
  destruct (build_prompt content rule); simpl; lia.
Qed.

End Prompt.

(** ** analyze_document: one verdict per rule *)

Section Trace.

Context {rt : PyRuntime}.

Ltac step_bind H :=
  apply mbind_Return in H;
  let a := fresh "a" in
  let w := fresh "w" in
  let E := fresh "E" in
  destruct H as (a & w & E & H);
  try (apply lift_Return in E; destruct E as [E ->]).

Lemma llm_compliance_check_world (self : ComplianceEngine) (content : string)
    (rule v : pyval) (w w' : world) :
  llm_compliance_check self content rule w = (Return v, w') ->
  collection w' = collection w /\ clock_reads w' = clock_reads w /\
  llm_calls w'
  = (llm_calls w + if has_client self then 1 else 0)%nat.
Proof.
  intros H. destruct (build_prompt content rule) as [prompt|e] eqn:Hp.
  - rewrite (llm_compliance_check_eq self content rule prompt w Hp) in H.
    unfold has_client.
    destruct (selected_client self); injection H as _ <-; simpl;
      repeat split; lia.
  - unfold llm_compliance_check, mbind, lift in H. rewrite Hp in H. discriminate.
Qed.

Lemma analyze_rule_trace (self : ComplianceEngine) (doc_id content : string)
    (rule_type : string) (rule : pyval) (w w' : world) (v : verdict) :
  analyze_rule self doc_id content rule_type rule w = (Return v, w') ->
  verdict_of_rule doc_id content v (rule_type, rule) /\
  collection w' = collection w /\
  clock_reads w' = S (clock_reads w) /\
  llm_calls w' = (llm_calls w + if has_client self then 1 else 0)%nat.
Proof.
  unfold analyze_rule. intros H.
  step_bind H. step_bind H.
  destruct (llm_compliance_check_world _ _ _ _ _ _ E0) as (Hc & Hk & Hl).
  do 11 step_bind H.
  apply mbind_Return in H. destruct H as (now & w2 & Hnow & H).
  unfold read_clock in Hnow. injection Hnow as <- <-.
  unfold ret in H. injection H as <- <-.
  unfold verdict_of_rule. simpl.
  destruct a as [hit evidence]. simpl.
  repeat split; try assumption; lia.
Qed.

Lemma rules_loop_trace (self : ComplianceEngine) (doc_id content : string)
    (rule_type : string) (rule_list : list pyval) :
  forall results w vs w',
    rules_loop self doc_id content rule_type rule_list results w = (Return vs, w') ->
    exists new,
      vs = (results ++ new)%list /\
      Forall2 (verdict_of_rule doc_id content) new (map (pair rule_type) rule_list) /\
      collection w' = collection w /\
      clock_reads w' = (clock_reads w + List.length new)%nat /\
      llm_calls w'
      = (llm_calls w + if has_client self then List.length new else 0)%nat.
Proof.
  induction rule_list as [|rule rest IH]; intros results w vs w' H; simpl in H.
  - unfold ret in H. injection H as <- <-. exists [].
    rewrite app_nil_r. simpl. repeat split; auto; try lia.
    destruct (has_client self); lia.
  - apply mbind_Return in H. destruct H as (v & w1 & Hv & H).
    destruct (analyze_rule_trace _ _ _ _ _ _ _ _ Hv) as (Hrel & Hc & Hk & Hl).
    destruct (IH _ _ _ _ H) as (new & -> & Hnew & Hc' & Hk' & Hl').
    exists (v :: new). rewrite <- app_assoc. simpl.
    split; [reflexivity|]. split; [now constructor|].
    split; [congruence|]. split; [lia|].
    destruct (has_client self); lia.
Qed.

Lemma types_loop_trace (self : ComplianceEngine) (doc_id content : string)
    (rule_types : list string) :
  forall results w vs w',
    types_loop self doc_id content rule_types results w = (Return vs, w') ->
    exists new,
      vs = (results ++ new)%list /\
      Forall2 (verdict_of_rule doc_id content) new (planned_rules self rule_types) /\
      collection w' = collection w /\
      clock_reads w' = (clock_reads w + List.length new)%nat /\
      llm_calls w'
      = (llm_calls w + if has_client self then List.length new else 0)%nat.
Proof.
  induction rule_types as [|rule_type rest IH]; intros results w vs w' H;
    simpl in H.
  - unfold ret in H. injection H as <- <-. exists [].
    rewrite app_nil_r. simpl. repeat split; auto; try lia.
    destruct (has_client self); lia.
  - simpl. destruct (dict_lookup rule_type (rules self)) as [rule_set|].
    + apply mbind_Return in H. destruct H as (rule_list & w1 & Hl & H).
      apply lift_Return in Hl. destruct Hl as [Hl ->]. rewrite Hl.
      apply mbind_Return in H. destruct H as (results' & w2 & Hloop & H).
      destruct (rules_loop_trace _ _ _ _ _ _ _ _ _ Hloop)
        as (new1 & -> & Hn1 & Hc1 & Hk1 & Hl1).
      destruct (IH _ _ _ _ H) as (new2 & -> & Hn2 & Hc2 & Hk2 & Hl2).
      exists (new1 ++ new2)%list. rewrite <- app_assoc, length_app.
      split; [reflexivity|]. split; [now apply Forall2_app|].
      split; [congruence|]. split; [lia|].
      destruct (has_client self); lia.
    + destruct (IH _ _ _ _ H) as (new & -> & Hnew & Hc & Hk & Hl).
      exists new. simpl. repeat split; assumption.
Qed.

Lemma add_chunks_world (doc_id : string) (metadata : dict) (chunks : list string) :
  forall i w r w',
    add_chunks doc_id metadata i chunks w = (r, w') ->
    clock_reads w' = clock_reads w /\ llm_calls w' = llm_calls w.
Proof.
  induction chunks as [|chunk rest IH]; intros i w r w' H; simpl in H.
  - unfold ret in H. injection H as _ <-. auto.
  - unfold mbind in H.
    destruct (chroma_add (collection w) _) as [c|e].
    + destruct (IH _ _ _ _ H) as [Hk Hl]. simpl in *. auto.
    + injection H as _ <-. auto.
Qed.

(** X9: when [analyze_document] returns, its verdicts are the planned
    rules, one verdict per rule and in the order of the loops; each verdict
    carries the document id, the rule type, the rule's [id], [name] and
    [description], its [severity] or ["MEDIUM"] when the rule has none, and
    the result of the pattern matcher on that rule. *)
Theorem analyze_document_per_rule (self : ComplianceEngine)
    (doc_id content : string) (rule_types : option (list string))
    (w w' : world) (vs : list verdict) :
  analyze_document self doc_id content rule_types w = (Return vs, w') ->
  Forall2 (verdict_of_rule doc_id content) vs
    (planned_rules self
       (match rule_types with
        | None => map fst (rules self)
        | Some l => l
        end)).
Proof.
  unfold analyze_document. intros H.
  apply mbind_Return in H. destruct H as (u & w1 & _ & H).
  destruct (types_loop_trace _ _ _ _ _ _ _ _ H) as (new & -> & Hnew & _).
  exact Hnew.
Qed.

(** X10: a returning [analyze_document] reads the clock once per verdict,
    and calls the LLM client once per verdict when a client is set, never
    otherwise. *)
Theorem analyze_document_calls (self : ComplianceEngine)
    (doc_id content : string) (rule_types : option (list string))
    (w w' : world) (vs : list verdict) :
  analyze_document self doc_id content rule_types w = (Return vs, w') ->
  clock_reads w' = (clock_reads w + List.length vs)%nat /\
  llm_calls w'
  = (llm_calls w + if has_client self then List.length vs else 0)%nat.
Proof.
  unfold analyze_document. intros H.
  apply mbind_Return in H. destruct H as (u & w1 & Hadd & H).
  destruct (add_chunks_world _ _ _ _ _ _ _ Hadd) as [Hk Hl].
  destruct (types_loop_trace _ _ _ _ _ _ _ _ H) as (new & -> & _ & _ & Hk' & Hl').
  simpl. split; [lia|]. destruct (has_client self); lia.
Qed.

Lemma types_loop_known (self : ComplianceEngine) (doc_id content : string)
    (rule_types : list string) :
  forall results w,
    types_loop self doc_id content rule_types results w
    = types_loop self doc_id content (filter (known_type self) rule_types)
        results w.
Proof.
  induction rule_types as [|rule_type rest IH]; intros results w; simpl; auto.
  unfold known_type at 1.
  destruct (dict_lookup rule_type (rules self)) as [rule_set|] eqn:E; simpl.
  - rewrite E. unfold mbind.
    destruct (lift _ w) as [[rule_list|e] w1]; [|reflexivity].
    destruct (rules_loop _ _ _ _ _ _ w1) as [[results'|e] w2]; [|reflexivity].
    apply IH.
  - apply IH.
Qed.

(** X11: rule types the engine does not have are skipped without a
    trace: asking for them changes nothing, and asking for unknown rule
    types only gives no verdict at all (once the document is indexed). *)
Theorem analyze_document_skips_unknown (self : ComplianceEngine)
    (doc_id content : string) (rule_types : list string) (w : world) :
  analyze_document self doc_id content (Some rule_types) w
  = analyze_document self doc_id content
      (Some (filter (known_type self) rule_types)) w /\
  ((forall t, In t rule_types -> dict_lookup t (rules self) = None) ->
   forall w1,
     add_document_to_vector_db doc_id content [("doc_id", PyStr doc_id)] w
     = (Return tt, w1) ->
     analyze_document self doc_id content (Some rule_types) w = (Return [], w1)).
Proof.
  split.
  - unfold analyze_document, mbind.
    destruct (add_document_to_vector_db _ _ _ w) as [[u|e] w1]; [|reflexivity].
    apply types_loop_known.
  - intros Hnone w1 Hadd. unfold analyze_document, mbind. rewrite Hadd.
    rewrite types_loop_known.
    replace (filter (known_type self) rule_types) with (@nil string);
      [reflexivity|].
    symmetry. induction rule_types as [|t rest IH]; simpl; auto.
    unfold known_type at 1. rewrite (Hnone t (or_introl eq_refl)).
    apply IH. intros t' Ht'. apply Hnone. now right.
Qed.

Lemma chunk_text_default_nonempty (content : string) :
  0 < len content ->
  exists first rest, chunk_text_default content = first :: rest.
Proof.
  intros Hpos. unfold chunk_text_default.
  destruct (chunk_loop_run content 1000 200 ltac:(lia) ltac:(lia)
              (String.length content) O [])
    as (K & _ & HK & _ & _ & Hrun).
  - unfold window_start. simpl. lia.
  - unfold window_start, len. simpl. lia.
  - unfold chunk_text. change 0 with (window_start 1000 200 O).
    rewrite Hrun by (unfold window_start, len in HK; lia).
    simpl. eauto.
Qed.

(** X12: indexing comes first and is not guarded.  When the collection
    rejects the entries of a non-empty document, [analyze_document] raises
    that exception with no rule evaluated, no LLM call and no clock read;
    an empty document sends nothing to the collection and is analysed
    whatever the collection does. *)
Theorem analyze_document_indexing_first (self : ComplianceEngine)
    (doc_id content : string) (rule_types : option (list string))
    (w : world) (e : exn) :
  (0 < len content ->
   (forall entry, chroma_add (collection w) entry = Raise e) ->
   analyze_document self doc_id content rule_types w = (Raise e, w)) /\
  (len content = 0 ->
   analyze_document self doc_id content rule_types w
   = types_loop self doc_id content
       (match rule_types with
        | None => map fst (rules self)
        | Some l => l
        end) [] w).
Proof.
  split.
  - intros Hpos Hrej. unfold analyze_document, mbind, add_document_to_vector_db.
    destruct (chunk_text_default_nonempty content Hpos) as (first & rest & ->).
    simpl. unfold mbind. now rewrite Hrej.
  - intros Hlen. destruct content; [|unfold len in Hlen; simpl in Hlen; lia].
    reflexivity.
Qed.

Lemma add_chunks_entries (doc_id : string) (chunks : list string) :
  (forall c entry, chroma_add c entry = Return (c ++ [entry])%list) ->
  forall i w,
    add_chunks doc_id [("doc_id", PyStr doc_id)] i chunks w
    = (Return tt,
       mk_world (collection w ++ chunk_entries doc_id i chunks)
         (llm_calls w) (clock_reads w)).
Proof.
  intros Hadd. induction chunks as [|chunk rest IH]; intros i w; simpl.
  - rewrite app_nil_r. now destruct w.
  - unfold mbind. rewrite Hadd. rewrite IH. simpl.
    now rewrite <- app_assoc.
Qed.

Lemma str_of_nat_inj (n m : nat) : str_of_nat n = str_of_nat m -> n = m.
Proof.
  unfold str_of_nat. intros H.
  apply (f_equal NilEmpty.uint_of_string) in H.
  rewrite !NilEmpty.usu in H. injection H as H.
  apply (f_equal Nat.of_uint) in H. now rewrite !DecimalNat.Unsigned.of_to in H.
Qed.

Lemma append_cancel_l (a b c : string) : a ++ b = a ++ c -> b = c.
Proof.
  induction a as [|x a IH]; simpl; intros H; [assumption|].
  injection H as H. now apply IH.
Qed.

Lemma chunk_entries_ids (doc_id : string) (chunks : list string) :
  forall i entry,
    In entry (chunk_entries doc_id i chunks) ->
    exists j, (i <= j)%nat /\ entry_id entry = doc_id ++ "_chunk_" ++ str_of_nat j.
Proof.
  induction chunks as [|chunk rest IH]; intros i entry Hin; simpl in Hin.
  - contradiction.
  - destruct Hin as [<-|Hin].
    + exists i. simpl. auto.
    + destruct (IH _ _ Hin) as (j & Hj & Hid). exists j. split; [lia | assumption].
Qed.

(** X13: with a collection that takes every entry, indexing a document
    appends one entry per chunk, in order: the chunk as document, the
    metadata [doc_id] and [chunk_id], the id [<doc_id>_chunk_<i>]; these ids
    are pairwise distinct.  Nothing is replaced: what the collection held
    stays in front. *)
Theorem add_document_to_vector_db_entries (doc_id content : string) (w : world) :
  (forall c entry, chroma_add c entry = Return (c ++ [entry])%list) ->
  add_document_to_vector_db doc_id content [("doc_id", PyStr doc_id)] w
  = (Return tt,
     mk_world (collection w ++ chunk_entries doc_id O (chunk_text_default content))
       (llm_calls w) (clock_reads w)) /\
  map entry_document (chunk_entries doc_id O (chunk_text_default content))
  = chunk_text_default content /\
  NoDup (map entry_id (chunk_entries doc_id O (chunk_text_default content))).
Proof.
  intros Hadd. split; [|split].
  - unfold add_document_to_vector_db. now apply add_chunks_entries.
  - generalize O. induction (chunk_text_default content) as [|chunk rest IH];
      intros i; simpl; [reflexivity|]. now rewrite IH.
  - generalize O. induction (chunk_text_default content) as [|chunk rest IH];
      intros i; simpl; constructor.
    + intros Hin. apply in_map_iff in Hin. destruct Hin as (entry & Hid & Hin).
      destruct (chunk_entries_ids _ _ _ _ Hin) as (j & Hj & Hid').
      rewrite Hid' in Hid. apply append_cancel_l in Hid.
      simpl in Hid. injection Hid as Hid. apply str_of_nat_inj in Hid. lia.
    + apply IH.
Qed.

Lemma analyze_document_trace (self : ComplianceEngine)
    (doc_id content : string) (rule_types : option (list string))
    (w w' : world) (vs : list verdict) :
  analyze_document self doc_id content rule_types w = (Return vs, w') ->
  Forall2 (verdict_of_rule doc_id content) vs
    (planned_rules self
       (match rule_types with
        | None => map fst (rules self)
        | Some l => l
        end)) /\
  llm_calls w'
  = (llm_calls w + if has_client self then List.length vs else 0)%nat.
Proof.
  unfold analyze_document. intros H.
  apply mbind_Return in H. destruct H as (u & w1 & Hadd & H).
  destruct (add_chunks_world _ _ _ _ _ _ _ Hadd) as [Hk Hl].
  destruct (types_loop_trace _ _ _ _ _ _ _ _ H) as (new & -> & Hnew & _ & Hk' & Hl').
  simpl. split; [exact Hnew|]. destruct (has_client self); lia.
Qed.

End Trace.

(** ** analyze_document when the LLM is of no help *)

Section Degraded.

Context {rt : PyRuntime}.

Ltac next_bind H :=
  apply mbind_Return in H;
  let a := fresh "a" in
  let w := fresh "w" in
  let E := fresh "E" in
  destruct H as (a & w & E & H);
  try (apply lift_Return in E; destruct E as [E ->]).

Lemma analyze_rule_llm_verdict (self : ComplianceEngine) (doc_id content : string)
    (rule_type : string) (rule : pyval) (w w' : world) (v : verdict)
    (violation : bool) (confidence : Q) (explanation : string) :
  analyze_rule self doc_id content rule_type rule w = (Return v, w') ->
  fst (llm_compliance_check self content rule w)
  = Return (llm_verdict violation confidence explanation) ->
  degraded_verdict violation confidence explanation v.
Proof.
  unfold analyze_rule. intros H Hllm.
  next_bind H. next_bind H. rewrite E0 in Hllm. simpl in Hllm.
  injection Hllm as ->.
  do 11 next_bind H.
  apply mbind_Return in H. destruct H as (now & w2 & _ & H).
  unfold ret in H. injection H as <- _.
  simpl in *.
  injection E5 as <-. injection E6 as <-. injection E7 as <-.
  injection E8 as <-. injection E9 as <-. injection E10 as <-.
  unfold degraded_verdict. simpl.
  repeat split; try assumption.
  unfold py_or. simpl. now destruct (fst a).
Qed.

Lemma pattern_floor_alone (hit : bool) :
  py_max_float (pattern_floor hit) (PyFloat (FFin 0))
  = Return (PyFloat (pattern_floor hit)).
Proof. now destruct hit. Qed.

Lemma pattern_floor_half (hit : bool) :
  py_max_float (pattern_floor hit) (PyFloat (FFin 0.5))
  = Return (PyFloat (FFin (if hit then 0.8 else 0.5))).
Proof. now destruct hit. Qed.

Lemma analyze_rule_returns (self : ComplianceEngine) (doc_id content : string)
    (rule_type : string) (rule : pyval) (w w1 : world)
    (violation : bool) (confidence : Q) (explanation : string) :
  well_formed_rule rule ->
  llm_compliance_check self content rule w
  = (Return (llm_verdict violation confidence explanation), w1) ->
  exists v w', analyze_rule self doc_id content rule_type rule w = (Return v, w').
Proof.
  intros (d & id & name & description & ps & -> & Hid & Hn & Hd & Hps) Hllm.
  unfold analyze_rule, mbind, lift.
  rewrite (check_pattern_compliance_eq content _ ps Hps), Hllm.
  simpl. rewrite Hid, Hn, Hd. simpl. eexists _, _. reflexivity.
Qed.

Lemma well_formed_rule_prompt (content : string) (rule : pyval) :
  well_formed_rule rule -> exists prompt, build_prompt content rule = Return prompt.
Proof.
  intros (d & id & name & description & ps & -> & _ & Hn & Hd & _).
  exact (build_prompt_defined content d name description Hn Hd).
Qed.

(** The loops of [analyze_document] on well-formed rules: when the loop
    body returns a verdict related to its rule by [R], the loops return
    such verdicts for the planned rules, one for one. *)
Section Planned.

Variable self : ComplianceEngine.
Variables doc_id content : string.
Variable R : verdict -> string * pyval -> Prop.
Hypothesis body : forall rule_type rule w,
  well_formed_rule rule ->
  exists v w',
    analyze_rule self doc_id content rule_type rule w = (Return v, w') /\
    R v (rule_type, rule).

Lemma rules_loop_planned (rule_type : string) (rule_list : list pyval) :
  Forall well_formed_rule rule_list ->
  forall results w,
    exists new w',
      rules_loop self doc_id content rule_type rule_list results w
      = (Return (results ++ new)%list, w') /\
      Forall2 R new (map (pair rule_type) rule_list).
Proof.
  induction 1 as [|rule rest Hrule _ IH]; intros results w; simpl.
  - exists [], w. rewrite app_nil_r. split; [reflexivity | constructor].
  - destruct (body rule_type rule w Hrule) as (v & w1 & Hv & HR).
    unfold mbind. rewrite Hv.
    destruct (IH (results ++ [v])%list w1) as (new & w' & Hloop & Hnew).
    exists (v :: new), w'. rewrite Hloop, <- app_assoc.
    split; [reflexivity | now constructor].
Qed.

Lemma types_loop_planned (rule_types : list string) :
  well_formed_rules self rule_types ->
  forall results w,
    exists new w',
      types_loop self doc_id content rule_types results w
      = (Return (results ++ new)%list, w') /\
      Forall2 R new (planned_rules self rule_types).
Proof.
  induction rule_types as [|rule_type rest IH]; intros Hwf results w; simpl.
  - exists [], w. rewrite app_nil_r. split; [reflexivity | constructor].
  - assert (Hrest : well_formed_rules self rest)
      by (intros t rs Hin; apply Hwf; now right).
    destruct (dict_lookup rule_type (rules self)) as [rule_set|] eqn:El.
    + destruct (Hwf rule_type rule_set (or_introl eq_refl) El)
        as (rule_list & Hl & Hgood).
      unfold mbind at 1. unfold lift. rewrite Hl.
      destruct (rules_loop_planned rule_type rule_list Hgood results w)
        as (new1 & w1 & Hloop & Hn1).
      unfold mbind. rewrite Hloop.
      destruct (IH Hrest (results ++ new1)%list w1)
        as (new2 & w' & Hloop2 & Hn2).
      exists (new1 ++ new2)%list, w'. rewrite Hloop2, <- app_assoc.
      split; [reflexivity | now apply Forall2_app].
    + destruct (IH Hrest results w) as (new & w' & Hloop & Hnew).
      exists new, w'. now split.
Qed.

Lemma analyze_document_planned (rule_types : option (list string))
    (w w1 : world) :
  indexed doc_id content w w1 ->
  well_formed_rules self (requested_types self rule_types) ->
  exists vs w',
    analyze_document self doc_id content rule_types w = (Return vs, w') /\
    Forall2 R vs (planned_rules self (requested_types self rule_types)).
Proof.
  intros Hadd Hwf. unfold analyze_document, mbind. rewrite Hadd.
  destruct (types_loop_planned _ Hwf [] w1) as (new & w' & Hloop & Hnew).
  exists new, w'. split; [exact Hloop | exact Hnew].
Qed.

End Planned.

(** C9: with neither client set the adjudicator returns the verdict
    [violation = False], [confidence = 0.0], no evidence, explanation
    ["No LLM API configured"], for every rule whose prompt can be built.
    Then [analyze_document], on a document that the collection takes and
    rules that are well formed, returns one verdict for each planned rule,
    in order; each has this LLM part, and the verdict of a rule none of
    whose patterns occurs in the document has [pattern_violation = False],
    [llm_violation = False], [overall_violation = False] and
    [confidence_score = 0.0]. *)
Theorem no_llm_configured (self : ComplianceEngine) (doc_id content : string) :
  openai_client self = None -> anthropic_client self = None ->
  (forall rule prompt w,
     build_prompt content rule = Return prompt ->
     llm_compliance_check self content rule w
     = (Return (PyDict [("violation", PyBool false);
                        ("confidence", PyFloat (FFin 0));
                        ("evidence", PyList []);
                        ("explanation", PyStr "No LLM API configured")]), w)) /\
  (forall rule_types w w1,
     indexed doc_id content w w1 ->
     well_formed_rules self (requested_types self rule_types) ->
     exists vs w',
       analyze_document self doc_id content rule_types w = (Return vs, w') /\
       Forall2 (fun v tr =>
                  verdict_of_rule doc_id content v tr /\
                  no_llm_outcome v /\
                  (forall ps,
                     rule_patterns (snd tr) = Some ps ->
                     (forall p, In p ps -> ~ occurs_ci p content) ->
                     clean_verdict v))
         vs (planned_rules self (requested_types self rule_types))).
Proof.
  intros Ho Ha.
  pose proof (selected_client_none self Ho Ha) as Hsel.
  split.
  - intros rule prompt w Hp.
    now rewrite (llm_compliance_check_eq self content rule prompt w Hp), Hsel.
  - intros rule_types w w1. apply analyze_document_planned.
    intros rule_type rule w0 Hrule.
    destruct (well_formed_rule_prompt content rule Hrule) as [prompt Hp].
    assert (Hllm : llm_compliance_check self content rule w0
                   = (Return (llm_verdict false 0 "No LLM API configured"), w0))
      by now rewrite (llm_compliance_check_eq self content rule prompt w0 Hp), Hsel.
    destruct (analyze_rule_returns self doc_id content rule_type rule w0 w0
                false 0 _ Hrule Hllm) as (v & w' & Hv).
    exists v, w'. split; [exact Hv|].
    destruct (analyze_rule_trace _ _ _ _ _ _ _ _ Hv) as (Hrel & _).
    pose proof (analyze_rule_no_llm _ _ _ _ _ _ _ _ Hsel Hv) as Hno.
    split; [exact Hrel|]. split; [exact Hno|].
    intros ps Hps Hnone.
    destruct Hrel as (_ & _ & _ & _ & _ & _ & Hcheck). simpl in Hps, Hcheck.
    rewrite (check_pattern_compliance_eq content rule ps Hps) in Hcheck.
    destruct (no_pattern_matches content ps Hnone) as [Hex Hfil].
    rewrite Hex, Hfil in Hcheck. injection Hcheck as Hhit Hev.
    destruct Hno as (Hv1 & _ & _ & _ & Hmiss).
    destruct (Hmiss (eq_sym Hhit)) as [Hover Hscore].
    unfold clean_verdict. now rewrite <- Hhit, <- Hev.
Qed.

(** X23: an LLM client that raises on every call does not stop the
    analysis.  On a document that the collection takes and rules that are
    well formed, [analyze_document] returns one verdict for each planned
    rule; each has [llm_violation = False], [llm_confidence = 0.0] and the
    explanation ["LLM analysis failed: "] followed by the message of the
    exception the client raised on the prompt of that rule, and is decided
    by the patterns alone: [overall_violation] is the pattern flag and the
    score the pattern floor. *)
Theorem analyze_document_llm_down (self : ComplianceEngine)
    (doc_id content : string) (rule_types : option (list string))
    (client : llm_client) (w w1 : world) :
  selected_client self = Some client ->
  (forall n prompt, exists e, client n prompt = Raise e) ->
  indexed doc_id content w w1 ->
  well_formed_rules self (requested_types self rule_types) ->
  exists vs w',
    analyze_document self doc_id content rule_types w = (Return vs, w') /\
    Forall2 (fun v tr =>
               verdict_of_rule doc_id content v tr /\
               llm_violation v = PyBool false /\
               llm_confidence v = PyFloat (FFin 0) /\
               (exists n prompt e,
                  build_prompt content (snd tr) = Return prompt /\
                  client n prompt = Raise e /\
                  llm_explanation v
                  = PyStr ("LLM analysis failed: " ++ exn_str e)) /\
               overall_violation v = PyBool (pattern_violation v) /\
               confidence_score v
               = PyFloat (pattern_floor (pattern_violation v)))
      vs (planned_rules self (requested_types self rule_types)).
Proof.
  intros Hsel Hdown. apply analyze_document_planned.
  intros rule_type rule w0 Hrule.
  destruct (well_formed_rule_prompt content rule Hrule) as [prompt Hp].
  destruct (Hdown (llm_calls w0) prompt) as [e He].
  assert (Hllm : llm_compliance_check self content rule w0
                 = (Return (llm_verdict false 0
                              ("LLM analysis failed: " ++ exn_str e)),
                    mk_world (collection w0) (S (llm_calls w0)) (clock_reads w0)))
    by now rewrite (llm_compliance_check_eq self content rule prompt w0 Hp),
         Hsel, He.
  destruct (analyze_rule_returns self doc_id content rule_type rule w0 _
              false 0 _ Hrule Hllm) as (v & w' & Hv).
  exists v, w'. split; [exact Hv|].
  destruct (analyze_rule_trace _ _ _ _ _ _ _ _ Hv) as (Hrel & _).
  assert (Hfst : fst (llm_compliance_check self content rule w0)
                 = Return (llm_verdict false 0
                             ("LLM analysis failed: " ++ exn_str e)))
    by now rewrite Hllm.
  destruct (analyze_rule_llm_verdict _ _ _ _ _ _ _ _ _ _ _ Hv Hfst)
    as (Hvi & Hc & _ & Hx & Ho & Hs).
  split; [exact Hrel|]. split; [exact Hvi|]. split; [exact Hc|].
  split; [now exists (llm_calls w0), prompt, e|].
  split; [now rewrite Ho, orb_false_r|].
  rewrite pattern_floor_alone in Hs. now injection Hs as <-.
Qed.

(** X24: a client whose answers are never JSON flags everything.  On a
    document that the collection takes and rules that are well formed,
    [analyze_document] returns one verdict for each planned rule; each is a
    violation, its explanation is the answer the client gave to the prompt
    of that rule, as it is, its [llm_confidence] is 0.5 and its score 0.8
    where a pattern matched, 0.5 elsewhere. *)
Theorem analyze_document_fail_open (self : ComplianceEngine)
    (doc_id content : string) (rule_types : option (list string))
    (client : llm_client) (w w1 : world) :
  selected_client self = Some client ->
  (forall n prompt, exists reply msg,
     client n prompt = Return reply /\
     json_loads reply = Raise (JSONDecodeError msg)) ->
  indexed doc_id content w w1 ->
  well_formed_rules self (requested_types self rule_types) ->
  exists vs w',
    analyze_document self doc_id content rule_types w = (Return vs, w') /\
    Forall2 (fun v tr =>
               verdict_of_rule doc_id content v tr /\
               llm_violation v = PyBool true /\
               llm_confidence v = PyFloat (FFin 0.5) /\
               (exists n prompt reply,
                  build_prompt content (snd tr) = Return prompt /\
                  client n prompt = Return reply /\
                  llm_explanation v = PyStr reply) /\
               overall_violation v = PyBool true /\
               confidence_score v
               = PyFloat (FFin (if pattern_violation v then 0.8 else 0.5)))
      vs (planned_rules self (requested_types self rule_types)).
Proof.
  intros Hsel Hopen. apply analyze_document_planned.
  intros rule_type rule w0 Hrule.
  destruct (well_formed_rule_prompt content rule Hrule) as [prompt Hp].
  destruct (Hopen (llm_calls w0) prompt) as (reply & msg & Hr & Hj).
  assert (Hllm : llm_compliance_check self content rule w0
                 = (Return (llm_verdict true 0.5 reply),
                    mk_world (collection w0) (S (llm_calls w0)) (clock_reads w0))).
  { rewrite (llm_compliance_check_eq self content rule prompt w0 Hp), Hsel, Hr.
    unfold guarded, parse_response. simpl. now rewrite Hj. }
  destruct (analyze_rule_returns self doc_id content rule_type rule w0 _
              true 0.5 _ Hrule Hllm) as (v & w' & Hv).
  exists v, w'. split; [exact Hv|].
  destruct (analyze_rule_trace _ _ _ _ _ _ _ _ Hv) as (Hrel & _).
  assert (Hfst : fst (llm_compliance_check self content rule w0)
                 = Return (llm_verdict true 0.5 reply))
    by now rewrite Hllm.
  destruct (analyze_rule_llm_verdict _ _ _ _ _ _ _ _ _ _ _ Hv Hfst)
    as (Hvi & Hc & _ & Hx & Ho & Hs).
  split; [exact Hrel|]. split; [exact Hvi|]. split; [exact Hc|].
  split; [now exists (llm_calls w0), prompt, reply|].
  split; [now rewrite Ho, orb_true_r|].
  rewrite pattern_floor_half in Hs. now injection Hs as <-.
Qed.

End Degraded.

(** ** generate_compliance_report: bounds, and reports of analyses *)

Section ReportBounds.

Context {rt : PyRuntime}.

Lemma select_le {A : Type} (df : list A) :
  forall mask, (List.length (select df mask) <= List.length df)%nat.
Proof.
  induction df as [|row df IH]; intros [|b mask]; simpl; try lia.
  specialize (IH mask). destruct b; simpl; lia.
Qed.

Lemma select_mask_and_le {A : Type} (df : list A) :
  forall a b,
    (List.length (select df (mask_and a b)) <= List.length (select df a))%nat.
Proof.
  induction df as [|row df IH]; intros [|x a] [|y b]; simpl; try lia.
  specialize (IH a b). destruct x, y; simpl; lia.
Qed.

(** X14: in a returned report of [N > 0] verdicts the counts are ordered,
    [0 <= high_confidence_violations <= total_violations <= total_checks],
    the verdicts are handed back unchanged, and the score, a binary64 float,
    lies between 0 and 100: it is 0 exactly when everything is a violation,
    it is 100 when nothing is, and below [2 ^ 53] verdicts only then. *)
Theorem generate_compliance_report_bounds (results : list verdict) (rep : report) :
  results <> [] ->
  generate_compliance_report results = Return rep ->
  detailed_results rep = Some results /\
  exists (s : report_summary) (score : Q),
    summary rep = Some s /\ compliance_score s = FFin score /\
    0 <= high_confidence_violations s /\
    high_confidence_violations s <= total_violations s /\
    total_violations s <= total_checks s /\
    (0 <= score)%Q /\ (score <= 100)%Q /\
    (total_violations s = 0 -> (score == 100)%Q) /\
    (total_checks s <= 2 ^ 53 -> (score == 100)%Q -> total_violations s = 0) /\
    ((score == 0)%Q <-> total_violations s = total_checks s).
Proof.
  intros Hne H.
  assert (H' : analysis_report results = Return rep)
    by (destruct results; [congruence | exact H]).
  clear H. unfold analysis_report in H'.
  destruct (groupby_size _) as [by_type|]; [|discriminate].
  destruct (groupby_size _) as [by_severity|]; [|discriminate].
  destruct (column_gt _ _) as [confident|]; [|discriminate].
  injection H' as <-. cbv zeta. split; [reflexivity|].
  eexists _, _. split; [reflexivity|]. split; [reflexivity|].
  cbn [high_confidence_violations total_violations total_checks].
  pose proof (select_le results (violation_mask results)) as Hv.
  pose proof (select_mask_and_le results (violation_mask results) confident) as Hh.
  assert (Hpos : (0 < List.length results)%nat)
    by (destruct results; [congruence | simpl; lia]).
  unfold count.
  set (V := List.length (select results (violation_mask results))) in *.
  set (Hn := List.length (select results (mask_and (violation_mask results) confident))) in *.
  set (N := List.length results) in *.
  destruct (percentage_bounds (Z.of_nat N) (Z.of_nat V) (Z.of_nat N))
    as [Hs0 Hs100]; try lia.
  split; [lia|]. split; [lia|]. split; [lia|].
  split; [exact Hs0|]. split; [exact Hs100|]. split; [|split; [|split]].
  - intros HV. rewrite HV. apply percentage_all. lia.
  - intros HN Hscore. destruct (Z.eq_dec (Z.of_nat V) 0) as [|HV]; [assumption|].
    exfalso.
    assert (Hlt : (percentage (Z.of_nat N) (Z.of_nat V) (Z.of_nat N) < 100)%Q)
      by (apply percentage_below; lia).
    rewrite Hscore in Hlt. now apply Qlt_irrefl in Hlt.
  - intros Hscore. destruct (Z.eq_dec (Z.of_nat V) (Z.of_nat N)) as [|HV];
      [assumption|].
    exfalso.
    assert (Hlt : (0 < percentage (Z.of_nat N) (Z.of_nat V) (Z.of_nat N))%Q)
      by (apply percentage_positive; lia).
    rewrite Hscore in Hlt. now apply Qlt_irrefl in Hlt.
  - intros HV. rewrite HV. apply percentage_none. lia.
Qed.

Lemma column_gt_mask (df : list verdict) (f : pyfloat) (mask : verdict -> bool) :
  Forall (fun v => py_gt_float (confidence_score v) f = Return (mask v)) df ->
  column_gt (map confidence_score df) f = Return (map mask df).
Proof.
  induction 1 as [|v df Hv _ IH]; simpl; [reflexivity|].
  rewrite IH. unfold cell_gt.
  destruct (confidence_score v); try (now rewrite Hv). discriminate.
Qed.

Lemma mask_and_same (m : list bool) : mask_and m m = m.
Proof.
  induction m as [|b m IH]; simpl; [reflexivity|].
  rewrite IH. now destruct b.
Qed.

Lemma select_map_filter {A : Type} (f : A -> bool) (df : list A) :
  select df (map f df) = filter f df.
Proof.
  induction df as [|row df IH]; simpl; [reflexivity|].
  destruct (f row); now rewrite IH.
Qed.

(** Without a client a verdict is a violation exactly when a pattern
    matched, and then its score is 0.8. *)
Lemma no_llm_violation (v : verdict) :
  verdict_invariant v -> no_llm_outcome v ->
  is_violation v = pattern_violation v /\
  py_gt_float (confidence_score v) (FFin 0.7) = Return (pattern_violation v).
Proof.
  intros (Hor & _ & Hmax & _) (Hv & Hc & _ & _ & Hmiss).
  unfold is_violation. rewrite Hc in Hmax.
  destruct (pattern_violation v).
  - rewrite Hor, Hv. split; [reflexivity|].
    change (py_max_float (pattern_floor true) (PyFloat (FFin 0)))
      with (Return (PyFloat (FFin 0.8))) in Hmax.
    injection Hmax as <-. reflexivity.
  - destruct (Hmiss eq_refl) as [Ho Hs]. rewrite Ho, Hs. split; reflexivity.
Qed.

(** X15: analysis and report together, with no LLM client.  The report of
    the verdicts of [analyze_document] counts as violations the rules with a
    pattern hit, and every one of them as high-confidence (their score is
    0.8); with no hit at all the score is 100. *)
Theorem report_without_llm (self : ComplianceEngine) (doc_id content : string)
    (rule_types : option (list string)) (w w' : world) (vs : list verdict)
    (rep : report) :
  openai_client self = None -> anthropic_client self = None ->
  analyze_document self doc_id content rule_types w = (Return vs, w') ->
  generate_compliance_report vs = Return rep ->
  vs <> [] ->
  exists (s : report_summary),
    summary rep = Some s /\
    total_checks s = count vs /\
    total_violations s = count (filter pattern_violation vs) /\
    high_confidence_violations s = total_violations s /\
    (Forall (fun v => pattern_violation v = false) vs ->
     exists score, compliance_score s = FFin score /\ (score == 100)%Q).
Proof.
  intros Ho Ha Hrun Hrep Hne.
  pose proof (selected_client_none self Ho Ha) as Hsel.
  assert (Hall : Forall (fun v => is_violation v = pattern_violation v /\
                   py_gt_float (confidence_score v) (FFin 0.7)
                   = Return (pattern_violation v)) vs).
  { apply (analyze_document_Forall self doc_id content _) with (1 := fun _ _ _ _ _ H =>
      no_llm_violation _ (analyze_rule_invariant _ _ _ _ _ _ _ _ H)
        (analyze_rule_no_llm _ _ _ _ _ _ _ _ Hsel H)) (2 := Hrun). }
  assert (Hmask : violation_mask vs = map pattern_violation vs).
  { unfold violation_mask. clear - Hall.
    induction Hall as [|v vs [Hv _] _ IH]; simpl; [reflexivity|].
    fold (is_violation v). now rewrite Hv, IH. }
  assert (Hgt : column_gt (map confidence_score vs) (FFin 0.7)
                = Return (map pattern_violation vs)).
  { apply column_gt_mask. eapply Forall_impl; [|exact Hall]. now intros v [_ H]. }
  assert (H' : analysis_report vs = Return rep)
    by (destruct vs; [congruence | exact Hrep]).
  unfold analysis_report in H'. cbv zeta in H'.
  destruct (groupby_size _) as [by_type|]; [|discriminate].
  destruct (groupby_size _) as [by_severity|]; [|discriminate].
  unfold bind in H'. rewrite Hgt, Hmask in H'.
  rewrite mask_and_same, select_map_filter in H'.
  injection H' as <-.
  eexists. split; [reflexivity|]. cbn.
  split; [reflexivity|]. split; [reflexivity|]. split; [reflexivity|].
  intros Hnone.
  assert (Hf : filter pattern_violation vs = []).
  { clear - Hnone. induction Hnone as [|v vs Hv _ IH]; simpl; [reflexivity|].
    now rewrite Hv. }
  rewrite Hf. eexists. split; [reflexivity|].
  apply percentage_all.
  destruct vs as [|v vs]; [congruence | unfold count; simpl; lia].
Qed.

End ReportBounds.

(** ** load_all_rules: what gets loaded *)

Section RuleFiles.

Context {rt : PyRuntime}.

Lemma load_files_filter (listing : directory) :
  forall rules,
    load_files listing rules
    = load_files (filter (fun file => is_rule_file (fst file)) listing) rules.
Proof.
  induction listing as [|[filename entry] rest IH]; intros rules; simpl; auto.
  fold (is_rule_file filename).
  destruct (is_rule_file filename) eqn:E; simpl.
  - fold (is_rule_file filename). rewrite E.
    destruct (json_load decode_locale entry); simpl; auto.
  - apply IH.
Qed.

Lemma dict_lookup_set (key key' : string) (v : pyval) (d : dict) :
  dict_lookup key' (dict_set key v d)
  = if String.eqb key key' then Some v else dict_lookup key' d.
Proof.
  destruct (String.eqb_spec key key') as [<-|Hne].
  - apply dict_lookup_set_same.
  - now apply dict_lookup_set_other.
Qed.

Lemma load_files_sound (listing : directory) :
  forall rules loaded key v,
    load_files listing rules = Return loaded ->
    dict_lookup key loaded = Some v ->
    dict_lookup key rules = Some v \/
    exists filename entry,
      In (filename, entry) listing /\ is_rule_file filename = true /\
      key = rule_type_of filename /\ json_load decode_locale entry = Return v.
Proof.
  induction listing as [|[filename entry] rest IH]; intros rules loaded key v H Hk;
    simpl in H.
  - injection H as <-. now left.
  - fold (is_rule_file filename) in H.
    destruct (is_rule_file filename) eqn:Ef.
    + destruct (json_load decode_locale entry) as [decoded|] eqn:Ej; simpl in H;
        [|discriminate].
      destruct (IH _ _ _ _ H Hk) as [Hset | (f & n & Hin & Hf & Hkey & Hn)].
      * rewrite dict_lookup_set in Hset.
        destruct (String.eqb_spec (rule_type_of filename) key) as [<-|Hne].
        -- injection Hset as <-. right. exists filename, entry. simpl. auto.
        -- now left.
      * right. exists f, n. simpl. auto.
    + destruct (IH _ _ _ _ H Hk) as [Hset | (f & n & Hin & Hf & Hkey & Hn)].
      * now left.
      * right. exists f, n. simpl. auto.
Qed.

(** X16: only rule files count.  Entries whose name does not end in
    [_rules.json] are never opened and change nothing in the load, a
    directory without rule files gives the empty mapping, and every entry of
    the loaded mapping is the decoded content of a rule file, filed under
    that file's rule type. *)
Theorem load_all_rules_only_rule_files (listing : directory) :
  load_all_rules (Return listing)
  = load_all_rules
      (Return (filter (fun file => is_rule_file (fst file)) listing)) /\
  ((forall file, In file listing -> is_rule_file (fst file) = false) ->
   load_all_rules (Return listing) = Return []) /\
  (forall loaded key v,
     load_all_rules (Return listing) = Return loaded ->
     dict_lookup key loaded = Some v ->
     exists filename entry,
       In (filename, entry) listing /\ is_rule_file filename = true /\
       key = rule_type_of filename /\
       json_load decode_locale entry = Return v).
Proof.
  unfold load_all_rules. simpl. split; [|split].
  - apply load_files_filter.
  - intros Hnone. rewrite load_files_filter.
    replace (filter _ listing) with (@nil (string * node)); [reflexivity|].
    symmetry. induction listing as [|file rest IH]; simpl; auto.
    rewrite (Hnone file (or_introl eq_refl)).
    apply IH. intros f Hf. apply Hnone. now right.
  - intros loaded key v H Hk.
    destruct (load_files_sound listing [] loaded key v H Hk) as [Hnil|Hfile];
      [discriminate | exact Hfile].
Qed.

End RuleFiles.

(** ** The constructor *)

Section Constructor.

Context {rt : PyRuntime} {providers : Providers}.

Lemma client_for_no_key (make : string -> llm_client) (key : option string) :
  no_key key -> client_for make key = None.
Proof.
  intros [-> | ->]; reflexivity.
Qed.

Lemma client_for_key (make : string -> llm_client) (k : string) :
  k <> EmptyString -> client_for make (Some k) = Some (make k).
Proof.
  intros Hk. destruct k; [congruence | reflexivity].
Qed.

(** X17: the constructor returns an engine exactly when the rules load,
    with those rules.  A key that is unset or empty gives no client: with
    neither key the engine answers every adjudication with the verdict
    ["No LLM API configured"]; with an OpenAI key the OpenAI client is the
    one used, whatever the Anthropic key; the Anthropic client is used only
    when the OpenAI key is missing. *)
Theorem ComplianceEngine_init_clients (getenv : string -> option string)
    (listdir : result directory) :
  (forall e, load_all_rules listdir = Raise e ->
     ComplianceEngine_init getenv listdir = Raise e) /\
  (forall loaded, load_all_rules listdir = Return loaded ->
     exists self,
       ComplianceEngine_init getenv listdir = Return self /\
       rules self = loaded /\
       (no_key (getenv "OPENAI_API_KEY") -> no_key (getenv "ANTHROPIC_API_KEY") ->
        forall content rule prompt w,
          build_prompt content rule = Return prompt ->
          llm_compliance_check self content rule w = (Return no_llm_verdict, w)) /\
       (forall k, getenv "OPENAI_API_KEY" = Some k -> k <> EmptyString ->
          selected_client self = Some (openai_module k)) /\
       (forall k, no_key (getenv "OPENAI_API_KEY") ->
          getenv "ANTHROPIC_API_KEY" = Some k -> k <> EmptyString ->
          selected_client self = Some (Anthropic k))).
Proof.
  unfold ComplianceEngine_init, setup_llm_clients. split.
  - now intros e ->.
  - intros loaded ->. unfold bind. eexists. split; [reflexivity|].
    split; [reflexivity|]. split; [|split].
    + intros Ho Ha content rule prompt w Hp.
      rewrite (llm_compliance_check_eq _ content rule prompt w Hp).
      unfold selected_client. cbn [openai_client anthropic_client fst snd].
      now rewrite (client_for_no_key _ _ Ho), (client_for_no_key _ _ Ha).
    + intros k Hget Hk. unfold selected_client.
      cbn [openai_client anthropic_client fst snd].
      now rewrite Hget, (client_for_key _ k Hk).
    + intros k Ho Hget Hk. unfold selected_client.
      cbn [openai_client anthropic_client fst snd].
      now rewrite (client_for_no_key _ _ Ho), Hget, (client_for_key _ k Hk).
Qed.

End Constructor.

(** ** The loader of the package [app/rules] *)

Section PackageLoader.

Context {rt : PyRuntime}.
Variable rule_file_path : string -> string.

Lemma lookup_entry_in (listing : directory) (f : string) (entry : node) :
  NoDup (map fst listing) -> In (f, entry) listing ->
  lookup_entry f listing = Some entry.
Proof.
  induction listing as [|[f' n'] rest IH]; simpl; intros Hnd Hin; [contradiction|].
  inversion Hnd as [|? ? Hnotin Hnd']; subst.
  destruct Hin as [[= -> ->]|Hin].
  - now rewrite String.eqb_refl.
  - destruct (String.eqb_spec f' f) as [->|Hne]; [|now apply IH].
    exfalso. apply Hnotin. apply in_map_iff. now exists (f, entry).
Qed.


Lemma load_types_agrees (listing : directory) :
  NoDup (map fst listing) ->
  forall files : directory,
    (forall f n, In (f, n) files -> In (f, n) listing) ->
    (forall f n, In (f, n) files -> is_rule_file f = true ->
       str_lower (rule_type_of f) ++ "_rules.json" = f) ->
    (forall f bytes, In (f, File bytes) files -> is_rule_file f = true ->
       decode_utf8 bytes = decode_locale bytes) ->
    forall rules loaded,
      load_files files rules = Return loaded ->
      load_types rule_file_path listing
        (map (fun f => str_upper (str_remove "_rules.json" f))
           (filter (endswith "_rules.json") (map fst files))) rules
      = Return loaded.
Proof.
  intros Hnd files.
  induction files as [|[f n] rest IH]; intros Hsub Hnorm Hdec rules loaded H;
    simpl in *.
  - assumption.
  - assert (Hsub' : forall f0 n0, In (f0, n0) rest -> In (f0, n0) listing)
      by (intros; apply Hsub; now right).
    assert (Hnorm' : forall f0 n0, In (f0, n0) rest -> is_rule_file f0 = true ->
               str_lower (rule_type_of f0) ++ "_rules.json" = f0)
      by (intros f0 n0 Hin; apply (Hnorm f0 n0); now right).
    assert (Hdec' : forall f0 bytes, In (f0, File bytes) rest ->
               is_rule_file f0 = true -> decode_utf8 bytes = decode_locale bytes)
      by (intros f0 bytes Hin; apply (Hdec f0 bytes); now right).
    fold (is_rule_file f) in *.
    destruct (is_rule_file f) eqn:Ef; [|now apply IH].
    simpl. unfold load_rule_file, path_exists_in. fold (rule_type_of f).
    rewrite (Hnorm f n (or_introl eq_refl) Ef).
    rewrite (lookup_entry_in listing f n Hnd (Hsub f n (or_introl eq_refl))).
    destruct n as [bytes|path_exists e]; simpl in H; [|discriminate].
    simpl. rewrite (Hdec f bytes (or_introl eq_refl) Ef).
    destruct (bind (decode_locale bytes) json_loads) as [v|e]; simpl in H;
      [|discriminate].
    now apply IH.
Qed.

(** X18: on a directory whose entries have distinct names, whose rule
    files have names that the round trip through the rule type gives back
    (lower-cased type + [_rules.json] is the file name) and bytes that read
    the same in UTF-8 as in the encoding of the locale, the loader of the
    package returns what the loader of the engine returns. *)
Theorem rules_load_all_rules_agrees (listing : directory) (loaded : dict) :
  NoDup (map fst listing) ->
  (forall f n, In (f, n) listing -> is_rule_file f = true ->
     str_lower (rule_type_of f) ++ "_rules.json" = f) ->
  (forall f bytes, In (f, File bytes) listing -> is_rule_file f = true ->
     decode_utf8 bytes = decode_locale bytes) ->
  load_all_rules (Return listing) = Return loaded ->
  rules_load_all_rules rule_file_path (Return listing) = Return loaded.
Proof.
  intros Hnd Hnorm Hdec H.
  unfold rules_load_all_rules, get_available_rule_types. simpl.
  now apply (load_types_agrees listing Hnd listing).
Qed.






End PackageLoader.

(** ** [app/main.py]: extraction and the analysis endpoint *)

Section Endpoints.

Context {rt : PyRuntime} {db : Database} {readers : Readers}.

Lemma after_last_no_sep (sep : ascii) (s tail : string) :
  after_last sep s = Some tail -> after_last sep tail = None.
Proof.
  revert tail; induction s as [|c s IH]; intros tail; simpl; [discriminate|].
  destruct (after_last sep s) as [t|] eqn:E.
  - intros [= <-]. now apply IH.
  - destruct (Ascii.eqb c sep); [|discriminate]. now intros [= <-].
Qed.

Lemma after_last_split (sep : ascii) (s tail : string) :
  after_last sep s = Some tail ->
  exists pre, s = pre ++ String sep tail.
Proof.
  revert tail; induction s as [|c s IH]; intros tail; simpl; [discriminate|].
  destruct (after_last sep s) as [t|] eqn:E.
  - intros [= <-]. destruct (IH t eq_refl) as [pre ->].
    now exists (String c pre).
  - destruct (Ascii.eqb_spec c sep) as [->|]; [|discriminate].
    intros [= <-]. now exists EmptyString.
Qed.

Lemma after_last_none (sep : ascii) (s : string) :
  after_last sep s = None ->
  str_contains (String sep EmptyString) s = false.
Proof.
  induction s as [|c s IH]; simpl; [reflexivity|].
  destruct (after_last sep s) as [t|]; [discriminate|].
  rewrite (Ascii.eqb_sym sep c).
  destruct (Ascii.eqb c sep); [discriminate|]. intros _. simpl.
  apply IH. reflexivity.
Qed.

(** X20: the extension of a file name is what follows its last dot, in
    lower case (the whole name when it has no dot), and holds no dot.  A
    name whose extension is not [pdf], [docx] or [txt] is refused with
    status 400 and the detail ["Error extracting text: Unsupported file
    format: <extension>"] without any file being read; every failure of a
    reader comes out as status 400 with its message; a [txt] file gives its
    text as read. *)
Theorem extract_text_from_file_spec (file_path filename : string) :
  let ext := file_extension filename in
  str_contains "." ext = false /\
  (ext = str_lower filename \/
   exists pre, str_lower filename = pre ++ "." ++ ext) /\
  (ext <> "pdf" -> ext <> "docx" -> ext <> "txt" ->
   extract_text_from_file file_path filename
   = HTTPException 400
       ("Error extracting text: Unsupported file format: " ++ ext)) /\
  (forall status detail,
     extract_text_from_file file_path filename = HTTPException status detail ->
     status = 400) /\
  (ext = "txt" ->
   extract_text_from_file file_path filename
   = match read_text file_path with
     | Return text => Response text
     | Raise e => HTTPException 400 ("Error extracting text: " ++ exn_str e)
     end).
Proof.
  cbv zeta. split; [|split; [|split; [|split]]].
  - unfold file_extension, last_segment.
    destruct (after_last "." (str_lower filename)) as [tail|] eqn:E.
    + apply after_last_none. now apply after_last_no_sep in E.
    + now apply after_last_none.
  - unfold file_extension, last_segment.
    destruct (after_last "." (str_lower filename)) as [tail|] eqn:E.
    + right. now apply after_last_split.
    + now left.
  - intros Hpdf Hdocx Htxt. unfold extract_text_from_file.
    destruct (String.eqb_spec (file_extension filename) "pdf"); [congruence|].
    destruct (String.eqb_spec (file_extension filename) "docx"); [congruence|].
    destruct (String.eqb_spec (file_extension filename) "txt"); [congruence|].
    reflexivity.
  - intros status detail. unfold extract_text_from_file.
    destruct (if String.eqb (file_extension filename) "pdf" then _ else _);
      [discriminate|]. now intros [= <- _].
  - intros Htxt. unfold extract_text_from_file. rewrite Htxt. reflexivity.
Qed.

(** X21: the analysis endpoint, read from its answer.  Rows are only
    appended, and every appended row carries the requested document id.
    An answer that is not an error names an existing document, and then the
    appended rows are the rows of the verdicts of the planned rules, one per
    rule and in order, the report is the one of these verdicts, and the LLM
    was called once per row when a client is set.  An error is either 404
    ["Document not found"], for an unknown document and with nothing
    touched, or 500 with a detail that starts with ["Analysis failed: "]. *)
Theorem analyze_compliance_spec (self : ComplianceEngine) (document_id : Z)
    (rule_types : option (list string)) (w w' : world)
    (stored stored' : list compliance_result)
    (answer : http_response analysis_response) :
  analyze_compliance self document_id rule_types w stored
  = (answer, w', stored') ->
  exists added : list compliance_result,
    stored' = (stored ++ added)%list /\
    Forall (fun row => row_document_id row = document_id) added /\
    (forall a, answer = Response a ->
       exists document results,
         first_document document_id = Some document /\
         response_document_id a = document_id /\
         response_document_name a = doc_filename document /\
         added = map (result_row document_id) results /\
         Forall2 (verdict_of_rule (str_of_Z document_id) (doc_content document))
           results
           (planned_rules self
              (match rule_types with
               | None => map fst (rules self)
               | Some l => l
               end)) /\
         generate_compliance_report results = Return (analysis_results a) /\
         llm_calls w'
         = (llm_calls w
            + if has_client self then List.length added else 0)%nat) /\
    (forall code detail, answer = HTTPException code detail ->
       (code = 404 /\ detail = "Document not found" /\
        first_document document_id = None /\ w' = w /\ added = []) \/
       (code = 500 /\ first_document document_id <> None /\
        exists e, detail = "Analysis failed: " ++ exn_str e)).
Proof.
  unfold analyze_compliance.
  destruct (first_document document_id) as [document|] eqn:Hdoc.
  - destruct (analyze_document self (str_of_Z document_id) (doc_content document)
                rule_types w) as [[results|e] w1] eqn:Hrun.
    + cbv zeta.
      assert (Hrows : Forall (fun row => row_document_id row = document_id)
                        (map (result_row document_id) results))
        by (apply Forall_forall; intros row Hin; apply in_map_iff in Hin;
            destruct Hin as (v & <- & _); reflexivity).
      destruct (commit_error (map (result_row document_id) results))
        as [e|] eqn:Hcommit.
      * intros [= <- <- <-]. exists []. rewrite app_nil_r.
        split; [reflexivity|]. split; [constructor|].
        split; [discriminate|].
        intros code detail [= <- <-]. right.
        split; [reflexivity|]. split; [discriminate|]. now exists e.
      * destruct (generate_compliance_report results) as [rep|e] eqn:Hrep.
        -- intros [= <- <- <-]. exists (map (result_row document_id) results).
           split; [reflexivity|]. split; [exact Hrows|].
           split; [|discriminate].
           intros a [= <-]. exists document, results.
           destruct (analyze_document_trace _ _ _ _ _ _ _ Hrun) as [Hplan Hcalls].
           rewrite length_map. simpl. now repeat split.
        -- intros [= <- <- <-]. exists (map (result_row document_id) results).
           split; [reflexivity|]. split; [exact Hrows|].
           split; [discriminate|].
           intros code detail [= <- <-]. right.
           split; [reflexivity|]. split; [discriminate|]. now exists e.
    + intros [= <- <- <-]. exists []. rewrite app_nil_r.
      split; [reflexivity|]. split; [constructor|]. split; [discriminate|].
      intros code detail [= <- <-]. right.
      split; [reflexivity|]. split; [discriminate|]. now exists e.
  - intros [= <- <- <-]. exists []. rewrite app_nil_r.
    split; [reflexivity|]. split; [constructor|]. split; [discriminate|].
    intros code detail [= <- <-]. left. now repeat split.
Qed.

End Endpoints.

(** ** format_file_size *)

Section FileSize.

Local Open Scope Q_scope.

Lemma round64_negative (q : Q) : q < 0 -> round64 q < 0.
Proof.
  intros Hq. unfold round64.
  assert (H : Qcompare (Qred q) 0 = Lt)
    by (rewrite (Qred_correct q); now apply Qlt_alt).
  rewrite H.
  assert (Hpos : 0 < - Qred q) by (rewrite (Qred_correct q); lra).
  pose proof (round64_pos_pos _ Hpos). lra.
Qed.

(** An int and the float nearest to it compare alike with 1024. *)
Lemma float_of_int_ge (n : Z) (x : Q) :
  float_of_int n = Return x -> (1024 <= x <-> (1024 <= n)%Z).
Proof.
  unfold float_of_int. destruct (Qle_bool _ _); [discriminate|].
  intros [= <-]. split.
  - intros H. destruct (Z.le_gt_cases 1024 n) as [|Hlt]; [assumption|].
    exfalso. destruct (Z.lt_trichotomy n 0) as [Hneg|[->|Hpos]].
    + assert (Hq : inject_Z n < 0)
        by (change 0 with (inject_Z 0); rewrite <- Zlt_Qlt; lia).
      pose proof (round64_negative _ Hq). lra.
    + vm_compute in H. now apply H.
    + assert (He : round64 (inject_Z n) == inject_Z n).
      { apply (round64_exact n 0); [|change (2 ^ 0) with 1; ring].
        change (2 ^ 53)%Z with 9007199254740992%Z. lia. }
      rewrite He in H. change 1024 with (inject_Z 1024) in H.
      rewrite <- Zle_Qle in H. lia.
  - intros H.
    assert (Hq : 1024 <= inject_Z n)
      by (change 1024 with (inject_Z 1024); rewrite <- Zle_Qle; lia).
    apply (round64_mono 1024) in Hq; [|discriminate].
    eapply Qle_trans; [|exact Hq]. now vm_compute.
Qed.

Lemma pow2_shift (n k : Z) (x : Q) :
  (0 < n < 2 ^ 53)%Z -> x == inject_Z n * 2 ^ k ->
  round64 (x / 1024) == inject_Z n * 2 ^ (k - 10).
Proof.
  intros Hn Hx.
  assert (He : x / 1024 == inject_Z n * 2 ^ (k - 10)).
  { rewrite Hx. unfold Zminus. rewrite pow2_add.
    change (2 ^ (- (10))) with (1 # 1024). unfold Qdiv.
    change (/ 1024) with (1 # 1024). ring. }
  transitivity (x / 1024); [|exact He].
  apply (round64_exact n (k - 10)); [lia | exact He].
Qed.

(** The loop on a size of at most 53 bits: every division is exact, and
    the loop stops at the first number below 1024 or at the last unit. *)
Lemma size_loop_exact (n : Z) :
  (0 < n < 2 ^ 53)%Z ->
  forall (left : nat) (x : Q) (i : nat),
    x == inject_Z n * 2 ^ (- 10 * Z.of_nat i) ->
    exists (shown : Q) (j : nat),
      size_loop left x i = (shown, j) /\
      shown == inject_Z n * 2 ^ (- 10 * Z.of_nat j) /\
      (i <= j <= i + left)%nat /\
      ((j < i + left)%nat -> shown < 1024) /\
      ((i < j)%nat -> 1 <= shown).
Proof.
  intros Hn. induction left as [|left IH]; intros x i Hx; simpl.
  - exists x, i. split; [reflexivity|]. split; [assumption|].
    split; [lia|]. split; intros; lia.
  - destruct (Qle_bool 1024 x) eqn:E.
    + apply Qle_bool_iff in E.
      assert (Hx' : round64 (x / 1024)
                    == inject_Z n * 2 ^ (- 10 * Z.of_nat (S i))).
      { rewrite (pow2_shift n (- 10 * Z.of_nat i) x Hn Hx).
        now replace (- 10 * Z.of_nat i - 10)%Z with (- 10 * Z.of_nat (S i))%Z
          by lia. }
      destruct (IH _ (S i) Hx') as (shown & j & Hloop & Hshown & Hj & Hlt & Hge).
      exists shown, j. split; [exact Hloop|]. split; [exact Hshown|].
      split; [lia|]. split; [intros; apply Hlt; lia|].
      intros _. destruct (Nat.eq_dec j (S i)) as [->|Hne]; [|apply Hge; lia].
      rewrite Hshown, <- Hx', (pow2_shift n _ x Hn Hx).
      assert (He : x / 1024 == inject_Z n * 2 ^ (- 10 * Z.of_nat i - 10)).
      { rewrite Hx. unfold Zminus. rewrite pow2_add.
        change (2 ^ (- (10))) with (1 # 1024). unfold Qdiv.
        change (/ 1024) with (1 # 1024). ring. }
      rewrite <- He. apply Qle_shift_div_l; [reflexivity|]. lra.
    + exists x, i. split; [reflexivity|]. split; [assumption|].
      split; [lia|]. split; [|intros; lia].
      intros _. apply Qnot_le_lt. intros H. apply Qle_bool_iff in H. congruence.
Qed.

Local Close Scope Q_scope.

(** X22: the file size shown.  Size 0 is shown as ["0B"].  For a size
    below [2 ^ 53] bytes the unit is the first of B, KB, MB, GB in which the
    number is below 1024, GB at the latest; the number is the size divided
    by [1024 ^ i] for the unit of index [i], exactly, and what is shown is
    this number rounded to tenths: the digits shown are within 0.05 of it,
    so that they read at most 1024.0 (not always below 1024) unless the
    unit is GB, and at least 1.0 unless the unit is B. *)
Theorem format_file_size_unit (size : Z) :
  format_file_size 0 = Return "0B" /\
  (0 < size < 2 ^ 53 ->
   exists (number : Q) (i : nat) (unit : string) (tenths : Z),
     format_file_size size
     = Return (str_of_Z (tenths / 10) ++ "." ++ str_of_Z (tenths mod 10)
                 ++ " " ++ unit) /\
     nth_error ["B"; "KB"; "MB"; "GB"] i = Some unit /\
     (number * inject_Z (1024 ^ Z.of_nat i) == inject_Z size)%Q /\
     ((i < 3)%nat -> (number < 1024)%Q) /\
     ((0 < i)%nat -> (1 <= number)%Q) /\
     (Qabs (inject_Z tenths / 10 - number) <= 1 # 20)%Q /\
     ((i < 3)%nat -> tenths <= 10240) /\
     ((0 < i)%nat -> 10 <= tenths)).
Proof.
  split; [reflexivity|]. intros Hsize.
  assert (Hx : (round64 (inject_Z size) == inject_Z size)%Q).
  { apply (round64_exact size 0); [lia|]. change (2 ^ 0)%Q with 1%Q. ring. }
  assert (Hpos : (0 < inject_Z size)%Q)
    by (change 0%Q with (inject_Z 0); rewrite <- Zlt_Qlt; lia).
  unfold format_file_size, float_of_int.
  destruct (Z.eqb_spec size 0) as [|_]; [lia|].
  assert (Hfit : Qle_bool (2 ^ 1024) (Qabs (round64 (inject_Z size))) = false).
  { destruct (Qle_bool _ _) eqn:E; [|reflexivity]. exfalso.
    apply Qle_bool_iff in E. rewrite Hx, Qabs_pos in E by lra.
    assert (Hlt : (inject_Z size < inject_Z (2 ^ 53))%Q)
      by (rewrite <- Zlt_Qlt; lia).
    assert (Hpow : (inject_Z (2 ^ 53) <= 2 ^ 1024)%Q).
    { rewrite <- pow2_Z by lia. apply pow2_le. lia. }
    lra. }
  rewrite Hfit. cbn [bind].
  destruct (size_loop_exact size Hsize (List.length size_names - 1)
              (round64 (inject_Z size)) O)
    as (number & i & Hloop & Hnumber & Hi & Hlt & Hge).
  { rewrite Hx. change (2 ^ (- 10 * Z.of_nat 0))%Q with 1%Q. ring. }
  rewrite Hloop. change (List.length size_names - 1)%nat with 3%nat in *.
  assert (Hn0 : (0 < number)%Q).
  { rewrite Hnumber. apply Qmult_lt_0_compat; [assumption | apply pow2_pos]. }
  unfold format_1f.
  assert (Hsign : Qle_bool 0 number = true) by (apply Qle_bool_iff; lra).
  rewrite Hsign.
  rewrite (round_half_even_compat (Qabs number * 10) (number * 10))
    by (rewrite Qabs_pos; [reflexivity | lra]).
  set (tenths := round_half_even (number * 10)).
  pose proof (round_half_even_near (number * 10)) as [Hn1 Hn2].
  fold tenths in Hn1, Hn2.
  assert (Hunit : exists unit, nth_error ["B"; "KB"; "MB"; "GB"] i = Some unit /\
                               nth i size_names EmptyString = unit).
  { destruct i as [|[|[|[|i]]]]; try (eexists; split; reflexivity). lia. }
  destruct Hunit as (unit & Hunit & Hnth).
  exists number, i, unit, tenths. rewrite Hnth.
  split; [f_equal; cbn [append]; now rewrite app_assoc_str|].
  split; [exact Hunit|].
  split.
  { rewrite Hnumber, <- Qmult_assoc.
    rewrite <- (pow2_Z_1024 (Z.of_nat i)) by lia.
    rewrite <- pow2_add.
    replace (- 10 * Z.of_nat i + 10 * Z.of_nat i) with 0 by lia.
    change (2 ^ 0)%Q with 1%Q. ring. }
  split; [intros H; apply Hlt; lia|].
  split; [intros H; apply Hge; lia|].
  split.
  { assert (H : (inject_Z tenths / 10 == inject_Z tenths * (1 # 10))%Q)
      by (unfold Qdiv; reflexivity).
    rewrite H. apply Qabs_Qle_condition. split; lra. }
  split.
  - intros H. assert (Hb : (number < 1024)%Q) by (apply Hlt; lia).
    assert (Hm : (number * 10 <= inject_Z 10240)%Q)
      by (change (inject_Z 10240) with 10240%Q; lra).
    apply round_half_even_mono in Hm.
    now rewrite (round_half_even_Z (inject_Z 10240) 10240) in Hm by reflexivity.
  - intros H. assert (Hb : (1 <= number)%Q) by (apply Hge; lia).
    assert (Hm : (inject_Z 10 <= number * 10)%Q)
      by (change (inject_Z 10) with 10%Q; lra).
    apply round_half_even_mono in Hm.
    now rewrite (round_half_even_Z (inject_Z 10) 10) in Hm by reflexivity.
Qed.

End FileSize.

(** * The engine on examples *)

Section Examples.

Import Example.
#[local] Existing Instance rt0.

(** Scenario A of the specification. *)
Example scenario_a :
  check_pattern_compliance ssn_document ssn_rule
  = Return (true, ["Found 'ssn' in context: ...We store the SSN in plaintext...."]).
Proof. reflexivity. Qed.

Example scenario_a_verdict :
  fst (analyze_document engine_without_llm "7" ssn_document None world0)
  = Return [mk_verdict "7" "HIPAA" (PyStr "R1") (PyStr "Identifiers")
              (PyStr "Social security numbers kept in plaintext") (PyStr "HIGH")
              true ["Found 'ssn' in context: ...We store the SSN in plaintext...."]
              (PyBool false) (PyFloat (FFin 0)) (PyList [])
              (PyStr "No LLM API configured")
              (PyBool true) (PyFloat (FFin 0.8)) 0].
Proof. reflexivity. Qed.

(** A rule without [name] makes the adjudicator raise before it looks at
    the clients: the prompt is built outside the [try]. *)
Example llm_compliance_check_needs_name :
  fst (llm_compliance_check engine_without_llm ssn_document
         (PyDict [("id", PyStr "R2")]) world0)
  = Raise (KeyError "name").
Proof. reflexivity. Qed.

(** chunk_text *)

Example chunk_text_ten :
  chunk_text 3 "abcdefghij" 4 1 = Some ["abcd"; "defg"; "ghij"].
Proof. reflexivity. Qed.

(** C7 fails on the code: [overlap = chunk_size] is accepted, and the call
    returns the text as its single window. *)
Lemma chunk_text_accepts_degenerate :
  1 >= 1 /\ chunk_text 1 "a" 1 1 = Some ["a"].
Proof. split; [lia | reflexivity]. Qed.

Lemma chunk_text_degenerate_witness :
  1 >= 1 /\ 0 < len "ab" /\ 1 < len "ab" /\
  forall fuel, chunk_text fuel "ab" 1 1 = None.
Proof.
  split; [lia|]. split; [reflexivity|]. split; [reflexivity|].
  exact (proj2 (proj2 (chunk_text_degenerate "ab" 1 1 ltac:(lia)))
           eq_refl eq_refl).
Defined.

Lemma chunk_text_windows_witness :
  0 < len "abcdefghij" /\ 0 <= 1 /\ 1 < 4 /\
  exists K : nat,
    (forall fuel, (K < fuel)%nat ->
       chunk_text fuel "abcdefghij" 4 1
       = Some (map (window "abcdefghij" 4 1) (seq 0 (S K)))) /\
    window_end "abcdefghij" 4 1 K = len "abcdefghij" /\
    (forall k : nat, (k < K)%nat ->
       exists a s b : string,
         window "abcdefghij" 4 1 k = a ++ s /\
         window "abcdefghij" 4 1 (S k) = s ++ b /\
         len s = 1).
Proof.
  split; [reflexivity|]. split; [lia|]. split; [lia|].
  destruct (chunk_text_windows "abcdefghij" 4 1) as (K & Hrun & _ & (_ & Hend & _) & Hshare);
    [reflexivity | lia | lia |].
  exists K. split; [exact Hrun|]. split; [exact Hend|].
  intros k Hk. exact (proj2 (proj2 (Hshare k Hk))).
Defined.

(** check_pattern_compliance *)

(** C3 fails on the code where [str.lower] changes the length of the
    document: the offset of the match is found in [content.lower()] and
    used to cut [content].  After 104 characters U+0130, each of which
    lower-cases to two characters, the phrase [ssn] of the document is
    found at offset 208 of the lower-cased text, beyond the end of the
    document, so the context quoted as evidence is empty: it holds neither
    the match, which is at offset 104, nor any text around it. *)
Lemma check_pattern_compliance_context_off :
  @check_pattern_compliance unicode_runtime dotted_document ssn_rule
  = Return (true, ["Found 'ssn' in context: ......"]) /\
  matches_at "ssn" dotted_document 104 /\
  forall i, ~ evidence_at dotted_document "ssn" "Found 'ssn' in context: ......" i.
Proof.
  split; [vm_compute; reflexivity|]. split.
  - exists (repeat_char dotted_I 104), "ssn", EmptyString.
    split; [reflexivity|]. split; reflexivity.
  - intros i (pre & before & found & after & post & _ & _ & Hsame & _ & _ & Hline).
    apply same_text_length in Hsame.
    apply (f_equal String.length) in Hline.
    rewrite !str_length_app in Hline. simpl in Hline, Hsame. lia.
Qed.

(** llm_compliance_check *)

(** C2 fails on the code: the answer [42] is JSON, so [json.loads]
    accepts it and the adjudicator returns the int 42, which is no verdict;
    [analyze_document] then raises on it. *)
Lemma llm_compliance_check_returns_non_verdict :
  json_loads "42" = Return (PyInt 42) /\
  fst (llm_compliance_check (engine_answering (Return "42")) ssn_document
         ssn_rule world0)
  = Return (PyInt 42) /\
  well_formed_verdict (PyInt 42) = false /\
  fst (analyze_document (engine_answering (Return "42")) "7" ssn_document
         None world0)
  = Raise (AttributeError "int" "get").
Proof. repeat split; reflexivity. Qed.


(** C5 fails on the code: the answer [[]] is JSON, so [json.loads]
    accepts it, but it is no structured verdict; it is returned decoded, not
    replaced by the fail-open verdict, and [analyze_document] then raises on
    it. *)
Lemma llm_compliance_check_json_not_fail_open :
  json_loads "[]" = Return (PyList []) /\
  fst (llm_compliance_check (engine_answering (Return "[]")) ssn_document
         ssn_rule world0)
  = Return (PyList []) /\
  PyList [] <> PyDict [("violation", PyBool true);
                       ("confidence", PyFloat (FFin 0.5));
                       ("evidence", PyList []);
                       ("explanation", PyStr "[]")] /\
  fst (analyze_document (engine_answering (Return "[]")) "7" ssn_document
         None world0)
  = Raise (AttributeError "list" "get").
Proof.
  split; [reflexivity|]. split; [reflexivity|].
  split; [discriminate | reflexivity].
Qed.

(** analyze_document *)

Lemma analyze_document_invariants_witness :
  exists (vs : list verdict) (w' : world),
    analyze_document (engine_answering (Return "I think so")) "7" ssn_document
      None world0
    = (Return vs, w') /\
    List.length vs = 1%nat /\
    Forall verdict_invariant vs.
Proof.
  eexists _, _. split; [vm_compute; reflexivity|]. split; [reflexivity|].
  eapply (analyze_document_invariants
            (engine_answering (Return "I think so")) "7" ssn_document None world0).
  vm_compute. reflexivity.
Defined.

(** The engines of the examples have one rule set, with one well-formed
    rule. *)
Lemma hipaa_well_formed (openai anthropic : option llm_client)
    (rule_types : option (list string)) :
  well_formed_rules (mk_engine openai anthropic [("HIPAA", hipaa_value)])
    (requested_types (mk_engine openai anthropic [("HIPAA", hipaa_value)])
       rule_types).
Proof.
  intros rule_type rule_set _ Hlook.
  change (dict_lookup rule_type [("HIPAA", hipaa_value)] = Some rule_set)
    in Hlook.
  cbn [dict_lookup] in Hlook.
  destruct (String.eqb "HIPAA" rule_type); [|discriminate].
  injection Hlook as <-. exists [ssn_rule]. split; [reflexivity|].
  constructor; [|constructor].
  exists ssn_fields, (PyStr "R1"), (PyStr "Identifiers"),
         (PyStr "Social security numbers kept in plaintext"), ["ssn"].
  repeat split; reflexivity.
Defined.

Lemma no_llm_configured_witness :
  openai_client engine_without_llm = None /\
  anthropic_client engine_without_llm = None /\
  (exists w1, indexed "7" clean_document world0 w1) /\
  well_formed_rules engine_without_llm
    (requested_types engine_without_llm None) /\
  rule_patterns ssn_rule = Some ["ssn"] /\
  (forall p, In p ["ssn"] -> ~ occurs_ci p clean_document) /\
  exists (v : verdict) (w' : world),
    analyze_document engine_without_llm "7" clean_document None world0
    = (Return [v], w') /\
    verdict_of_rule "7" clean_document v ("HIPAA", ssn_rule) /\
    no_llm_outcome v /\
    clean_verdict v.
Proof.
  assert (Hnone : forall p, In p ["ssn"] -> ~ occurs_ci p clean_document).
  { intros p [<-|[]] Hocc. apply str_contains_spec in Hocc. discriminate. }
  assert (Hindex : exists w1, indexed "7" clean_document world0 w1)
    by (eexists; vm_compute; reflexivity).
  split; [reflexivity|]. split; [reflexivity|]. split; [exact Hindex|].
  split; [exact (hipaa_well_formed None None None)|].
  split; [reflexivity|]. split; [exact Hnone|].
  destruct Hindex as [w1 Hindex].
  destruct (proj2 (no_llm_configured engine_without_llm "7" clean_document
                     eq_refl eq_refl)
              None world0 w1 Hindex (hipaa_well_formed None None None))
    as (vs & w' & Hrun & Hall).
  change (planned_rules engine_without_llm
            (requested_types engine_without_llm None))
    with [("HIPAA", ssn_rule)] in Hall.
  inversion Hall as [|v tr vs' trs (Hrel & Hno & Hclean) Hrest]; subst.
  inversion Hrest; subst.
  exists v, w'. split; [exact Hrun|]. split; [exact Hrel|].
  split; [exact Hno|]. exact (Hclean ["ssn"] eq_refl Hnone).
Defined.

(** generate_compliance_report *)

(** C4 fails on the code: for three verdicts, two of them violations, the
    score is the float 33.33333333333333 (2345624805922133 / 2 ^ 46), which
    is neither the number 100 * (3 - 2) / 3 nor the float nearest to it,
    33.333333333333336. *)
Lemma generate_compliance_report_score_rounds :
  exists (rep : report) (s : report_summary) (score : Q),
    generate_compliance_report three_results = Return rep /\
    summary rep = Some s /\
    total_checks s = 3 /\
    total_violations s = 2 /\
    compliance_score s = FFin score /\
    (score == 2345624805922133 # 70368744177664)%Q /\
    ~ (score == 100 * inject_Z (3 - 2) / inject_Z 3)%Q /\
    ~ (score == round64 (100 * inject_Z (3 - 2) / inject_Z 3))%Q.
Proof.
  eexists _, _, _. split; [reflexivity|]. split; [reflexivity|].
  split; [reflexivity|]. split; [reflexivity|]. split; [reflexivity|].
  split; [now vm_compute|]. split; intros H; vm_compute in H; discriminate.
Qed.

Lemma generate_compliance_report_spec_witness :
  three_results <> [] /\
  exists (rep : report) (s : report_summary) (score : Q),
    generate_compliance_report three_results = Return rep /\
    summary rep = Some s /\
    total_checks s = 3 /\
    total_violations s = 2 /\
    compliance_score s = FFin score /\
    score = round64 (round64 (inject_Z (3 - 2) / inject_Z 3) * 100)%Q /\
    (Qabs (score - 100 * inject_Z (3 - 2) / inject_Z 3)
     <= 100 * inject_Z (3 - 2) / inject_Z 3 * (3 # 2 ^ 53))%Q.
Proof.
  split; [discriminate|].
  assert (E : exists rep, generate_compliance_report three_results = Return rep)
    by (eexists; reflexivity).
  destruct E as [rep E].
  destruct (proj2 generate_compliance_report_spec three_results rep
              ltac:(discriminate) E)
    as (_ & _ & s & score & Hs & Hn & Hv & Hc & Hq & Herr & _).
  exists rep, s, score.
  split; [exact E|]. split; [exact Hs|]. split; [exact Hn|].
  split; [exact Hv|]. split; [exact Hc|]. split; [exact Hq | exact Herr].
Defined.

(** load_all_rules *)

(** C6 fails on the code: the file whose rule has no [id] is loaded like
    the other one; the missing field shows when the rule is analysed. *)
Lemma load_all_rules_accepts_rule_without_id :
  load_all_rules (Return rules_directory)
  = Return [("GDPR", gdpr_value); ("HIPAA", hipaa_value)] /\
  fst (analyze_document
         (mk_engine None None [("GDPR", gdpr_value); ("HIPAA", hipaa_value)])
         "7" ssn_document None world0)
  = Raise (KeyError "id").
Proof. split; reflexivity. Qed.

Lemma load_all_rules_spec_witness :
  rule_files_load decode_locale rules_directory /\
  (exists loaded,
     load_all_rules (Return rules_directory) = Return loaded /\
     dict_lookup "GDPR" loaded = Some gdpr_value) /\
  rule_files_load decode_locale [("gdpr_rules.json", File gdpr_text)] /\
  is_rule_file "sox_rules.json" = true /\
  json_load decode_locale (Unopenable true is_a_directory) = Raise is_a_directory /\
  load_all_rules (Return blocked_directory) = Raise is_a_directory.
Proof.
  assert (Hall : rule_files_load decode_locale rules_directory).
  { intros filename entry [[= <- <-]|[[= <- <-]|[[= <- <-]|[]]]] Hf;
      [eexists; reflexivity | discriminate | eexists; reflexivity]. }
  assert (Hfirst : rule_files_load decode_locale
                     [("gdpr_rules.json", File gdpr_text)]).
  { intros filename entry [[= <- <-]|[]] Hf. eexists; reflexivity. }
  split; [exact Hall|]. split.
  { destruct (proj1 (load_all_rules_spec rules_directory) Hall)
      as (loaded & Hload & Hstored).
    exists loaded. split; [exact Hload|].
    refine (Hstored [] "gdpr_rules.json" (File gdpr_text) _ gdpr_value
              eq_refl eq_refl eq_refl _).
    intros f n [[= <- <-]|[[= <- <-]|[]]] Hf; [discriminate|].
    intros H. discriminate. }
  split; [exact Hfirst|]. split; [reflexivity|]. split; [reflexivity|].
  exact (proj1 (proj2 (load_all_rules_spec blocked_directory))
           [("gdpr_rules.json", File gdpr_text)] "sox_rules.json"
           (Unopenable true is_a_directory)
           [("hipaa_rules.json", File hipaa_text)] is_a_directory
           eq_refl Hfirst eq_refl eq_refl).
Defined.

End Examples.

(** * Further examples *)

Section MoreExamples.

Import Example.
#[local] Existing Instance rt0.
#[local] Existing Instance providers0.
#[local] Existing Instance db0.
#[local] Existing Instance readers0.

Lemma chunk_text_rebuilds_witness :
  0 < len "abcdefghij" /\ 0 <= 1 /\ 1 < 4 /\
  exists (first : string) (rest : list string),
    (forall fuel, (List.length rest < fuel)%nat ->
       chunk_text fuel "abcdefghij" 4 1 = Some (first :: rest)) /\
    first ++ join (map (str_drop (Z.to_nat 1)) rest) = "abcdefghij".
Proof.
  split; [reflexivity|]. split; [lia|]. split; [lia|].
  exact (chunk_text_rebuilds "abcdefghij" 4 1 eq_refl ltac:(lia) ltac:(lia)).
Defined.

Lemma chunk_text_count_witness :
  0 < len "abcdefghij" /\ 0 <= 1 /\ 1 < 4 /\
  exists chunks : list string,
    (forall fuel, (List.length chunks <= fuel)%nat ->
       chunk_text fuel "abcdefghij" 4 1 = Some chunks) /\
    Z.of_nat (List.length chunks) = 3 /\
    Forall (fun chunk => 0 < len chunk /\ len chunk <= 4) chunks.
Proof.
  split; [reflexivity|]. split; [lia|]. split; [lia|].
  exact (chunk_text_count "abcdefghij" 4 1 eq_refl ltac:(lia) ltac:(lia)).
Defined.

Lemma check_pattern_compliance_ascii_witness :
  rule_patterns ssn_rule = Some ["ssn"] /\
  str_lower ssn_document = ascii_lower ssn_document /\
  (forall p, In p ["ssn"] -> str_lower p = ascii_lower p) /\
  matches_at "ssn" ssn_document 13 /\
  exists (hit : bool) (evidence : list string) (found : string -> bool),
    check_pattern_compliance ssn_document ssn_rule = Return (hit, evidence) /\
    (forall p, In p ["ssn"] ->
       (found p = true <-> exists i, matches_at p ssn_document i)) /\
    (hit = true <-> exists p i, In p ["ssn"] /\ matches_at p ssn_document i) /\
    (["ssn"] = [] -> hit = false /\ evidence = []) /\
    Forall2 (fun line p =>
               exists i,
                 matches_at p ssn_document i /\
                 (forall j, (j < i)%nat -> ~ matches_at p ssn_document j) /\
                 evidence_at ssn_document p line i)
      evidence (filter found ["ssn"]).
Proof.
  assert (Hdoc : str_lower ssn_document = ascii_lower ssn_document)
    by reflexivity.
  assert (Hps : forall p, In p ["ssn"] -> str_lower p = ascii_lower p)
    by (intros p [<-|[]]; reflexivity).
  split; [reflexivity|]. split; [exact Hdoc|]. split; [exact Hps|].
  split.
  { exists "We store the ", "SSN", " in plaintext.".
    split; [reflexivity|]. split; reflexivity. }
  exact (check_pattern_compliance_ascii ssn_document ssn_rule ["ssn"]
           eq_refl Hdoc Hps).
Defined.

Lemma check_pattern_compliance_errors_witness :
  dict_lookup "patterns" [("patterns", PyList [PyStr "ssn"; PyInt 7])]
  = Some (PyList (map PyStr ["ssn"] ++ PyInt 7 :: [])) /\
  is_str (PyInt 7) = false /\
  check_pattern_compliance ssn_document
    (PyDict [("patterns", PyList [PyStr "ssn"; PyInt 7])])
  = Raise (AttributeError "int" "lower").
Proof.
  split; [reflexivity|]. split; [reflexivity|].
  exact (proj2 (proj2 (check_pattern_compliance_errors ssn_document))
           [("patterns", PyList [PyStr "ssn"; PyInt 7])] ["ssn"] (PyInt 7) []
           eq_refl eq_refl).
Defined.

Lemma check_pattern_compliance_case_blind_witness :
  str_lower "Our SSN list" = str_lower "our ssn LIST" /\
  match check_pattern_compliance "Our SSN list" ssn_rule,
        check_pattern_compliance "our ssn LIST" ssn_rule with
  | Return (hit1, evidence1), Return (hit2, evidence2) =>
      hit1 = hit2 /\ List.length evidence1 = List.length evidence2
  | Raise e1, Raise e2 => e1 = e2
  | _, _ => False
  end.
Proof.
  split; [reflexivity|].
  exact (check_pattern_compliance_case_blind "Our SSN list" "our ssn LIST"
           ssn_rule eq_refl).
Defined.

Lemma llm_compliance_check_truncates_witness :
  3000 <= len long_document /\
  llm_compliance_check (engine_answering (Return "42"))
    (long_document ++ " and the SSN") ssn_rule world0
  = llm_compliance_check (engine_answering (Return "42"))
      (long_document ++ " and nothing") ssn_rule world0.
Proof.
  assert (H : 3000 <= len long_document)
    by (apply Z.leb_le; vm_compute; reflexivity).
  split; [exact H|].
  exact (proj2 (llm_compliance_check_truncates (engine_answering (Return "42"))
                  long_document " and the SSN" " and nothing" ssn_rule world0 H)).
Defined.

Lemma llm_compliance_check_key_errors_witness :
  dict_lookup "name" [("id", PyStr "R2")] = None /\
  llm_compliance_check (engine_answering (Return "42")) ssn_document
    (PyDict [("id", PyStr "R2")]) world0
  = (Raise (KeyError "name"), world0).
Proof.
  split; [reflexivity|].
  exact (proj1 (llm_compliance_check_key_errors (engine_answering (Return "42"))
                  ssn_document [("id", PyStr "R2")] world0) eq_refl).
Defined.

Lemma llm_compliance_check_one_client_witness :
  openai_client engine_with_both = Some (fun _ _ => Return "42") /\
  llm_compliance_check engine_with_both ssn_document ssn_rule world0
  = llm_compliance_check
      (mk_engine (Some (fun _ _ => Return "42")) None (rules engine_with_both))
      ssn_document ssn_rule world0.
Proof.
  split; [reflexivity|].
  exact (proj1 (llm_compliance_check_one_client engine_with_both ssn_document
                  ssn_rule world0 (fun _ _ => Return "42") eq_refl)).
Defined.

Lemma analyze_document_per_rule_witness :
  exists (vs : list verdict) (w' : world),
    analyze_document engine_without_llm "7" ssn_document None world0
    = (Return vs, w') /\
    Forall2 (verdict_of_rule "7" ssn_document) vs
      (planned_rules engine_without_llm (map fst (rules engine_without_llm))).
Proof.
  eexists _, _. split; [vm_compute; reflexivity|].
  eapply (analyze_document_per_rule engine_without_llm "7" ssn_document None world0).
  vm_compute. reflexivity.
Defined.

Lemma analyze_document_calls_witness :
  exists (vs : list verdict) (w' : world),
    analyze_document (engine_answering (Return "I think so")) "7" clean_document
      (Some ["HIPAA"; "HIPAA"]) world0
    = (Return vs, w') /\
    clock_reads w' = (clock_reads world0 + List.length vs)%nat /\
    llm_calls w'
    = (llm_calls world0
       + if has_client (engine_answering (Return "I think so"))
         then List.length vs else 0)%nat.
Proof.
  assert (E : exists vs w',
             analyze_document (engine_answering (Return "I think so")) "7"
               clean_document (Some ["HIPAA"; "HIPAA"]) world0 = (Return vs, w'))
    by (eexists _, _; vm_compute; reflexivity).
  destruct E as (vs & w' & E). exists vs, w'. split; [exact E|].
  exact (analyze_document_calls _ _ _ _ _ _ _ E).
Defined.

Lemma analyze_document_llm_down_witness :
  selected_client (engine_answering (Raise connection_error))
  = Some (fun _ _ => Raise connection_error) /\
  (forall (n : nat) (prompt : string),
     exists e, (fun _ _ => Raise connection_error) n prompt
               = (Raise e : result string)) /\
  (exists w1, indexed "7" ssn_document world0 w1) /\
  well_formed_rules (engine_answering (Raise connection_error))
    (requested_types (engine_answering (Raise connection_error))
       (Some ["HIPAA"])) /\
  exists (v : verdict) (w' : world),
    analyze_document (engine_answering (Raise connection_error)) "7"
      ssn_document (Some ["HIPAA"]) world0
    = (Return [v], w') /\
    llm_violation v = PyBool false /\
    llm_explanation v = PyStr "LLM analysis failed: Connection error." /\
    overall_violation v = PyBool (pattern_violation v) /\
    confidence_score v = PyFloat (pattern_floor (pattern_violation v)).
Proof.
  assert (Hdown : forall (n : nat) (prompt : string),
             exists e, (fun _ _ => Raise connection_error) n prompt
                       = (Raise e : result string))
    by (intros n prompt; eexists; reflexivity).
  assert (Hindex : exists w1, indexed "7" ssn_document world0 w1)
    by (eexists; vm_compute; reflexivity).
  split; [reflexivity|]. split; [exact Hdown|]. split; [exact Hindex|].
  split; [exact (hipaa_well_formed _ None (Some ["HIPAA"]))|].
  destruct Hindex as [w1 Hindex].
  destruct (analyze_document_llm_down
              (engine_answering (Raise connection_error)) "7" ssn_document
              (Some ["HIPAA"]) (fun _ _ => Raise connection_error) world0 w1
              eq_refl Hdown Hindex (hipaa_well_formed _ None (Some ["HIPAA"])))
    as (vs & w' & Hrun & Hall).
  change (planned_rules (engine_answering (Raise connection_error))
            (requested_types (engine_answering (Raise connection_error))
               (Some ["HIPAA"])))
    with [("HIPAA", ssn_rule)] in Hall.
  inversion Hall as [|v tr vs' trs (_ & Hv & _ & Hx & Ho & Hs) Hrest]; subst.
  inversion Hrest; subst.
  exists v, w'. split; [exact Hrun|]. split; [exact Hv|].
  destruct Hx as (n & prompt & e & _ & [= <-] & Hx).
  split; [exact Hx|]. split; [exact Ho | exact Hs].
Defined.

Lemma analyze_document_fail_open_witness :
  selected_client (engine_answering (Return "I think so"))
  = Some (fun _ _ => Return "I think so") /\
  (forall (n : nat) (prompt : string),
     exists reply msg,
       (fun _ _ => Return "I think so") n prompt = Return reply /\
       json_loads reply = Raise (JSONDecodeError msg)) /\
  (exists w1, indexed "7" clean_document world0 w1) /\
  well_formed_rules (engine_answering (Return "I think so"))
    (requested_types (engine_answering (Return "I think so"))
       (Some ["HIPAA"])) /\
  exists (v : verdict) (w' : world),
    analyze_document (engine_answering (Return "I think so")) "7"
      clean_document (Some ["HIPAA"]) world0
    = (Return [v], w') /\
    llm_violation v = PyBool true /\
    llm_explanation v = PyStr "I think so" /\
    overall_violation v = PyBool true /\
    confidence_score v
    = PyFloat (FFin (if pattern_violation v then 0.8 else 0.5)).
Proof.
  assert (Hopen : forall (n : nat) (prompt : string),
             exists reply msg,
               (fun _ _ => Return "I think so") n prompt = Return reply /\
               json_loads reply = Raise (JSONDecodeError msg))
    by (intros n prompt; eexists _, _; split; [reflexivity|];
        vm_compute; reflexivity).
  assert (Hindex : exists w1, indexed "7" clean_document world0 w1)
    by (eexists; vm_compute; reflexivity).
  split; [reflexivity|]. split; [exact Hopen|]. split; [exact Hindex|].
  split; [exact (hipaa_well_formed _ None (Some ["HIPAA"]))|].
  destruct Hindex as [w1 Hindex].
  destruct (analyze_document_fail_open
              (engine_answering (Return "I think so")) "7" clean_document
              (Some ["HIPAA"]) (fun _ _ => Return "I think so") world0 w1
              eq_refl Hopen Hindex (hipaa_well_formed _ None (Some ["HIPAA"])))
    as (vs & w' & Hrun & Hall).
  change (planned_rules (engine_answering (Return "I think so"))
            (requested_types (engine_answering (Return "I think so"))
               (Some ["HIPAA"])))
    with [("HIPAA", ssn_rule)] in Hall.
  inversion Hall as [|v tr vs' trs (_ & Hv & _ & Hx & Ho & Hs) Hrest]; subst.
  inversion Hrest; subst.
  exists v, w'. split; [exact Hrun|]. split; [exact Hv|].
  destruct Hx as (n & prompt & reply & _ & [= <-] & Hx).
  split; [exact Hx|]. split; [exact Ho | exact Hs].
Defined.

Lemma analyze_document_skips_unknown_witness :
  (forall t, In t ["PCI"] -> dict_lookup t (rules engine_without_llm) = None) /\
  exists w1,
    add_document_to_vector_db "7" ssn_document [("doc_id", PyStr "7")] world0
    = (Return tt, w1) /\
    analyze_document engine_without_llm "7" ssn_document (Some ["PCI"]) world0
    = (Return [], w1).
Proof.
  assert (Hnone : forall t, In t ["PCI"] ->
                    dict_lookup t (rules engine_without_llm) = None)
    by (intros t [<-|[]]; reflexivity).
  split; [exact Hnone|].
  assert (E : exists w1,
             add_document_to_vector_db "7" ssn_document [("doc_id", PyStr "7")]
               world0 = (Return tt, w1))
    by (eexists; vm_compute; reflexivity).
  destruct E as (w1 & E). exists w1. split; [exact E|].
  exact (proj2 (analyze_document_skips_unknown engine_without_llm "7" ssn_document
                  ["PCI"] world0) Hnone w1 E).
Defined.

Lemma analyze_document_indexing_first_witness :
  0 < len ssn_document /\
  (forall entry,
     chroma_add (PyRuntime := rejecting_runtime) (collection world0) entry
     = Raise quota_error) /\
  analyze_document (rt := rejecting_runtime) engine_without_llm "7"
    ssn_document None world0
  = (Raise quota_error, world0).
Proof.
  split; [reflexivity|]. split; [intros entry; reflexivity|].
  exact (proj1 (analyze_document_indexing_first (rt := rejecting_runtime)
                  engine_without_llm "7" ssn_document None world0 quota_error)
           eq_refl (fun entry => eq_refl)).
Defined.

Lemma add_document_to_vector_db_entries_witness :
  (forall c entry, chroma_add c entry = Return (c ++ [entry])%list) /\
  add_document_to_vector_db "7" ssn_document [("doc_id", PyStr "7")] world0
  = (Return tt,
     mk_world [mk_entry ssn_document
                 [("doc_id", PyStr "7"); ("chunk_id", PyInt 0)] "7_chunk_0"]
       0 0).
Proof.
  split; [intros c entry; reflexivity|].
  exact (proj1 (add_document_to_vector_db_entries "7" ssn_document world0
                  (fun c entry => eq_refl))).
Defined.

Lemma generate_compliance_report_bounds_witness :
  three_results <> [] /\
  exists rep : report,
    generate_compliance_report three_results = Return rep /\
    detailed_results rep = Some three_results /\
    exists (s : report_summary) (score : Q),
      summary rep = Some s /\ compliance_score s = FFin score /\
      0 <= high_confidence_violations s /\
      high_confidence_violations s <= total_violations s /\
      total_violations s <= total_checks s /\
      (0 <= score)%Q /\ (score <= 100)%Q /\
      (total_violations s = 0 -> (score == 100)%Q) /\
      (total_checks s <= 2 ^ 53 -> (score == 100)%Q -> total_violations s = 0) /\
      ((score == 0)%Q <-> total_violations s = total_checks s).
Proof.
  split; [discriminate|].
  assert (E : exists rep, generate_compliance_report three_results = Return rep)
    by (eexists; reflexivity).
  destruct E as [rep E]. exists rep. split; [exact E|].
  exact (generate_compliance_report_bounds three_results rep
           ltac:(discriminate) E).
Defined.

Lemma report_without_llm_witness :
  openai_client engine_without_llm = None /\
  anthropic_client engine_without_llm = None /\
  exists (vs : list verdict) (w' : world) (rep : report) (s : report_summary),
    analyze_document engine_without_llm "7" ssn_document None world0
    = (Return vs, w') /\
    generate_compliance_report vs = Return rep /\
    vs <> [] /\
    summary rep = Some s /\
    total_violations s = count (filter pattern_violation vs) /\
    high_confidence_violations s = total_violations s.
Proof.
  split; [reflexivity|]. split; [reflexivity|].
  assert (E : exists vs w',
             analyze_document engine_without_llm "7" ssn_document None world0
             = (Return vs, w') /\ vs <> [] /\
             exists rep, generate_compliance_report vs = Return rep).
  { eexists _, _. split; [vm_compute; reflexivity|].
    split; [discriminate|]. eexists. vm_compute. reflexivity. }
  destruct E as (vs & w' & E & Hne & rep & Hrep).
  destruct (report_without_llm engine_without_llm "7" ssn_document None world0 w'
              vs rep eq_refl eq_refl E Hrep Hne)
    as (s & Hs & _ & Hv & Hh & _).
  exists vs, w', rep, s.
  split; [exact E|]. split; [exact Hrep|]. split; [exact Hne|].
  split; [exact Hs|]. split; [exact Hv | exact Hh].
Defined.

Lemma load_all_rules_only_rule_files_witness :
  load_all_rules (Return rules_directory)
  = Return [("GDPR", gdpr_value); ("HIPAA", hipaa_value)] /\
  dict_lookup "HIPAA" [("GDPR", gdpr_value); ("HIPAA", hipaa_value)]
  = Some hipaa_value /\
  exists filename entry,
    In (filename, entry) rules_directory /\ is_rule_file filename = true /\
    "HIPAA" = rule_type_of filename /\
    json_load decode_locale entry = Return hipaa_value.
Proof.
  split; [reflexivity|]. split; [reflexivity|].
  exact (proj2 (proj2 (load_all_rules_only_rule_files rules_directory))
           _ "HIPAA" hipaa_value eq_refl eq_refl).
Defined.

Lemma ComplianceEngine_init_clients_witness :
  load_all_rules (Return rules_directory)
  = Return [("GDPR", gdpr_value); ("HIPAA", hipaa_value)] /\
  no_key (no_environment "OPENAI_API_KEY") /\
  no_key (no_environment "ANTHROPIC_API_KEY") /\
  (exists prompt, build_prompt ssn_document ssn_rule = Return prompt) /\
  exists self,
    ComplianceEngine_init no_environment (Return rules_directory) = Return self /\
    llm_compliance_check self ssn_document ssn_rule world0
    = (Return no_llm_verdict, world0).
Proof.
  assert (Hload : load_all_rules (Return rules_directory)
                  = Return [("GDPR", gdpr_value); ("HIPAA", hipaa_value)])
    by reflexivity.
  split; [exact Hload|]. split; [now left|]. split; [now left|].
  split; [eexists; reflexivity|].
  destruct (proj2 (ComplianceEngine_init_clients no_environment
                     (Return rules_directory))
              [("GDPR", gdpr_value); ("HIPAA", hipaa_value)] Hload)
    as (self & Hinit & _ & Hnone & _).
  exists self. split; [exact Hinit|].
  exact (Hnone (or_introl eq_refl) (or_introl eq_refl) ssn_document ssn_rule _
           world0 eq_refl).
Defined.

Lemma rules_directory_names :
  NoDup (map fst rules_directory) /\
  (forall f n, In (f, n) rules_directory -> is_rule_file f = true ->
     str_lower (rule_type_of f) ++ "_rules.json" = f) /\
  (forall f bytes, In (f, File bytes) rules_directory -> is_rule_file f = true ->
     decode_utf8 bytes = decode_locale bytes).
Proof.
  split; [|split].
  - repeat constructor; simpl; intuition discriminate.
  - intros f n [[= <- <-]|[[= <- <-]|[[= <- <-]|[]]]] Hf;
      [reflexivity | discriminate | reflexivity].
  - intros f bytes [[= <- <-]|[[= <- <-]|[[= <- <-]|[]]]] Hf;
      [reflexivity | discriminate | reflexivity].
Defined.

Lemma rules_load_all_rules_agrees_witness :
  NoDup (map fst rules_directory) /\
  (forall f n, In (f, n) rules_directory -> is_rule_file f = true ->
     str_lower (rule_type_of f) ++ "_rules.json" = f) /\
  (forall f bytes, In (f, File bytes) rules_directory -> is_rule_file f = true ->
     decode_utf8 bytes = decode_locale bytes) /\
  load_all_rules (Return rules_directory)
  = Return [("GDPR", gdpr_value); ("HIPAA", hipaa_value)] /\
  rules_load_all_rules (fun name => "app/rules/" ++ name) (Return rules_directory)
  = Return [("GDPR", gdpr_value); ("HIPAA", hipaa_value)].
Proof.
  assert (Hload : load_all_rules (Return rules_directory)
                  = Return [("GDPR", gdpr_value); ("HIPAA", hipaa_value)])
    by reflexivity.
  split; [exact (proj1 rules_directory_names)|].
  split; [exact (proj1 (proj2 rules_directory_names))|].
  split; [exact (proj2 (proj2 rules_directory_names))|].
  split; [exact Hload|].
  exact (rules_load_all_rules_agrees (fun name => "app/rules/" ++ name)
           rules_directory [("GDPR", gdpr_value); ("HIPAA", hipaa_value)]
           (proj1 rules_directory_names)
           (proj1 (proj2 rules_directory_names))
           (proj2 (proj2 rules_directory_names)) Hload).
Defined.


Lemma extract_text_from_file_spec_witness :
  file_extension "Report.Final.EXE" = "exe" /\
  "exe" <> "pdf" /\ "exe" <> "docx" /\ "exe" <> "txt" /\
  extract_text_from_file "uploads/Report.Final.EXE" "Report.Final.EXE"
  = HTTPException 400 "Error extracting text: Unsupported file format: exe".
Proof.
  split; [reflexivity|].
  assert (H1 : "exe" <> "pdf") by discriminate.
  assert (H2 : "exe" <> "docx") by discriminate.
  assert (H3 : "exe" <> "txt") by discriminate.
  split; [exact H1|]. split; [exact H2|]. split; [exact H3|].
  exact (proj1 (proj2 (proj2 (extract_text_from_file_spec
                                "uploads/Report.Final.EXE" "Report.Final.EXE")))
           H1 H2 H3).
Defined.

Lemma analyze_compliance_spec_witness :
  exists (a : analysis_response) (w' : world) (stored' : list compliance_result),
    analyze_compliance engine_without_llm 7 None world0 []
    = (Response a, w', stored') /\
    exists added : list compliance_result,
      stored' = ([] ++ added)%list /\
      Forall (fun row => row_document_id row = 7) added /\
      (forall a0, Response a = Response a0 ->
         exists document results,
           first_document 7 = Some document /\
           response_document_id a0 = 7 /\
           response_document_name a0 = doc_filename document /\
           added = map (result_row 7) results /\
           Forall2 (verdict_of_rule (str_of_Z 7) (doc_content document))
             results
             (planned_rules engine_without_llm
                (map fst (rules engine_without_llm))) /\
           generate_compliance_report results = Return (analysis_results a0) /\
           llm_calls w'
           = (llm_calls world0
              + if has_client engine_without_llm
                then List.length added else 0)%nat) /\
      (forall code detail, Response a = HTTPException code detail ->
         (code = 404 /\ detail = "Document not found" /\
          first_document 7 = None /\ w' = world0 /\ added = []) \/
         (code = 500 /\ first_document 7 <> None /\
          exists e, detail = "Analysis failed: " ++ exn_str e)).
Proof.
  assert (E : exists a w' stored',
             analyze_compliance engine_without_llm 7 None world0 []
             = (Response a, w', stored'))
    by (eexists _, _, _; vm_compute; reflexivity).
  destruct E as (a & w' & stored' & E). exists a, w', stored'.
  split; [exact E|].
  exact (analyze_compliance_spec engine_without_llm 7 None world0 w' [] stored'
           (Response a) E).
Defined.

(** The two loaders differ on a rule file that is not UTF-8: where the
    encoding of the locale is ISO 8859-1 the engine loads it, the package
    raises UnicodeDecodeError on it. *)
Example loaders_differ_on_encoding :
  load_all_rules (Return accented_directory) = Return [("GDPR", accented_value)] /\
  rules_load_all_rules (fun name => "app/rules/" ++ name)
    (Return accented_directory)
  = Raise (OtherException "UnicodeDecodeError"
             "'utf-8' codec can't decode bytes: invalid start byte").
Proof. split; vm_compute; reflexivity. Qed.

(** [round64] against the binary64 arithmetic of the kernel, on the
    operations of the score of one verdict in three and on the quotients of
    [format_file_size]. *)
Example round64_agrees_with_binary64 :
  float_value (PrimFloat.div (PrimFloat.of_uint63 1) (PrimFloat.of_uint63 3))
  = Some (Qred (round64 (1 / 3))) /\
  float_value (PrimFloat.mul
                 (PrimFloat.div (PrimFloat.of_uint63 1) (PrimFloat.of_uint63 3))
                 (PrimFloat.of_uint63 100))
  = Some (Qred (percentage 3 2 3)) /\
  float_value (PrimFloat.div (PrimFloat.of_uint63 100) (PrimFloat.of_uint63 3))
  = Some (Qred (round64 (100 / 3))) /\
  float_value (PrimFloat.div (PrimFloat.of_uint63 1048575)
                 (PrimFloat.of_uint63 1024))
  = Some (Qred (round64 (1048575 / 1024))).
Proof. repeat split; vm_compute; reflexivity. Qed.

(** The number shown can read 1024.0: one byte short of a mebibyte. *)
Example format_file_size_edge :
  format_file_size 1048575 = Return "1024.0 KB" /\
  format_file_size 1048576 = Return "1.0 MB" /\
  format_file_size 512 = Return "512.0 B" /\
  format_file_size 1536 = Return "1.5 KB".
Proof. repeat split; vm_compute; reflexivity. Qed.

Lemma format_file_size_unit_witness :
  0 < 1048575 < 2 ^ 53 /\
  exists (number : Q) (i : nat) (unit : string) (tenths : Z),
    format_file_size 1048575
    = Return (str_of_Z (tenths / 10) ++ "." ++ str_of_Z (tenths mod 10)
                ++ " " ++ unit) /\
    nth_error ["B"; "KB"; "MB"; "GB"] i = Some unit /\
    (number * inject_Z (1024 ^ Z.of_nat i) == inject_Z 1048575)%Q /\
    ((i < 3)%nat -> (number < 1024)%Q) /\
    ((0 < i)%nat -> (1 <= number)%Q) /\
    (Qabs (inject_Z tenths / 10 - number) <= 1 # 20)%Q /\
    ((i < 3)%nat -> tenths <= 10240) /\
    ((0 < i)%nat -> 10 <= tenths).
Proof.
  split; [lia|].
  exact (proj2 (format_file_size_unit 1048575) ltac:(lia)).
Defined.

End MoreExamples.
